(** * InstaClaw: the metering-and-routing kernel of [app.py]

    A shallow embedding of the [/api/chat] endpoint of the gateway and of
    the functions it calls: the provider adapters with their deterministic
    fallbacks, the cost tables, the [require_api_key] decorator with its
    billing-period rollover, the rate-limit resolver [get_rate_limit], and
    the body of [chat] with its quota gate, its debit and its usage
    recording.

    Conventions.
    - Python [int] is [Z]; Python [float] and SQLite [REAL] are the kernel's
      binary64 [float], so every product, sum and quotient rounds as it
      does in the program.
    - An SQLite [INTEGER] holds the integers of [-2^63, 2^63), and sqlite3
      binds no other [int]: the SQL statements that write a count are
      modelled for counts in that range.
    - Python [str] is [string], a character being a code point below 256.
    - A [datetime] is a [Z], the microseconds since the midnight of some
      day; the ISO text kept in the database is that number
      ([fromisoformat] undoes [isoformat]).
    - A Python [dict] used as a table is a [gmap]; an SQL table is the list
      of its rows, except [analytics_daily], whose primary key makes it a
      [gmap].
    - What a request meets outside the program (the clock, the upstream
      providers, the verdict of the rate limiter's storage) is gathered in
      a record [Env], one per request. *)

From Stdlib Require Import ZArith Floats String Ascii List Lia.
From stdpp Require Import base option list gmap strings.

Set Warnings "-inexact-float".
#[local] Open Scope string_scope.
#[local] Open Scope Z_scope.

(** ** Python floats *)

Module PyFloat.

(** The binary64 number nearest to [p / q], ties to even: the value of a
    decimal literal, of [float(n)] and of [int / int]. The quotient is
    taken with 56 bits or more, and what is left of the division is
    handed to the rounding as the location of the exact value. *)
Definition of_ratio (p : Z) (q : positive) : float :=
  match p with
  | Z0 => PrimFloat.zero
  | _ =>
      let a := Z.abs p in
      let s := Z.max 0 (56 + Z.log2 (Zpos q) - Z.log2 a) in
      let n := a * 2 ^ s in
      let m := n / Zpos q in
      let r := n mod Zpos q in
      let l := if r =? 0 then loc_Exact else loc_Inexact (2 * r ?= Zpos q) in
      SF2Prim (binary_round_aux prec emax (p <? 0) m (- s) l)
  end.

(** [float(n)] *)
Definition of_Z (n : Z) : float := of_ratio n 1.

(** [int(x)]: truncation towards zero. Python raises on an infinity or a
    NaN; the model answers 0 there. *)
Definition to_int (x : float) : Z :=
  match Prim2SF x with
  | S754_finite s m e =>
      let a := if 0 <=? e then Zpos m * 2 ^ e else Zpos m / 2 ^ (- e) in
      if s then - a else a
  | _ => 0
  end.

(** [round(x, 6)]: the exact value of [x] is rounded to six decimals,
    halves to the even neighbour, and the decimal obtained is read back
    as a float. *)
Definition round6 (x : float) : float :=
  match Prim2SF x with
  | S754_finite s m e =>
      let num := Zpos m * 1000000 * 2 ^ Z.max 0 e in
      let den := 2 ^ Z.max 0 (- e) in
      let q := num / den in
      let r := num mod den in
      let k := match 2 * r ?= den with
               | Lt => q
               | Gt => q + 1
               | Eq => if Z.even q then q else q + 1
               end in
      if k =? 0 then (if s then PrimFloat.neg_zero else PrimFloat.zero)
      else of_ratio (if s then - k else k) 1000000
  | _ => x
  end.

(** [a / b] on two [int]s: [None] stands for [ZeroDivisionError]; a zero
    numerator over a negative denominator gives the negative zero. *)
Definition truediv (a b : Z) : option float :=
  match b with
  | Z0 => None
  | Zpos q => Some (of_ratio a q)
  | Zneg q => Some (if a =? 0 then PrimFloat.neg_zero else of_ratio (- a) q)
  end.

(** [min(100, x)]: Python keeps the first argument unless the second is
    strictly smaller. *)
Definition min100 (x : float) : float :=
  if PrimFloat.ltb x 100 then x else 100%float.

End PyFloat.

(** ** Python strings *)

Module PyStr.

(** [str.isspace] on one character. *)
Definition is_space (c : ascii) : bool :=
  let n := N_of_ascii c in
  ((9 <=? n) && (n <=? 13) || (28 <=? n) && (n <=? 32)
   || (n =? 133) || (n =? 160))%N.

Fixpoint split_go (cur : list ascii) (s : list ascii) : list string :=
  match s with
  | [] => match cur with [] => [] | _ => [string_of_list_ascii (rev cur)] end
  | c :: s' =>
      if is_space c
      then match cur with
           | [] => split_go [] s'
           | _ => string_of_list_ascii (rev cur) :: split_go [] s'
           end
      else split_go (c :: cur) s'
  end.

(** [s.split()]: the maximal runs of characters that are not spaces. *)
Definition split (s : string) : list string :=
  split_go [] (list_ascii_of_string s).

(** [s.startswith(p)] *)
Definition startswith (s p : string) : bool := String.prefix p s.

(** [s[:n]] *)
Definition take (n : nat) (s : string) : string := String.substring 0 n s.

(** [not s], the truth value of a string. *)
Definition falsy (s : string) : bool :=
  match s with EmptyString => true | _ => false end.

(** [a or b] where each side is a string or [None]. *)
Definition or_else (a b : option string) : option string :=
  match a with
  | Some s => if falsy s then b else a
  | None => b
  end.

End PyStr.

(** ** Plans and rates *)

Record Tier := {
  tokens_per_month : Z;
  rate_limit : string;
  price_per_month : float;
  stripe_price_id : option string
}.

Definition SUBSCRIPTION_TIERS : gmap string Tier :=
  list_to_map
    [ ("free",
       {| tokens_per_month := 10000; rate_limit := "100/hour";
          price_per_month := 0; stripe_price_id := None |});
      ("starter",
       {| tokens_per_month := 100000; rate_limit := "1000/hour";
          price_per_month := 9.99; stripe_price_id := Some "price_starter_monthly" |});
      ("pro",
       {| tokens_per_month := 1000000; rate_limit := "5000/hour";
          price_per_month := 49.99; stripe_price_id := Some "price_pro_monthly" |});
      ("enterprise",
       {| tokens_per_month := 10000000; rate_limit := "20000/hour";
          price_per_month := 199.99;
          stripe_price_id := Some "price_enterprise_monthly" |}) ].

Definition openai_rates : gmap string float :=
  list_to_map
    [ ("gpt-4", 0.00003%float);
      ("gpt-3.5-turbo", 0.000002%float);
      ("gpt-4-turbo", 0.00001%float) ].

Definition anthropic_rates : gmap string float :=
  list_to_map
    [ ("claude-3-sonnet-20240229", 0.000015%float);
      ("claude-3-haiku-20240307", 0.000001%float);
      ("claude-3-opus-20240229", 0.000075%float) ].

Definition calculate_openai_cost (model : string) (tokens : Z) : float :=
  (PyFloat.of_Z tokens * default 0.000002 (openai_rates !! model))%float.

Definition calculate_anthropic_cost (model : string) (tokens : Z) : float :=
  (PyFloat.of_Z tokens * default 0.000015 (anthropic_rates !! model))%float.

(** ** Provider adapters *)

(** The dictionary every adapter returns. *)
Record ProviderResult := {
  response : string;
  tokens : Z;
  cost : float;
  model : string;
  response_time : float;
  provider : string
}.

Definition mock_text (model prompt : string) : string :=
  ("[MOCK] This is a simulated response from " ++ model ++ " to: '"
     ++ PyStr.take 50 prompt ++ "...'")%string.

Definition call_openai_mock (prompt model : string) : ProviderResult :=
  let tokens := (PyFloat.of_Z (Z.of_nat (length (PyStr.split prompt))) * 1.3)%float in
  let cost := calculate_openai_cost model (PyFloat.to_int tokens) in
  {| response := mock_text model prompt;
     tokens := PyFloat.to_int tokens;
     cost := PyFloat.round6 cost;
     model := model;
     response_time := 0.5;
     provider := "openai" |}.

Definition call_claude_mock (prompt model : string) : ProviderResult :=
  let tokens := (PyFloat.of_Z (Z.of_nat (length (PyStr.split prompt))) * 1.2)%float in
  let cost := calculate_anthropic_cost model (PyFloat.to_int tokens) in
  {| response := mock_text model prompt;
     tokens := PyFloat.to_int tokens;
     cost := PyFloat.round6 cost;
     model := model;
     response_time := 0.7;
     provider := "anthropic" |}.

(** What a live upstream answers: the text, the token counts of its usage
    report, and the seconds between the two clock readings around the
    call. *)
Record OpenAIReply := {
  choice_content : string;
  total_tokens_reported : Z;
  openai_seconds : float
}.

Record AnthropicReply := {
  content_text : string;
  input_tokens : Z;
  output_tokens : Z;
  anthropic_seconds : float
}.

(** A live upstream, when one is configured: for a model and a prompt it
    answers, or raises ([None]). *)
Definition Upstream (R : Type) : Type := string -> string -> option R.

Definition call_openai_api
    (live : option (Upstream OpenAIReply)) (prompt model : string) : ProviderResult :=
  match live with
  | None => call_openai_mock prompt model
  | Some create =>
      match create model prompt with
      | Some r =>
          let tokens := total_tokens_reported r in
          {| response := choice_content r;
             tokens := tokens;
             cost := calculate_openai_cost model tokens;
             model := model;
             response_time := openai_seconds r;
             provider := "openai" |}
      | None => call_openai_mock prompt model
      end
  end.

Definition call_anthropic_api
    (live : option (Upstream AnthropicReply)) (prompt model : string) : ProviderResult :=
  match live with
  | None => call_claude_mock prompt model
  | Some create =>
      match create model prompt with
      | Some r =>
          let tokens := input_tokens r + output_tokens r in
          {| response := content_text r;
             tokens := tokens;
             cost := calculate_anthropic_cost model tokens;
             model := model;
             response_time := anthropic_seconds r;
             provider := "anthropic" |}
      | None => call_claude_mock prompt model
      end
  end.

(** ** The database *)

(** A row of [users], with the columns the kernel reads or writes. *)
Record User := {
  uid : string;
  api_key : string;
  subscription_tier : string;
  tokens_included : Z;
  tokens_used : Z;
  tokens_reset_date : Z;
  is_active : bool;
  updated_at : Z
}.

(** A row of [usage_logs]; its [id] is its position in the table. *)
Record UsageLog := {
  log_user_id : string;
  log_provider : string;
  log_model : string;
  log_tokens : Z;
  log_cost : float;
  log_endpoint : string;
  log_response_time : float;
  log_timestamp : Z
}.

(** A row of [analytics_daily] under its key [(date, user_id)]. *)
Record DailyRow := {
  total_requests : Z;
  total_tokens : Z;
  total_cost : float;
  avg_response_time : float
}.

Record Store := {
  users : list User;
  usage_logs : list UsageLog;
  analytics_daily : gmap (Z * string) DailyRow
}.

Module Sql.

(** [SELECT ... FROM users WHERE api_key = ?] followed by [fetchone]. *)
Definition select_user_by_api_key (key : string) (us : list User) : option User :=
  List.find (fun u => String.eqb (api_key u) key) us.

(** [UPDATE users SET tokens_used = 0, tokens_reset_date = ? WHERE api_key = ?] *)
Definition reset_row (date : Z) (u : User) : User :=
  {| uid := uid u; api_key := api_key u;
     subscription_tier := subscription_tier u;
     tokens_included := tokens_included u;
     tokens_used := 0;
     tokens_reset_date := date;
     is_active := is_active u; updated_at := updated_at u |}.

Definition update_reset (date : Z) (key : string) (us : list User) : list User :=
  List.map (fun u => if String.eqb (api_key u) key then reset_row date u else u) us.

(** [UPDATE users SET tokens_used = ?, updated_at = ? WHERE id = ?] *)
Definition usage_row (used now : Z) (u : User) : User :=
  {| uid := uid u; api_key := api_key u;
     subscription_tier := subscription_tier u;
     tokens_included := tokens_included u;
     tokens_used := used;
     tokens_reset_date := tokens_reset_date u;
     is_active := is_active u; updated_at := now |}.

Definition update_usage (used now : Z) (id : string) (us : list User) : list User :=
  List.map (fun u => if String.eqb (uid u) id then usage_row used now u else u) us.

(** [INSERT OR REPLACE INTO analytics_daily ...]: each [COALESCE] reads
    the row the statement is about to replace. *)
Definition upsert_daily (date : Z) (id : string) (toks : Z) (cst rt : float)
    (a : gmap (Z * string) DailyRow) : gmap (Z * string) DailyRow :=
  let old := a !! (date, id) in
  <[ (date, id) :=
       {| total_requests := default 0 (total_requests <$> old) + 1;
          total_tokens := default 0 (total_tokens <$> old) + toks;
          total_cost := (default 0%float (total_cost <$> old) + cst)%float;
          avg_response_time := rt |} ]> a.

End Sql.

Definition micros_per_day : Z := 86400000000.

(** [timedelta(days=30)] *)
Definition thirty_days : Z := 30 * micros_per_day.

(** [strftime('%Y-%m-%d')]: the day a moment falls in. *)
Definition date_of (t : Z) : Z := t / micros_per_day.

(** ** A request and what it meets *)

Record Request := {
  header_api_key : option string;   (* request.headers.get('X-API-Key') *)
  arg_api_key : option string;      (* request.args.get('api_key') *)
  req_prompt : string;              (* data.get('prompt', '') *)
  req_model : string;               (* data.get('model', 'auto') *)
  req_provider : string             (* data.get('provider', 'auto') *)
}.

Record Env := {
  openai_live : option (Upstream OpenAIReply);       (* None: no OPENAI_API_KEY *)
  anthropic_live : option (Upstream AnthropicReply); (* None: no client *)
  limiter_allows : string -> bool;  (* the limiter's verdict under a given limit *)
  now_check : Z;                    (* datetime.now() compared with the reset date *)
  now_reset : Z;                    (* datetime.now() of the new reset date *)
  now_log : Z;                      (* timestamp of the usage log *)
  now_debit : Z;                    (* updated_at of the debit *)
  now_today : Z                     (* datetime.now() behind today *)
}.

(** What [require_api_key] leaves on the request object. *)
Record Ctx := {
  ctx_user_id : string;
  ctx_tier : string;
  ctx_tokens_included : Z;
  ctx_tokens_used : Z
}.

(** The JSON body of a successful answer. *)
Record ChatResponse := {
  r_response : string;
  model_used : string;
  r_provider : string;
  r_tokens_used : Z;
  r_cost : float;
  r_response_time : float;
  total_tokens_used : Z;
  remaining_quota : Z;
  quota_percentage : float
}.

Inductive Reply :=
  | Ok (r : ChatResponse)            (* 200 *)
  | ApiKeyRequired                   (* 401, "API key required" *)
  | InvalidOrInactiveKey             (* 401, "Invalid or inactive API key" *)
  | RateLimited                      (* 429 of the limiter *)
  | PromptRequired                   (* 400 *)
  | QuotaExceeded                    (* 429, "quota_exceeded": true *)
  | ServerError.                     (* 500: ZeroDivisionError in the body *)

(** A call of one of the two adapters. *)
Record ProviderCall := {
  called_provider : string;
  called_model : string;
  called_prompt : string
}.

(** What serving a request leaves behind: the answer, the database, and
    the adapter calls made on the way. *)
Record Outcome := {
  reply : Reply;
  store : Store;
  calls : list ProviderCall
}.

Definition AuthDenied (r : Reply) : Prop :=
  r = ApiKeyRequired \/ r = InvalidOrInactiveKey.

(** ** Provider routing *)

(** The branch of [chat] that picks the adapter and the model it is called
    with. *)
Definition select (requested_model requested_provider : string) : string * string :=
  if String.eqb requested_provider "openai"
     || String.eqb requested_provider "auto" && PyStr.startswith requested_model "gpt"
  then ("openai",
        if negb (String.eqb requested_model "auto") then requested_model
        else "gpt-3.5-turbo")
  else if String.eqb requested_provider "anthropic"
          || String.eqb requested_provider "auto" && PyStr.startswith requested_model "claude"
  then ("anthropic",
        if negb (String.eqb requested_model "auto") then requested_model
        else "claude-3-sonnet-20240229")
  else ("openai", "gpt-3.5-turbo").

(** The adapter a provider name stands for. *)
Definition complete (env : Env) (prov model prompt : string) : ProviderResult :=
  if String.eqb prov "anthropic"
  then call_anthropic_api (anthropic_live env) prompt model
  else call_openai_api (openai_live env) prompt model.

(** ** Authentication, rollover and the rate limit *)

Definition credential (rq : Request) : option string :=
  PyStr.or_else (header_api_key rq) (arg_api_key rq).

Definition get_rate_limit (rq : Request) (s : Store) : string :=
  match credential rq with
  | None => "100/hour"
  | Some key =>
      if PyStr.falsy key then "100/hour"
      else match Sql.select_user_by_api_key key (users s) with
           | Some u =>
               default "100/hour"
                 (rate_limit <$> SUBSCRIPTION_TIERS !! subscription_tier u)
           | None => "100/hour"
           end
  end.

Definition with_users (us : list User) (s : Store) : Store :=
  {| users := us; usage_logs := usage_logs s; analytics_daily := analytics_daily s |}.

Definition ctx_of (u : User) (used : Z) : Ctx :=
  {| ctx_user_id := uid u; ctx_tier := subscription_tier u;
     ctx_tokens_included := tokens_included u; ctx_tokens_used := used |}.

Definition Handler : Type := Env -> Request -> Ctx -> Store -> Outcome.

Definition reject (r : Reply) (s : Store) : Outcome :=
  {| reply := r; store := s; calls := [] |}.

(** The decorator [require_api_key] around a view [f]. *)
Definition require_api_key (f : Handler) (env : Env) (rq : Request) (s : Store) : Outcome :=
  match credential rq with
  | None => reject ApiKeyRequired s
  | Some key =>
      if PyStr.falsy key then reject ApiKeyRequired s
      else
        match Sql.select_user_by_api_key key (users s) with
        | None => reject InvalidOrInactiveKey s
        | Some u =>
            if negb (is_active u) then reject InvalidOrInactiveKey s
            else if tokens_reset_date u <? now_check env
            then
              let new_reset_date := now_reset env + thirty_days in
              f env rq (ctx_of u 0)
                (with_users (Sql.update_reset new_reset_date key (users s)) s)
            else f env rq (ctx_of u (tokens_used u)) s
        end
  end.

(** The decorator [limiter.limit(get_rate_limit)] around a view [f]. It is
    written between [require_api_key] and the view, and is modelled
    there. The limit is a callable: the limiter calls it at each request
    and asks its storage whether the caller is within that limit. *)
Definition limit (f : Handler) : Handler := fun env rq ctx s =>
  if limiter_allows env (get_rate_limit rq s) then f env rq ctx s
  else reject RateLimited s.

(** ** The view [chat] *)

Definition called (prov model prompt : string) : ProviderCall :=
  {| called_provider := prov; called_model := model; called_prompt := prompt |}.

(** The routing branch of [chat], with the call it makes. *)
Definition route (env : Env) (prompt model provider : string)
    : ProviderResult * ProviderCall :=
  if String.eqb provider "openai"
     || String.eqb provider "auto" && PyStr.startswith model "gpt"
  then
    let m := if negb (String.eqb model "auto") then model else "gpt-3.5-turbo" in
    (call_openai_api (openai_live env) prompt m, called "openai" m prompt)
  else if String.eqb provider "anthropic"
          || String.eqb provider "auto" && PyStr.startswith model "claude"
  then
    let m := if negb (String.eqb model "auto") then model
             else "claude-3-sonnet-20240229" in
    (call_anthropic_api (anthropic_live env) prompt m, called "anthropic" m prompt)
  else
    (call_openai_api (openai_live env) prompt "gpt-3.5-turbo",
     called "openai" "gpt-3.5-turbo" prompt).

Definition usage_log_of (env : Env) (ctx : Ctx) (result : ProviderResult) : UsageLog :=
  {| log_user_id := ctx_user_id ctx;
     log_provider := provider result;
     log_model := model result;
     log_tokens := tokens result;
     log_cost := cost result;
     log_endpoint := "/api/chat";
     log_response_time := response_time result;
     log_timestamp := now_log env |}.

(** The three statements between [connect] and [commit]: the usage log,
    the debit, the daily aggregate. The counts are Python's integers;
    sqlite3 binds an integer as a parameter when it lies in
    [-2^63, 2^63) and raises [OverflowError] otherwise, so these are the
    statements of the view for a call whose tokens and whose new counter
    lie in that range. *)
Definition record_usage (env : Env) (ctx : Ctx) (result : ProviderResult)
    (s : Store) : Store :=
  let new_usage := ctx_tokens_used ctx + tokens result in
  {| users := Sql.update_usage new_usage (now_debit env) (ctx_user_id ctx) (users s);
     usage_logs := usage_logs s ++ [usage_log_of env ctx result];
     analytics_daily :=
       Sql.upsert_daily (date_of (now_today env)) (ctx_user_id ctx)
         (tokens result) (cost result) (response_time result)
         (analytics_daily s) |}.

(** The body returned once the transaction is committed. *)
Definition respond (ctx : Ctx) (result : ProviderResult) : Reply :=
  let new_usage := ctx_tokens_used ctx + tokens result in
  match PyFloat.truediv new_usage (ctx_tokens_included ctx) with
  | None => ServerError
  | Some ratio =>
      Ok {| r_response := response result;
            model_used := model result;
            r_provider := provider result;
            r_tokens_used := tokens result;
            r_cost := cost result;
            r_response_time := response_time result;
            total_tokens_used := new_usage;
            remaining_quota := Z.max 0 (ctx_tokens_included ctx - new_usage);
            quota_percentage := PyFloat.min100 (ratio * 100)%float |}
  end.

Definition commit (env : Env) (ctx : Ctx) (result : ProviderResult)
    (call : ProviderCall) (s : Store) : Outcome :=
  {| reply := respond ctx result;
     store := record_usage env ctx result s;
     calls := [call] |}.

Definition chat : Handler := fun env rq ctx s =>
  if PyStr.falsy (req_prompt rq) then reject PromptRequired s
  else if ctx_tokens_included ctx <=? ctx_tokens_used ctx then reject QuotaExceeded s
  else
    let (result, call) := route env (req_prompt rq) (req_model rq) (req_provider rq) in
    commit env ctx result call s.

(** The endpoint [/api/chat] as it is registered. *)
Definition api_chat : Env -> Request -> Store -> Outcome :=
  require_api_key (limit chat).

(** Requests served one after the other, each in its own environment. *)
Fixpoint serve_all (rs : list (Env * Request)) (s : Store) : Store :=
  match rs with
  | [] => s
  | (env, rq) :: rs' => serve_all rs' (store (api_chat env rq s))
  end.

(** ** Requests served at the same time

    A worker serving a request touches the database in separate
    connections: the [SELECT] of the decorator, its rollover [UPDATE], the
    [SELECT] of [get_rate_limit], and the transaction of [chat]. Between
    two of them another worker may run. A thread is a request together
    with how far its worker has come. *)

Inductive Progress :=
  | Arrived
  | Rolling (key : string) (u : User)
  | Authed (ctx : Ctx)
  | Called (ctx : Ctx) (result : ProviderResult) (call : ProviderCall)
  | Finished (r : Reply) (cs : list ProviderCall).

Record Thread := {
  th_env : Env;
  th_request : Request;
  th_progress : Progress
}.

Definition at_stage (env : Env) (rq : Request) (p : Progress) : Thread :=
  {| th_env := env; th_request := rq; th_progress := p |}.

Definition arrive (env : Env) (rq : Request) : Thread := at_stage env rq Arrived.

(** One step of a worker: the next access to the database, with the
    computation that leads to it. *)
Definition progress_step (env : Env) (rq : Request) (p : Progress) (s : Store)
    : Progress * Store :=
  match p with
  | Arrived =>
      match credential rq with
      | None => (Finished ApiKeyRequired [], s)
      | Some key =>
          if PyStr.falsy key then (Finished ApiKeyRequired [], s)
          else
            match Sql.select_user_by_api_key key (users s) with
            | None => (Finished InvalidOrInactiveKey [], s)
            | Some u =>
                if negb (is_active u) then (Finished InvalidOrInactiveKey [], s)
                else if tokens_reset_date u <? now_check env
                then (Rolling key u, s)
                else (Authed (ctx_of u (tokens_used u)), s)
            end
      end
  | Rolling key u =>
      (Authed (ctx_of u 0),
       with_users (Sql.update_reset (now_reset env + thirty_days) key (users s)) s)
  | Authed ctx =>
      if limiter_allows env (get_rate_limit rq s)
      then
        if PyStr.falsy (req_prompt rq) then (Finished PromptRequired [], s)
        else if ctx_tokens_included ctx <=? ctx_tokens_used ctx
        then (Finished QuotaExceeded [], s)
        else
          let (result, call) :=
            route env (req_prompt rq) (req_model rq) (req_provider rq) in
          (Called ctx result call, s)
      else (Finished RateLimited [], s)
  | Called ctx result call =>
      (Finished (respond ctx result) [call], record_usage env ctx result s)
  | Finished r cs => (Finished r cs, s)
  end.

Definition thread_step (t : Thread) (s : Store) : Thread * Store :=
  let (p, s') := progress_step (th_env t) (th_request t) (th_progress t) s in
  ({| th_env := th_env t; th_request := th_request t; th_progress := p |}, s').

(** A schedule names, step after step, the thread that moves. *)
Fixpoint run (schedule : list nat) (ts : list Thread) (s : Store)
    : list Thread * Store :=
  match schedule with
  | [] => (ts, s)
  | i :: rest =>
      match ts !! i with
      | Some t =>
          let (t', s') := thread_step t s in
          run rest (<[ i := t' ]> ts) s'
      | None => run rest ts s
      end
  end.

(** The account a key resolves to, as the next request would read it. *)
Definition account (key : string) (s : Store) : option User :=
  Sql.select_user_by_api_key key (users s).

(** The plan change a checkout webhook writes:
    [UPDATE users SET subscription_tier = ?, ..., tokens_included = ?,
    updated_at = ? WHERE id = ?]. *)
Definition plan_row (tier : string) (included now : Z) (u : User) : User :=
  {| uid := uid u; api_key := api_key u;
     subscription_tier := tier;
     tokens_included := included;
     tokens_used := tokens_used u;
     tokens_reset_date := tokens_reset_date u;
     is_active := is_active u; updated_at := now |}.

Definition update_plan (tier : string) (included now : Z) (id : string)
    (s : Store) : Store :=
  with_users
    (List.map (fun u => if String.eqb (uid u) id then plan_row tier included now u else u)
       (users s)) s.

(** A request carries a credential that resolves to the active account [u]. *)
Definition authenticates (rq : Request) (s : Store) (key : string) (u : User) : Prop :=
  credential rq = Some key /\ PyStr.falsy key = false /\
  account key s = Some u /\ is_active u = true.

(** The counter the quota gate reads: the stored one, or 0 once the
    decorator has rolled the period over. *)
Definition precall (env : Env) (u : User) : Z :=
  if tokens_reset_date u <? now_check env then 0 else tokens_used u.

(** The database as the decorator hands it to the view. *)
Definition after_auth (env : Env) (key : string) (u : User) (s : Store) : Store :=
  if tokens_reset_date u <? now_check env
  then with_users (Sql.update_reset (now_reset env + thirty_days) key (users s)) s
  else s.

(** A live upstream that is not configured, or that raises on this model
    and prompt. *)
Definition upstream_down {R : Type} (live : option (Upstream R))
    (model prompt : string) : Prop :=
  match live with
  | None => True
  | Some create => create model prompt = None
  end.

(** The fallback of the adapter [select] names. *)
Definition fallback (prov model prompt : string) : ProviderResult :=
  if String.eqb prov "anthropic" then call_claude_mock prompt model
  else call_openai_mock prompt model.

(** The account row as the decorator leaves it. *)
Definition rolled (env : Env) (u : User) : User :=
  if tokens_reset_date u <? now_check env
  then Sql.reset_row (now_reset env + thirty_days) u
  else u.

(** ** Fixtures *)

Definition no_upstream (limiter : string -> bool) (now : Z) : Env :=
  {| openai_live := None; anthropic_live := None; limiter_allows := limiter;
     now_check := now; now_reset := now; now_log := now; now_debit := now;
     now_today := now |}.

(** OpenAI is configured and answers every call; Anthropic is not
    configured. *)
Definition openai_only (limiter : string -> bool) (now : Z) : Env :=
  {| openai_live :=
       Some (fun _ _ => Some {| choice_content := "Hello!";
                                total_tokens_reported := 12;
                                openai_seconds := 0.25 |});
     anthropic_live := None; limiter_allows := limiter;
     now_check := now; now_reset := now; now_log := now; now_debit := now;
     now_today := now |}.

Definition post (key prompt model provider : string) : Request :=
  {| header_api_key := Some key; arg_api_key := None;
     req_prompt := prompt; req_model := model; req_provider := provider |}.

Definition demo_user (included used reset : Z) : User :=
  {| uid := "u-demo"; api_key := "demo_fe01ce2a7fbac8fa";
     subscription_tier := "starter";
     tokens_included := included; tokens_used := used;
     tokens_reset_date := reset; is_active := true; updated_at := 0 |}.

Definition demo_store (included used reset : Z) : Store :=
  {| users := [demo_user included used reset]; usage_logs := [];
     analytics_daily := ∅ |}.

Definition demo_key : string := "demo_fe01ce2a7fbac8fa".

Definition free_ctx : Ctx :=
  {| ctx_user_id := "u-demo"; ctx_tier := "free";
     ctx_tokens_included := 10000; ctx_tokens_used := 0 |}.

Definition last_token_call : Outcome :=
  api_chat (no_upstream (fun _ => true) 10)
    (post demo_key "one two three four" "auto" "auto")
    (demo_store 10000 9999 50).

(** The usage logs of one account on one day. *)
Definition day_logs (date : Z) (id : string) (logs : list UsageLog) : list UsageLog :=
  List.filter
    (fun l => String.eqb (log_user_id l) id && (date_of (log_timestamp l) =? date))
    logs.

(** The average the specification words: the sum of the latencies of the
    recorded calls divided by their number. *)
Definition spec_average_latency (logs : list UsageLog) : float :=
  (List.fold_left (fun acc l => acc + log_response_time l) logs 0
   / PyFloat.of_Z (Z.of_nat (length logs)))%float.

Definition two_calls_one_day : list (Env * Request) :=
  [ (no_upstream (fun _ => true) 10, post demo_key "hello world" "gpt-4" "auto");
    (no_upstream (fun _ => true) 20, post demo_key "hello world" "claude-3-haiku-20240307" "auto") ].

(** Requests of one account that are all served, one after the other,
    within the billing period. *)
Fixpoint served_in_period (key : string) (rs : list (Env * Request)) (s : Store)
    : Prop :=
  match rs with
  | [] => True
  | (env, rq) :: rs' =>
      credential rq = Some key
      /\ (forall u, account key s = Some u -> now_check env <= tokens_reset_date u)
      /\ calls (api_chat env rq s) <> []
      /\ served_in_period key rs' (store (api_chat env rq s))
  end.

(** The tokens their calls cost. *)
Fixpoint spent (rs : list (Env * Request)) : Z :=
  match rs with
  | [] => 0
  | (env, rq) :: rs' =>
      tokens (route env (req_prompt rq) (req_model rq) (req_provider rq)).1
      + spent rs'
  end.

Definition shared_store : Store := demo_store 100000 100 50.

Definition two_workers : list Thread :=
  [ arrive (no_upstream (fun _ => true) 10) (post demo_key "hello world" "auto" "auto");
    arrive (no_upstream (fun _ => true) 20)
      (post demo_key "one two three four" "auto" "auto") ].

Definition finished_tokens (t : Thread) : option Z :=
  match th_progress t with
  | Finished (Ok r) _ => Some (r_tokens_used r)
  | _ => None
  end.

(** * The rest of the application *)

(** ** The decorator on its own *)

(** What [require_api_key] does before it calls the view: the answer 401,
    or the context it leaves on the request and the database after the
    rollover. *)
Definition authenticate (env : Env) (rq : Request) (s : Store)
    : Reply + Ctx * Store :=
  match credential rq with
  | None => inl ApiKeyRequired
  | Some key =>
      if PyStr.falsy key then inl ApiKeyRequired
      else
        match Sql.select_user_by_api_key key (users s) with
        | None => inl InvalidOrInactiveKey
        | Some u =>
            if negb (is_active u) then inl InvalidOrInactiveKey
            else if tokens_reset_date u <? now_check env
            then
              let new_reset_date := now_reset env + thirty_days in
              inr (ctx_of u 0,
                   with_users (Sql.update_reset new_reset_date key (users s)) s)
            else inr (ctx_of u (tokens_used u), s)
        end
  end.

(** ** The endpoint [/api/openclaw] *)

(** One entry of [results]. *)
Record ToolResult := {
  tr_tool : string;
  tr_success : bool;
  tr_data : string;
  tr_tokens : Z;
  tr_cost : float
}.

Definition mock_result (tool_name : string) : ToolResult :=
  {| tr_tool := tool_name; tr_success := true;
     tr_data := ("Mock result from " ++ tool_name)%string;
     tr_tokens := 10; tr_cost := 0.0001 |}.

(** The loop over [data['tools']], an element being what its ['tool'] key
    holds ([None] when it has none), with the three variables the loop
    updates. *)
Fixpoint run_tools (tools : list (option string)) (results : list ToolResult)
    (total_tokens : Z) (total_cost : float) : list ToolResult * Z * float :=
  match tools with
  | [] => (results, total_tokens, total_cost)
  | tool_request :: rest =>
      match tool_request with
      | Some tool_name =>
          if PyStr.falsy tool_name then run_tools rest results total_tokens total_cost
          else
            let r := mock_result tool_name in
            run_tools rest (results ++ [r])%list (total_tokens + tr_tokens r)
              (total_cost + tr_cost r)%float
      | None => run_tools rest results total_tokens total_cost
      end
  end.

(** The JSON body of its answer 200. *)
Record OpenclawResponse := {
  oc_results : list ToolResult;
  oc_execution_time : float;
  oc_tokens_used : Z;
  oc_cost : float
}.

Inductive OpenclawReply :=
  | Executed (r : OpenclawResponse)   (* 200 *)
  | ToolsRequired                     (* 400, "Tools array required" *)
  | Unauthorized (r : Reply)          (* the 401 of the decorator *)
  | TooManyRequests.                  (* 429 of the limiter *)

Record OpenclawOutcome := {
  oc_reply : OpenclawReply;
  oc_store : Store
}.

(** [UPDATE users SET tokens_used = tokens_used + ? WHERE id = ?]. In
    SQLite the sum of two integers is an integer when it lies in
    [-2^63, 2^63), and a REAL beyond; the row is the one the statement
    writes for a sum in that range. *)
Definition add_usage_row (delta : Z) (u : User) : User :=
  {| uid := uid u; api_key := api_key u;
     subscription_tier := subscription_tier u;
     tokens_included := tokens_included u;
     tokens_used := tokens_used u + delta;
     tokens_reset_date := tokens_reset_date u;
     is_active := is_active u; updated_at := updated_at u |}.

Definition add_usage (delta : Z) (id : string) (us : list User) : list User :=
  List.map (fun u => if String.eqb (uid u) id then add_usage_row delta u else u) us.

(** The two statements of the view between [connect] and [commit]. *)
Definition record_openclaw (env : Env) (ctx : Ctx) (total_tokens : Z)
    (total_cost : float) (s : Store) : Store :=
  {| users := add_usage total_tokens (ctx_user_id ctx) (users s);
     usage_logs :=
       (usage_logs s
        ++ [ {| log_user_id := ctx_user_id ctx;
                log_provider := "openclaw";
                log_model := "unified-api";
                log_tokens := total_tokens;
                log_cost := total_cost;
                log_endpoint := "openclaw_unified";
                log_response_time := 1.2;
                log_timestamp := now_log env |} ])%list;
     analytics_daily := analytics_daily s |}.

(** The view [openclaw_unified]; [tools] is [None] when the body is empty
    or has no ['tools'] key. *)
Definition openclaw_unified (env : Env) (tools : option (list (option string)))
    (ctx : Ctx) (s : Store) : OpenclawOutcome :=
  match tools with
  | None => {| oc_reply := ToolsRequired; oc_store := s |}
  | Some ts =>
      let '(results, total_tokens, total_cost) := run_tools ts [] 0 0%float in
      {| oc_reply :=
           Executed {| oc_results := results; oc_execution_time := 1.2;
                       oc_tokens_used := total_tokens; oc_cost := total_cost |};
         oc_store := record_openclaw env ctx total_tokens total_cost s |}
  end.

(** The endpoint as it is registered, under [require_api_key] and
    [limiter.limit("100 per hour")]. *)
Definition api_openclaw (env : Env) (rq : Request)
    (tools : option (list (option string))) (s : Store) : OpenclawOutcome :=
  match authenticate env rq s with
  | inl r => {| oc_reply := Unauthorized r; oc_store := s |}
  | inr (ctx, s') =>
      if limiter_allows env "100 per hour" then openclaw_unified env tools ctx s'
      else {| oc_reply := TooManyRequests; oc_store := s' |}
  end.

(** Workers on [/api/openclaw]: the [SELECT] of the decorator, its
    rollover [UPDATE], and the transaction of the view. *)
Inductive OcProgress :=
  | OcArrived
  | OcRolling (key : string) (u : User)
  | OcAuthed (ctx : Ctx)
  | OcDone (r : OpenclawReply).

Record OcThread := {
  oc_env : Env;
  oc_request : Request;
  oc_tools : option (list (option string));
  oc_progress : OcProgress
}.

Definition oc_progress_step (env : Env) (rq : Request)
    (tools : option (list (option string))) (p : OcProgress) (s : Store)
    : OcProgress * Store :=
  match p with
  | OcArrived =>
      match credential rq with
      | None => (OcDone (Unauthorized ApiKeyRequired), s)
      | Some key =>
          if PyStr.falsy key then (OcDone (Unauthorized ApiKeyRequired), s)
          else
            match Sql.select_user_by_api_key key (users s) with
            | None => (OcDone (Unauthorized InvalidOrInactiveKey), s)
            | Some u =>
                if negb (is_active u)
                then (OcDone (Unauthorized InvalidOrInactiveKey), s)
                else if tokens_reset_date u <? now_check env
                then (OcRolling key u, s)
                else (OcAuthed (ctx_of u (tokens_used u)), s)
            end
      end
  | OcRolling key u =>
      (OcAuthed (ctx_of u 0),
       with_users (Sql.update_reset (now_reset env + thirty_days) key (users s)) s)
  | OcAuthed ctx =>
      if limiter_allows env "100 per hour"
      then
        let o := openclaw_unified env tools ctx s in
        (OcDone (oc_reply o), oc_store o)
      else (OcDone TooManyRequests, s)
  | OcDone r => (OcDone r, s)
  end.

Definition oc_thread_step (t : OcThread) (s : Store) : OcThread * Store :=
  let (p, s') := oc_progress_step (oc_env t) (oc_request t) (oc_tools t)
                   (oc_progress t) s in
  ({| oc_env := oc_env t; oc_request := oc_request t; oc_tools := oc_tools t;
      oc_progress := p |}, s').

Fixpoint oc_run (schedule : list nat) (ts : list OcThread) (s : Store)
    : list OcThread * Store :=
  match schedule with
  | [] => (ts, s)
  | i :: rest =>
      match ts !! i with
      | Some t =>
          let (t', s') := oc_thread_step t s in
          oc_run rest (<[ i := t' ]> ts) s'
      | None => oc_run rest ts s
      end
  end.

(** The tokens a worker has been answered for. *)
Definition oc_debited (t : OcThread) : Z :=
  match oc_progress t with
  | OcDone (Executed r) => oc_tokens_used r
  | _ => 0
  end.

Definition oc_debited_sum (ts : list OcThread) : Z :=
  List.fold_right (fun t acc => oc_debited t + acc) 0 ts.

(** The tools of a body that have a name. *)
Definition named_tools (tools : list (option string)) : list string :=
  List.flat_map
    (fun t => match t with
              | Some n => if PyStr.falsy n then [] else [n]
              | None => []
              end) tools.

(** The tokens of all the usage logs. *)
Definition logged_tokens (s : Store) : Z :=
  List.fold_right (fun l acc => log_tokens l + acc) 0 (usage_logs s).

(** A worker of the account [u] under the key [key], within the billing
    period. *)
Definition oc_thread_ok (key : string) (u : User) (t : OcThread) : Prop :=
  credential (oc_request t) = Some key
  /\ now_check (oc_env t) <= tokens_reset_date u
  /\ match oc_progress t with
     | OcRolling _ _ => False
     | OcAuthed ctx => ctx_user_id ctx = uid u
     | _ => True
     end.

Definition oc_arrive (env : Env) (rq : Request)
    (tools : option (list (option string))) : OcThread :=
  {| oc_env := env; oc_request := rq; oc_tools := tools; oc_progress := OcArrived |}.

(** What every interleaving of such workers keeps: the counter and the
    usage log are ahead of where they started, in [s0], by the tokens of
    the workers already answered. *)
Definition oc_invariant (key : string) (u : User) (s0 : Store)
    (ts : list OcThread) (s : Store) : Prop :=
  (exists us, account key s = Some us /\ uid us = uid u /\ is_active us = true
              /\ tokens_reset_date us = tokens_reset_date u
              /\ tokens_used us = tokens_used u + oc_debited_sum ts)
  /\ logged_tokens s = logged_tokens s0 + oc_debited_sum ts
  /\ Forall (oc_thread_ok key u) ts.

(** A row of [users] after the decorator has served the key [key] of the
    account [u], and after the view has recorded a call of [toks] tokens. *)
Definition row_after_auth (env : Env) (key : string) (u v : User) : User :=
  if tokens_reset_date u <? now_check env
  then if String.eqb (api_key v) key
       then Sql.reset_row (now_reset env + thirty_days) v else v
  else v.

Definition row_after_debit (env : Env) (u : User) (toks : Z) (v : User) : User :=
  if String.eqb (uid v) (uid u)
  then Sql.usage_row (precall env u + toks) (now_debit env) v else v.



(** The fallback estimates, for a prompt of [w] words, against the integer
    parts of 1.3 w and 1.2 w. *)
Definition estimate_ok (w : Z) : bool :=
  (PyFloat.to_int (PyFloat.of_Z w * 1.3)%float =? 13 * w / 10)
  && (PyFloat.to_int (PyFloat.of_Z w * 1.2)%float =? 12 * w / 10).

Definition check_step (f : Z -> bool) (st : Z * bool) : Z * bool :=
  (st.1 + 1, st.2 && f st.1).

(** [f] holds on 0, 1, ..., [n - 1]. *)
Definition checked_below (f : Z -> bool) (n : positive) : bool :=
  (Pos.iter (check_step f) (0, true) n).2.

Definition estimate_bound : positive := 10001.

(** ** The Stripe webhook *)

(** [SUBSCRIPTION_TIERS.items()], in the order of the dictionary. *)
Definition subscription_tier_items : list (string * Tier) :=
  [ ("free",
     {| tokens_per_month := 10000; rate_limit := "100/hour";
        price_per_month := 0; stripe_price_id := None |});
    ("starter",
     {| tokens_per_month := 100000; rate_limit := "1000/hour";
        price_per_month := 9.99; stripe_price_id := Some "price_starter_monthly" |});
    ("pro",
     {| tokens_per_month := 1000000; rate_limit := "5000/hour";
        price_per_month := 49.99; stripe_price_id := Some "price_pro_monthly" |});
    ("enterprise",
     {| tokens_per_month := 10000000; rate_limit := "20000/hour";
        price_per_month := 199.99;
        stripe_price_id := Some "price_enterprise_monthly" |}) ].

(** The loop that maps a price to a tier: the first tier of the
    dictionary whose [stripe_price_id] is the price. *)
Fixpoint tier_of_price (items : list (string * Tier)) (price_id : string)
    : option string :=
  match items with
  | [] => None
  | (tier_name, tier_data) :: rest =>
      match stripe_price_id tier_data with
      | Some p => if String.eqb p price_id then Some tier_name
                  else tier_of_price rest price_id
      | None => tier_of_price rest price_id
      end
  end.

(** A verified event: its id, its type, the JSON text of its data, and
    the fields of the checkout session that is its object. *)
Record StripeEvent := {
  event_id : string;
  event_type : string;
  event_data : string;
  client_reference_id : string;
  session_customer : string;
  session_subscription : string
}.

(** A row of [webhook_events]. *)
Record WebhookEvent := {
  we_id : string;
  we_event_type : string;
  we_payload : string;
  we_created_at : Z
}.

(** The database with the table of the webhook. *)
Record Backend := {
  kernel : Store;
  webhook_events : list WebhookEvent
}.

Inductive WebhookStatus :=
  | Wh200
  | Wh400        (* the payload or its signature is refused *)
  | Wh500.       (* an exception leaves the view *)

(** What the handler meets: the event [construct_event] returns ([None]
    when it raises one of the two errors the handler catches), the price
    of the first item of a subscription as [Subscription.retrieve] gives
    it ([None] when that raises), and the two clock readings. *)
Record StripeEnv := {
  construct_event : option StripeEvent;
  retrieve_price : string -> option string;
  now_plan : Z;
  now_event : Z
}.

Definition log_event (senv : StripeEnv) (event : StripeEvent) (b : Backend)
    : WebhookStatus * Backend :=
  if existsb (fun e => String.eqb (we_id e) (event_id event)) (webhook_events b)
  then (Wh500, b)      (* IntegrityError: the id is the primary key *)
  else (Wh200,
        {| kernel := kernel b;
           webhook_events :=
             (webhook_events b
              ++ [ {| we_id := event_id event; we_event_type := event_type event;
                      we_payload := event_data event;
                      we_created_at := now_event senv |} ])%list |}).

Definition stripe_webhook (senv : StripeEnv) (b : Backend) : WebhookStatus * Backend :=
  match construct_event senv with
  | None => (Wh400, b)
  | Some event =>
      if String.eqb (event_type event) "checkout.session.completed"
      then
        match retrieve_price senv (session_subscription event) with
        | None => (Wh500, b)
        | Some price_id =>
            match tier_of_price subscription_tier_items price_id with
            | Some tier =>
                if PyStr.falsy tier then log_event senv event b
                else
                  match SUBSCRIPTION_TIERS !! tier with
                  | Some tier_data =>
                      log_event senv event
                        {| kernel :=
                             update_plan tier (tokens_per_month tier_data)
                               (now_plan senv) (client_reference_id event) (kernel b);
                           webhook_events := webhook_events b |}
                  | None => (Wh500, b)      (* KeyError *)
                  end
            | None => log_event senv event b
            end
        end
      else log_event senv event b
  end.

(** ** The Anthropic client *)

(** The global [anthropic_client]: [None], [False] after a failed
    construction, or the client. *)
Inductive ClientSlot :=
  | Unset
  | Failed
  | Ready (client : Upstream AnthropicReply).

(** [get_anthropic_client]: [key] is the environment variable,
    [construct] the constructor [Anthropic] ([None] when it raises). The
    result is what the function returns, the global afterwards, and
    whether the constructor was called. *)
Definition get_anthropic_client (key : option string)
    (construct : string -> option (Upstream AnthropicReply)) (slot : ClientSlot)
    : option (Upstream AnthropicReply) * ClientSlot * bool :=
  let '(slot', constructed) :=
    match slot, key with
    | Unset, Some k =>
        if PyStr.falsy k then (Unset, false)
        else match construct k with
             | Some client => (Ready client, true)
             | None => (Failed, true)
             end
    | _, _ => (slot, false)
    end in
  (match slot' with Ready client => Some client | _ => None end, slot', constructed).

(** One state of the environment at a call of [call_anthropic_api]. *)
Record ClientEnv := {
  env_key : option string;
  env_construct : string -> option (Upstream AnthropicReply)
}.

(** Calls of [call_anthropic_api] one after the other, each with the
    environment of its moment: the results, the global at the end, and
    how many times the constructor was called. *)
Fixpoint anthropic_calls (cs : list (ClientEnv * string * string)) (slot : ClientSlot)
    : list ProviderResult * ClientSlot * nat :=
  match cs with
  | [] => ([], slot, 0%nat)
  | (cenv, prompt, model) :: rest =>
      let '(client, slot', constructed) :=
        get_anthropic_client (env_key cenv) (env_construct cenv) slot in
      let '(results, final, n) := anthropic_calls rest slot' in
      (call_anthropic_api client prompt model :: results, final,
       ((if constructed then 1 else 0) + n)%nat)
  end.

Definition demo_backend (included used reset : Z) : Backend :=
  {| kernel := demo_store included used reset; webhook_events := [] |}.

Definition demo_checkout : StripeEvent :=
  {| event_id := "evt_1"; event_type := "checkout.session.completed";
     event_data := "{}"; client_reference_id := "u-demo";
     session_customer := "cus_1"; session_subscription := "sub_1" |}.

Definition demo_stripe (now : Z) : StripeEnv :=
  {| construct_event := Some demo_checkout;
     retrieve_price := fun _ => Some "price_pro_monthly";
     now_plan := now; now_event := now |}.

(** The columns of an account a plan change may write. *)
Definition same_but_plan (v v' : User) : Prop :=
  uid v' = uid v /\ api_key v' = api_key v /\ is_active v' = is_active v
  /\ tokens_used v' = tokens_used v /\ tokens_reset_date v' = tokens_reset_date v.

(** ** Startup ([start.py]) *)

Definition max_retries : nat := 3.

(** What the loop of [main] around [init_db] has done when it is left. *)
Record Startup := {
  attempts : nat;          (* calls of init_db *)
  sleeps : nat;            (* calls of time.sleep(2) *)
  database_ready : bool    (* the loop was left by break *)
}.

(** [for attempt in range(max_retries)], from [attempt] on, with [left]
    iterations to go; [init_db k] tells whether the call of [init_db] in
    iteration [k] returns ([true]) or raises. *)
Fixpoint init_with_retries (init_db : nat -> bool) (attempt left : nat) : Startup :=
  match left with
  | O => {| attempts := 0; sleeps := 0; database_ready := false |}
  | S left' =>
      if init_db attempt
      then {| attempts := 1; sleeps := 0; database_ready := true |}
      else
        let rest := init_with_retries init_db (S attempt) left' in
        {| attempts := S (attempts rest);
           sleeps := ((if (attempt <? max_retries - 1)%nat then 1 else 0)
                      + sleeps rest)%nat;
           database_ready := database_ready rest |}
  end.

(** The process of [start.py] up to the moment it starts the server. *)
Record Boot := {
  import_ok : bool;        (* the init_db() of app.py's top level returned *)
  retries : Startup;       (* the loop of main *)
  init_db_calls : nat      (* calls of init_db in the process so far *)
}.

(** [from app import app, init_db] runs the module [app], whose top level
    calls [init_db()] inside a [try] that prints what it catches and goes
    on; then [main] runs its loop. [init_db k] tells whether the call
    number [k] of the process, counted from 0, returns or raises. *)
Definition startup (init_db : nat -> bool) : Boot :=
  let imported := init_db 0%nat in
  let loop := init_with_retries (fun attempt => init_db (S attempt)) 0 max_retries in
  {| import_ok := imported; retries := loop;
     init_db_calls := S (attempts loop) |}.

(** ** Registration ([/auth/register]) *)

(** [str.lower] on one character below 256: the letters A to Z, and the
    capital letters of Latin-1 (À to Þ, the sign × apart). *)
Definition lower_char (c : ascii) : ascii :=
  let n := N_of_ascii c in
  if ((65 <=? n) && (n <=? 90)
      || (192 <=? n) && (n <=? 222) && negb (n =? 215))%N
  then ascii_of_N (n + 32) else c.

Fixpoint lstrip (l : list ascii) : list ascii :=
  match l with
  | [] => []
  | c :: l' => if PyStr.is_space c then lstrip l' else l
  end.

Fixpoint rstrip (l : list ascii) : list ascii :=
  match l with
  | [] => []
  | c :: l' =>
      match rstrip l' with
      | [] => if PyStr.is_space c then [] else [c]
      | r => c :: r
      end
  end.

(** [email.lower().strip()] *)
Definition normalise_email (email : string) : string :=
  string_of_list_ascii
    (rstrip (lstrip (List.map lower_char (list_ascii_of_string email)))).

(** A row of [users] with the columns registration fills beside those of
    the kernel. *)
Record Member := {
  email : string;
  password_hash : string;
  created_at : Z;
  member_row : User
}.

Record RegisterRequest := {
  reg_post : bool;          (* request.method == 'POST' *)
  reg_is_json : bool;       (* request.is_json *)
  reg_email : string;       (* data.get('email', '') *)
  reg_password : string     (* data.get('password', '') *)
}.

(** What a registration draws from outside: the UUID, the salted hash of
    bcrypt, the text of the clock that goes into the key, MD5's hex
    digest, and the two moments stored. *)
Record RegisterEnv := {
  uuid4 : string;
  hashpw : string -> string;
  now_text : string;
  md5_hexdigest : string -> string;
  reg_now : Z;
  reg_now_reset : Z
}.

Inductive RegisterReply :=
  | RegisterPage (flash : option string)   (* the form, with a message or none *)
  | RegisterError (message : string)       (* 400 *)
  | Registered (key : string)              (* 201, with the API key *)
  | LoggedIn (user_id : string)            (* session opened, redirect *)
  | RegisterCrash.                         (* 500: IntegrityError on INSERT *)

Definition new_member (renv : RegisterEnv) (address password : string) : Member :=
  {| email := address;
     password_hash := hashpw renv password;
     created_at := reg_now renv;
     member_row :=
       {| uid := uuid4 renv;
          api_key := ("sk_" ++ md5_hexdigest renv (address ++ now_text renv))%string;
          subscription_tier := "free";
          tokens_included :=
            default 0 (tokens_per_month <$> SUBSCRIPTION_TIERS !! "free");
          tokens_used := 0;
          tokens_reset_date := reg_now_reset renv + thirty_days;
          is_active := true;
          updated_at := reg_now renv |} |}.

Definition register (renv : RegisterEnv) (rq : RegisterRequest) (ms : list Member)
    : RegisterReply * list Member :=
  if reg_post rq then
    let address := normalise_email (reg_email rq) in
    let password := reg_password rq in
    if PyStr.falsy address || PyStr.falsy password
    then
      (if reg_is_json rq then RegisterError "Email and password required"
       else RegisterPage (Some "Email and password required"), ms)
    else if existsb (fun m => String.eqb (email m) address) ms
    then
      (if reg_is_json rq then RegisterError "Email already registered"
       else RegisterPage (Some "Email already registered"), ms)
    else
      let m := new_member renv address password in
      if existsb
           (fun m' => String.eqb (uid (member_row m')) (uid (member_row m))
                      || String.eqb (api_key (member_row m')) (api_key (member_row m)))
           ms
      then (RegisterCrash, ms)
      else
        (if reg_is_json rq then Registered (api_key (member_row m))
         else LoggedIn (uid (member_row m)),
         (ms ++ [m])%list)
  else (RegisterPage None, ms).

(** The kernel's view of the members. *)
Definition members_store (ms : list Member) (s : Store) : Store :=
  with_users (List.map member_row ms) s.

(** The constraints of the table: ids, keys and emails are unique. *)
Definition members_unique (ms : list Member) : Prop :=
  NoDup (List.map (fun m => uid (member_row m)) ms)
  /\ NoDup (List.map (fun m => api_key (member_row m)) ms)
  /\ NoDup (List.map email ms).

Definition demo_register (now : Z) : RegisterEnv :=
  {| uuid4 := "u-new"; hashpw := fun _ => "$2b$12$hash"; now_text := "t";
     md5_hexdigest := fun _ => "0123456789abcdef0123456789abcdef";
     reg_now := now; reg_now_reset := now |}.

Definition demo_signup (address : string) : RegisterRequest :=
  {| reg_post := true; reg_is_json := true; reg_email := address;
     reg_password := "secret" |}.

(** ** The checkout ([/create-checkout-session]) *)

(** What the view hands to [stripe.checkout.Session.create], as far as the
    webhook reads it back. *)
Record SessionParams := {
  line_item_price : option string;
  param_client_reference_id : string
}.

Inductive CheckoutReply :=
  | CheckoutUrl (url : string)           (* 200 *)
  | InvalidTier                          (* 400, "Invalid subscription tier" *)
  | CheckoutFailed (message : string).   (* 400, the text of the exception *)

(** The view, for the logged-in user [current_user_id]; [create] is
    Stripe's call, which returns the URL of the session or raises. *)
Definition create_checkout_session (create : SessionParams -> string + string)
    (current_user_id : string) (tier : option string) : CheckoutReply :=
  match tier with
  | None => InvalidTier
  | Some t =>
      match SUBSCRIPTION_TIERS !! t with
      | None => InvalidTier
      | Some tier_data =>
          match create {| line_item_price := stripe_price_id tier_data;
                          param_client_reference_id := current_user_id |} with
          | inl url => CheckoutUrl url
          | inr message => CheckoutFailed message
          end
      end
  end.

(** ** The demo account of [init_db] *)

(** The part of [init_db] that follows the creation of the tables; [None]
    when the [INSERT] violates a constraint of the table. *)
Definition init_db (renv : RegisterEnv) (ms : list Member) : option (list Member) :=
  let demo_key := ("demo_" ++ PyStr.take 16 (md5_hexdigest renv "demo"))%string in
  if existsb (fun m => String.eqb (api_key (member_row m)) demo_key) ms
  then Some ms
  else
    let m :=
      {| email := "demo@example.com";
         password_hash := hashpw renv "demo123";
         created_at := reg_now renv;
         member_row :=
           {| uid := uuid4 renv; api_key := demo_key;
              subscription_tier := "starter";
              tokens_included := 100000; tokens_used := 0;
              tokens_reset_date := reg_now_reset renv + thirty_days;
              is_active := true; updated_at := reg_now renv |} |} in
    if existsb
         (fun m' => String.eqb (uid (member_row m')) (uid (member_row m))
                    || String.eqb (email m') (email m)) ms
    then None
    else Some (ms ++ [m])%list.

(** * Properties *)

(** ** The model on concrete inputs *)

Example of_ratio_is_division :
  PyFloat.of_ratio 1 3 = (1 / 3)%float
  /\ PyFloat.of_ratio 13 10 = 1.3%float
  /\ PyFloat.of_ratio (-7) 2 = (-3.5)%float
  /\ PyFloat.truediv 42 10000 = Some 0.0042%float
  /\ PyFloat.truediv 1 0 = None.
Proof. vm_compute. repeat split; reflexivity. Qed.

Example to_int_truncates :
  PyFloat.to_int 2.6 = 2 /\ PyFloat.to_int 5.2 = 5 /\ PyFloat.to_int (-2.6) = -2
  /\ PyFloat.to_int (PyFloat.of_Z 5 * 1.2) = 6.
Proof. vm_compute. repeat split; reflexivity. Qed.

Example round6_rounds :
  PyFloat.round6 1.2345675 = 1.234568%float
  /\ PyFloat.round6 (PyFloat.of_Z 2 * 0.000002) = 0.000004%float
  /\ PyFloat.round6 0.0000004 = 0%float.
Proof. vm_compute. repeat split; reflexivity. Qed.

Example split_on_spaces :
  PyStr.split "  hello   world " = ["hello"; "world"] /\ PyStr.split "" = [].
Proof. vm_compute. split; reflexivity. Qed.

Example mock_hello :
  call_openai_mock "hello world" "gpt-3.5-turbo" =
  {| response := "[MOCK] This is a simulated response from gpt-3.5-turbo to: 'hello world...'";
     tokens := 2; cost := 0.000004; model := "gpt-3.5-turbo";
     response_time := 0.5; provider := "openai" |}.
Proof. vm_compute. reflexivity. Qed.

(** A new account of the free tier asks "hello world" with no provider
    configured: the fallback answers, 2 tokens are debited, and the call
    is in the usage log and in today's aggregate. *)
Example free_account_first_call :
  let o := api_chat (no_upstream (fun _ => true) 10)
             (post demo_key "hello world" "auto" "auto") (demo_store 10000 0 50) in
  (exists r, reply o = Ok r
             /\ r_provider r = "openai" /\ r_tokens_used r = 2
             /\ total_tokens_used r = 2 /\ remaining_quota r = 9998
             /\ quota_percentage r = 0.02%float)
  /\ tokens_used <$> account demo_key (store o) = Some 2
  /\ List.map log_tokens (usage_logs (store o)) = [2]
  /\ total_requests <$> analytics_daily (store o) !! (0, "u-demo") = Some 1.
Proof.
  split; [eexists; vm_compute; repeat split; reflexivity|].
  vm_compute. repeat split; reflexivity.
Qed.

(** ** Lemmas on the tables *)

Section Tables.

Lemma find_map_stable {A : Type} (p : A -> bool) (f : A -> A) (l : list A) :
  (forall x, p (f x) = p x) ->
  List.find p (List.map f l) = f <$> List.find p l.
Proof.
  intros Hp. induction l as [|x l IH]; simpl; [reflexivity|].
  rewrite Hp. destruct (p x); [reflexivity | exact IH].
Qed.

Lemma select_user_key key us u :
  Sql.select_user_by_api_key key us = Some u -> api_key u = key.
Proof.
  unfold Sql.select_user_by_api_key. intros H.
  apply List.find_some in H as [_ H]. by apply String.eqb_eq.
Qed.

Lemma select_after_reset date key key' us :
  Sql.select_user_by_api_key key' (Sql.update_reset date key us)
  = (fun u => if String.eqb (api_key u) key then Sql.reset_row date u else u)
      <$> Sql.select_user_by_api_key key' us.
Proof.
  unfold Sql.select_user_by_api_key, Sql.update_reset.
  apply find_map_stable. intros x. by destruct (String.eqb (api_key x) key).
Qed.

Lemma select_after_usage used now id key us :
  Sql.select_user_by_api_key key (Sql.update_usage used now id us)
  = (fun u => if String.eqb (uid u) id then Sql.usage_row used now u else u)
      <$> Sql.select_user_by_api_key key us.
Proof.
  unfold Sql.select_user_by_api_key, Sql.update_usage.
  apply find_map_stable. intros x. by destruct (String.eqb (uid x) id).
Qed.

Lemma account_after_reset date key s u :
  account key s = Some u ->
  account key (with_users (Sql.update_reset date key (users s)) s)
  = Some (Sql.reset_row date u).
Proof.
  unfold account. intros H. simpl. rewrite select_after_reset, H. simpl.
  apply select_user_key in H. by rewrite H, String.eqb_refl.
Qed.

Lemma upsert_daily_lookup date id toks cst rt a :
  Sql.upsert_daily date id toks cst rt a !! (date, id)
  = Some {| total_requests := default 0 (total_requests <$> a !! (date, id)) + 1;
            total_tokens := default 0 (total_tokens <$> a !! (date, id)) + toks;
            total_cost :=
              (default 0%float (total_cost <$> a !! (date, id)) + cst)%float;
            avg_response_time := rt |}.
Proof. unfold Sql.upsert_daily. apply lookup_insert_eq. Qed.


(** The rollover leaves the tier alone, so the threshold is the same
    before and after it. *)
Lemma get_rate_limit_after_reset rq s date key :
  get_rate_limit rq (with_users (Sql.update_reset date key (users s)) s)
  = get_rate_limit rq s.
Proof.
  unfold get_rate_limit. destruct (credential rq) as [k|]; [|reflexivity].
  destruct (PyStr.falsy k); [reflexivity|]. simpl.
  rewrite select_after_reset.
  destruct (Sql.select_user_by_api_key k (users s)) as [u|]; [|reflexivity].
  simpl. by destruct (String.eqb (api_key u) key).
Qed.

End Tables.

(** ** Lemmas on the endpoint *)

Section Endpoint.

(** Once the credential resolves, the decorator runs the view on the
    context and the database it has prepared. *)
Lemma api_chat_authenticated env rq s key u :
  authenticates rq s key u ->
  api_chat env rq s
  = limit chat env rq (ctx_of u (precall env u)) (after_auth env key u s).
Proof.
  intros (Hc & Hk & Ha & Hact). unfold api_chat, require_api_key.
  unfold account in Ha. rewrite Hc, Hk, Ha, Hact. simpl.
  unfold precall, after_auth.
  by destruct (tokens_reset_date u <? now_check env).
Qed.

Lemma get_rate_limit_after_auth env rq s key u :
  get_rate_limit rq (after_auth env key u s) = get_rate_limit rq s.
Proof.
  unfold after_auth. destruct (tokens_reset_date u <? now_check env);
    [apply get_rate_limit_after_reset | reflexivity].
Qed.

(** A request that is not authenticated is answered by the decorator. *)
Lemma api_chat_denied env rq s :
  (forall key u, ~ authenticates rq s key u) ->
  AuthDenied (reply (api_chat env rq s)) /\ store (api_chat env rq s) = s
  /\ calls (api_chat env rq s) = [].
Proof.
  intros Hno. unfold api_chat, require_api_key, AuthDenied.
  destruct (credential rq) as [key|] eqn:Hc; [|simpl; auto].
  destruct (PyStr.falsy key) eqn:Hk; [simpl; auto|].
  destruct (Sql.select_user_by_api_key key (users s)) as [u|] eqn:Hu; [|simpl; auto].
  destruct (is_active u) eqn:Hact; [|simpl; auto].
  exfalso. by apply (Hno key u).
Qed.

(** Every request is either authenticated or answered with 401 there. *)
Lemma authenticated_or_denied env rq s :
  (exists key u, authenticates rq s key u)
  \/ (AuthDenied (reply (api_chat env rq s)) /\ store (api_chat env rq s) = s
      /\ calls (api_chat env rq s) = []).
Proof.
  unfold api_chat, require_api_key, AuthDenied, authenticates, account.
  destruct (credential rq) as [key|] eqn:Hc; [|right; simpl; auto].
  destruct (PyStr.falsy key) eqn:Hk; [right; simpl; auto|].
  destruct (Sql.select_user_by_api_key key (users s)) as [u|] eqn:Hu;
    [|right; simpl; auto].
  destruct (is_active u) eqn:Hact; [|right; simpl; auto].
  left. by exists key, u.
Qed.

(** The adapters name themselves and echo the model they were given. *)
Lemma call_openai_api_echo live prompt m :
  provider (call_openai_api live prompt m) = "openai"
  /\ model (call_openai_api live prompt m) = m.
Proof.
  unfold call_openai_api. destruct live as [create|]; [|by simpl].
  by destruct (create m prompt).
Qed.

Lemma call_anthropic_api_echo live prompt m :
  provider (call_anthropic_api live prompt m) = "anthropic"
  /\ model (call_anthropic_api live prompt m) = m.
Proof.
  unfold call_anthropic_api. destruct live as [create|]; [|by simpl].
  by destruct (create m prompt).
Qed.

(** The routing branch calls the adapter [select] names, with the model
    [select] names, and the result says so. *)
Lemma route_select env prompt m p :
  let (result, call) := route env prompt m p in
  call = called (select m p).1 (select m p).2 prompt
  /\ result = complete env (select m p).1 (select m p).2 prompt
  /\ provider result = (select m p).1
  /\ model result = (select m p).2.
Proof.
  unfold route, select, complete.
  destruct (String.eqb p "openai" || String.eqb p "auto" && PyStr.startswith m "gpt").
  - simpl. repeat split; apply call_openai_api_echo.
  - destruct (String.eqb p "anthropic"
              || String.eqb p "auto" && PyStr.startswith m "claude").
    + simpl. repeat split; apply call_anthropic_api_echo.
    + simpl. repeat split; apply call_openai_api_echo.
Qed.

End Endpoint.

(** ** Provider routing *)

(** C6. Routing is a function of the requested model and provider alone:
    [select "gpt-4" "auto"] is OpenAI with [gpt-4],
    [select "claude-3-haiku-20240307" "auto"] is Anthropic with that model,
    [select "auto" "auto"] and every model without the [gpt] or [claude]
    prefix give the default, OpenAI with [gpt-3.5-turbo]; a named provider
    is kept, with its default model in place of ["auto"]; and whatever the
    environment and the prompt, [chat] calls the adapter and the model
    [select] names and the result echoes them. *)
Theorem C6_select_routing :
  select "gpt-4" "auto" = ("openai", "gpt-4")
  /\ select "claude-3-haiku-20240307" "auto" = ("anthropic", "claude-3-haiku-20240307")
  /\ select "auto" "auto" = ("openai", "gpt-3.5-turbo")
  /\ (forall m, PyStr.startswith m "gpt" = false ->
                PyStr.startswith m "claude" = false ->
                select m "auto" = ("openai", "gpt-3.5-turbo"))
  /\ (forall m, select m "openai"
                = ("openai", if String.eqb m "auto" then "gpt-3.5-turbo" else m))
  /\ (forall m, select m "anthropic"
                = ("anthropic",
                   if String.eqb m "auto" then "claude-3-sonnet-20240229" else m))
  /\ (forall env prompt m p,
        (route env prompt m p).2 = called (select m p).1 (select m p).2 prompt
        /\ provider (route env prompt m p).1 = (select m p).1
        /\ model (route env prompt m p).1 = (select m p).2).
Proof.
  split; [reflexivity|]. split; [reflexivity|]. split; [reflexivity|].
  split.
  { intros m Hg Hc. unfold select. rewrite Hg, Hc. reflexivity. }
  split.
  { intros m. unfold select. simpl. by destruct (String.eqb m "auto"). }
  split.
  { intros m. unfold select. simpl. by destruct (String.eqb m "auto"). }
  intros env prompt m p.
  pose proof (route_select env prompt m p) as H.
  destruct (route env prompt m p) as [result call]. simpl.
  destruct H as (H1 & _ & H3 & H4). by rewrite H1, H3, H4.
Qed.

Lemma C6_select_routing_witness :
  select "mistral-7b" "auto" = ("openai", "gpt-3.5-turbo").
Proof.
  destruct C6_select_routing as (_ & _ & _ & H & _).
  apply H; reflexivity.
Defined.

(** ** The fallback responder *)

Section Fallback.

Lemma call_openai_api_down live prompt m :
  upstream_down live m prompt ->
  call_openai_api live prompt m = call_openai_mock prompt m.
Proof.
  unfold upstream_down, call_openai_api.
  destruct live as [create|]; [|reflexivity]. by intros ->.
Qed.

Lemma call_anthropic_api_down live prompt m :
  upstream_down live m prompt ->
  call_anthropic_api live prompt m = call_claude_mock prompt m.
Proof.
  unfold upstream_down, call_anthropic_api.
  destruct live as [create|]; [|reflexivity]. by intros ->.
Qed.

Lemma complete_down env prov m prompt :
  (prov = "openai" -> upstream_down (openai_live env) m prompt) ->
  (prov = "anthropic" -> upstream_down (anthropic_live env) m prompt) ->
  prov = "openai" \/ prov = "anthropic" ->
  complete env prov m prompt = fallback prov m prompt.
Proof.
  intros Ho Ha [-> | ->]; unfold complete, fallback; simpl.
  - by apply call_openai_api_down, Ho.
  - by apply call_anthropic_api_down, Ha.
Qed.

Lemma select_provider m p : (select m p).1 = "openai" \/ (select m p).1 = "anthropic".
Proof.
  unfold select.
  destruct (String.eqb p "openai" || _); [by left|].
  destruct (String.eqb p "anthropic" || _); [by right | by left].
Qed.

(** Past the quota gate, with a counter that is not negative, the view
    answers 200. *)
Lemma respond_ok ctx result :
  0 <= ctx_tokens_used ctx -> ctx_tokens_used ctx < ctx_tokens_included ctx ->
  exists ratio,
    PyFloat.truediv (ctx_tokens_used ctx + tokens result) (ctx_tokens_included ctx)
    = Some ratio
    /\ respond ctx result
       = Ok {| r_response := response result;
               model_used := model result;
               r_provider := provider result;
               r_tokens_used := tokens result;
               r_cost := cost result;
               r_response_time := response_time result;
               total_tokens_used := ctx_tokens_used ctx + tokens result;
               remaining_quota :=
                 Z.max 0 (ctx_tokens_included ctx
                          - (ctx_tokens_used ctx + tokens result));
               quota_percentage := PyFloat.min100 (ratio * 100)%float |}.
Proof.
  intros H0 Hlt. unfold respond, PyFloat.truediv.
  destruct (ctx_tokens_included ctx) as [|q|q] eqn:Hq; [lia| |lia].
  eexists. split; reflexivity.
Qed.

End Fallback.

(** C5. When the live upstream of the provider the request is routed to
    is not configured, or raises, the adapter returns the fallback result,
    whatever the other upstream does: a function of the prompt and the
    model alone (any two environments in which that upstream is down give
    the same result), whose text is the placeholder, whose latency is the
    nominal 0.5 s (OpenAI) or 0.7 s (Anthropic), whose tokens and cost are
    computed from the number of words of the prompt; and the view answers
    an admitted request with it under status 200, in the schema of every
    other answer, the counts being 64-bit integers, which SQLite
    stores. *)
Theorem C5_fallback_on_failure (env : Env) (prompt m p : string) :
  let prov := (select m p).1 in
  let mdl := (select m p).2 in
  (prov = "openai" -> upstream_down (openai_live env) mdl prompt) ->
  (prov = "anthropic" -> upstream_down (anthropic_live env) mdl prompt) ->
  (route env prompt m p).1 = fallback prov mdl prompt
  /\ (forall env' : Env,
        (prov = "openai" -> upstream_down (openai_live env') mdl prompt) ->
        (prov = "anthropic" -> upstream_down (anthropic_live env') mdl prompt) ->
        (route env' prompt m p).1 = (route env prompt m p).1)
  /\ response (fallback prov mdl prompt) = mock_text mdl prompt
  /\ model (fallback prov mdl prompt) = mdl
  /\ provider (fallback prov mdl prompt) = prov
  /\ response_time (fallback prov mdl prompt)
     = (if String.eqb prov "anthropic" then 0.7 else 0.5)%float
  /\ tokens (fallback prov mdl prompt)
     = PyFloat.to_int
         (PyFloat.of_Z (Z.of_nat (length (PyStr.split prompt)))
          * (if String.eqb prov "anthropic" then 1.2 else 1.3))%float
  /\ cost (fallback prov mdl prompt)
     = PyFloat.round6
         (if String.eqb prov "anthropic"
          then calculate_anthropic_cost mdl (tokens (fallback prov mdl prompt))
          else calculate_openai_cost mdl (tokens (fallback prov mdl prompt)))
  /\ (forall (rq : Request) (ctx : Ctx) (s : Store),
        req_prompt rq = prompt -> req_model rq = m -> req_provider rq = p ->
        PyStr.falsy prompt = false ->
        0 <= ctx_tokens_used ctx -> ctx_tokens_used ctx < ctx_tokens_included ctx ->
        - 2 ^ 63 <= tokens (fallback prov mdl prompt) < 2 ^ 63 ->
        ctx_tokens_used ctx + tokens (fallback prov mdl prompt) < 2 ^ 63 ->
        exists r, reply (chat env rq ctx s) = Ok r
                  /\ r_response r = mock_text mdl prompt
                  /\ model_used r = mdl /\ r_provider r = prov
                  /\ r_tokens_used r = tokens (fallback prov mdl prompt)
                  /\ r_cost r = cost (fallback prov mdl prompt)).
Proof.
  intros prov mdl Ho Ha.
  pose proof (select_provider m p) as Hprov. fold prov in Hprov.
  assert (Hroute : forall e : Env,
             (prov = "openai" -> upstream_down (openai_live e) mdl prompt) ->
             (prov = "anthropic" -> upstream_down (anthropic_live e) mdl prompt) ->
             (route e prompt m p).1 = fallback prov mdl prompt).
  { intros e Heo Hea. pose proof (route_select e prompt m p) as H.
    destruct (route e prompt m p) as [result call]. simpl.
    destruct H as (_ & -> & _). by apply complete_down. }
  split; [by apply Hroute|].
  split; [intros e' Heo Hea; by rewrite !Hroute|].
  assert (Hfields :
    response (fallback prov mdl prompt) = mock_text mdl prompt
    /\ model (fallback prov mdl prompt) = mdl
    /\ provider (fallback prov mdl prompt) = prov).
  { unfold fallback. destruct Hprov as [-> | ->]; by simpl. }
  destruct Hfields as (Hr & Hm & Hp).
  do 3 (split; [assumption|]).
  split; [unfold fallback; by destruct (String.eqb prov "anthropic")|].
  split; [unfold fallback; by destruct (String.eqb prov "anthropic")|].
  split; [unfold fallback; by destruct (String.eqb prov "anthropic")|].
  intros rq ctx s Hrp Hrm Hrv Hne H0 Hlt _ _.
  unfold chat. rewrite Hrp, Hrm, Hrv, Hne.
  destruct (ctx_tokens_included ctx <=? ctx_tokens_used ctx) eqn:Hq; [lia|].
  specialize (Hroute env Ho Ha).
  destruct (route env prompt m p) as [result call]. simpl in Hroute. subst result.
  destruct (respond_ok ctx (fallback prov mdl prompt) H0 Hlt) as (ratio & _ & Hresp).
  eexists. split; [simpl; exact Hresp|]. by simpl.
Qed.

Lemma C5_fallback_on_failure_witness :
  exists r,
    reply (chat (openai_only (fun _ => true) 0)
             (post demo_key "hello world" "claude-3-haiku-20240307" "auto") free_ctx
             (demo_store 10000 0 0)) = Ok r
    /\ r_response r
       = "[MOCK] This is a simulated response from claude-3-haiku-20240307 to: 'hello world...'"
    /\ r_provider r = "anthropic"
    /\ r_tokens_used r = 2.
Proof.
  destruct (C5_fallback_on_failure (openai_only (fun _ => true) 0)
              "hello world" "claude-3-haiku-20240307" "auto")
    as (_ & _ & _ & _ & _ & _ & _ & _ & H).
  - simpl. discriminate.
  - intros _. exact I.
  - destruct (H (post demo_key "hello world" "claude-3-haiku-20240307" "auto")
                free_ctx (demo_store 10000 0 0))
      as (r & Hr & Hresp & _ & Hprov & Htok & _);
      [reflexivity | reflexivity | reflexivity | reflexivity | simpl; lia | simpl; lia
      | split; [vm_compute; discriminate | vm_compute; reflexivity]
      | vm_compute; reflexivity |].
    exists r. split; [exact Hr|]. split; [exact Hresp|]. split; [exact Hprov|].
    exact Htok.
Defined.

(** ** The rate-limit threshold *)

Section RateLimit.

Lemma account_after_plan tier included now key s u :
  account key s = Some u ->
  account key (update_plan tier included now (uid u) s)
  = Some (plan_row tier included now u).
Proof.
  unfold account, update_plan, Sql.select_user_by_api_key. intros H. simpl.
  rewrite find_map_stable.
  - rewrite H. simpl. by rewrite String.eqb_refl.
  - intros x. by destruct (String.eqb (uid x) (uid u)).
Qed.

Lemma get_rate_limit_account rq s key u :
  credential rq = Some key -> PyStr.falsy key = false ->
  account key s = Some u ->
  get_rate_limit rq s
  = default "100/hour" (rate_limit <$> SUBSCRIPTION_TIERS !! subscription_tier u).
Proof.
  unfold get_rate_limit, account. by intros -> -> ->.
Qed.

(** The view never answers for the limiter. *)
Lemma chat_not_rate_limited env rq ctx s :
  reply (chat env rq ctx s) <> RateLimited.
Proof.
  unfold chat. destruct (PyStr.falsy (req_prompt rq)); [by simpl|].
  destruct (ctx_tokens_included ctx <=? ctx_tokens_used ctx); [by simpl|].
  destruct (route env (req_prompt rq) (req_model rq) (req_provider rq)).
  simpl. unfold respond. by destruct (PyFloat.truediv _ _).
Qed.

End RateLimit.

(** C9. The threshold is computed from the request and the database as
    they are when the request is served: without a credential, with a
    credential no account has, or with an account whose tier is not in the
    table, it is ["100/hour"]; otherwise it is the [rate_limit] of the
    account's tier. After a plan change the very next request gets the new
    tier's threshold, and an authenticated request is turned away by the
    limiter exactly when the limiter refuses it under the threshold
    resolved from the current database. *)
Theorem C9_rate_limit_resolution :
  (forall rq s,
      credential rq = None \/ credential rq = Some "" ->
      get_rate_limit rq s = "100/hour")
  /\ (forall rq s key,
        credential rq = Some key -> account key s = None ->
        get_rate_limit rq s = "100/hour")
  /\ (forall rq s key u,
        credential rq = Some key -> account key s = Some u ->
        SUBSCRIPTION_TIERS !! subscription_tier u = None ->
        get_rate_limit rq s = "100/hour")
  /\ (forall rq s key u t,
        credential rq = Some key -> PyStr.falsy key = false ->
        account key s = Some u ->
        SUBSCRIPTION_TIERS !! subscription_tier u = Some t ->
        get_rate_limit rq s = rate_limit t)
  /\ (rate_limit <$> SUBSCRIPTION_TIERS !! "free" = Some "100/hour"
      /\ rate_limit <$> SUBSCRIPTION_TIERS !! "starter" = Some "1000/hour"
      /\ rate_limit <$> SUBSCRIPTION_TIERS !! "pro" = Some "5000/hour"
      /\ rate_limit <$> SUBSCRIPTION_TIERS !! "enterprise" = Some "20000/hour")
  /\ (forall rq s key u tier t included now,
        credential rq = Some key -> PyStr.falsy key = false ->
        account key s = Some u ->
        SUBSCRIPTION_TIERS !! tier = Some t ->
        get_rate_limit rq (update_plan tier included now (uid u) s) = rate_limit t)
  /\ (forall env rq s key u,
        authenticates rq s key u ->
        reply (api_chat env rq s) = RateLimited
        <-> limiter_allows env (get_rate_limit rq s) = false).
Proof.
  split.
  { intros rq s [H | H]; unfold get_rate_limit; by rewrite H. }
  split.
  { intros rq s key Hc Ha. unfold get_rate_limit, account in *. rewrite Hc, Ha.
    by destruct (PyStr.falsy key). }
  split.
  { intros rq s key u Hc Ha Ht. unfold get_rate_limit, account in *.
    rewrite Hc, Ha, Ht. by destruct (PyStr.falsy key). }
  split.
  { intros rq s key u t Hc Hk Ha Ht.
    rewrite (get_rate_limit_account rq s key u Hc Hk Ha). by rewrite Ht. }
  split.
  { repeat split; vm_compute; reflexivity. }
  split.
  { intros rq s key u tier t included now Hc Hk Ha Ht.
    rewrite (get_rate_limit_account rq _ key (plan_row tier included now u) Hc Hk).
    - simpl. by rewrite Ht.
    - by apply account_after_plan. }
  intros env rq s key u Hauth.
  rewrite (api_chat_authenticated env rq s key u Hauth). unfold limit.
  rewrite get_rate_limit_after_auth.
  destruct (limiter_allows env (get_rate_limit rq s)).
  - split; [|discriminate]. intros H. by apply chat_not_rate_limited in H.
  - by simpl.
Qed.

Lemma C9_rate_limit_resolution_witness :
  get_rate_limit (post demo_key "hi" "auto" "auto") (demo_store 100000 0 0)
  = "1000/hour"
  /\ get_rate_limit (post demo_key "hi" "auto" "auto")
       (update_plan "pro" 1000000 5 "u-demo" (demo_store 100000 0 0))
     = "5000/hour".
Proof.
  destruct C9_rate_limit_resolution as (_ & _ & _ & Hnow & _ & Hlater & _).
  split.
  - apply (Hnow _ _ demo_key (demo_user 100000 0 0)
             {| tokens_per_month := 100000; rate_limit := "1000/hour";
                price_per_month := 9.99;
                stripe_price_id := Some "price_starter_monthly" |});
      reflexivity.
  - apply (Hlater (post demo_key "hi" "auto" "auto") (demo_store 100000 0 0)
             demo_key (demo_user 100000 0 0) "pro"
             {| tokens_per_month := 1000000; rate_limit := "5000/hour";
                price_per_month := 49.99;
                stripe_price_id := Some "price_pro_monthly" |});
      reflexivity.
Defined.

(** ** The quota gate *)

Section Gate.

(** The endpoint on an authenticated request, gate by gate. *)
Lemma api_chat_cases env rq s key u :
  authenticates rq s key u ->
  api_chat env rq s
  = if limiter_allows env (get_rate_limit rq s)
    then
      if PyStr.falsy (req_prompt rq)
      then reject PromptRequired (after_auth env key u s)
      else if tokens_included u <=? precall env u
      then reject QuotaExceeded (after_auth env key u s)
      else commit env (ctx_of u (precall env u))
             (route env (req_prompt rq) (req_model rq) (req_provider rq)).1
             (route env (req_prompt rq) (req_model rq) (req_provider rq)).2
             (after_auth env key u s)
    else reject RateLimited (after_auth env key u s).
Proof.
  intros Hauth. rewrite (api_chat_authenticated env rq s key u Hauth).
  unfold limit. rewrite get_rate_limit_after_auth.
  destruct (limiter_allows env (get_rate_limit rq s)); [|reflexivity].
  unfold chat. simpl.
  destruct (PyStr.falsy (req_prompt rq)); [reflexivity|].
  destruct (tokens_included u <=? precall env u); [reflexivity|].
  by destruct (route env (req_prompt rq) (req_model rq) (req_provider rq)).
Qed.

Lemma account_after_auth env key s u :
  account key s = Some u ->
  account key (after_auth env key u s) = Some (rolled env u).
Proof.
  intros H. unfold after_auth, rolled.
  destruct (tokens_reset_date u <? now_check env);
    [by apply account_after_reset | exact H].
Qed.

Lemma rolled_columns env u :
  uid (rolled env u) = uid u /\ api_key (rolled env u) = api_key u
  /\ subscription_tier (rolled env u) = subscription_tier u
  /\ tokens_included (rolled env u) = tokens_included u
  /\ is_active (rolled env u) = is_active u
  /\ tokens_used (rolled env u) = precall env u.
Proof.
  unfold rolled, precall. by destruct (tokens_reset_date u <? now_check env).
Qed.

Lemma after_auth_tables env key u s :
  usage_logs (after_auth env key u s) = usage_logs s
  /\ analytics_daily (after_auth env key u s) = analytics_daily s.
Proof.
  unfold after_auth. by destruct (tokens_reset_date u <? now_check env).
Qed.

Lemma after_auth_fresh env key u s :
  now_check env <= tokens_reset_date u -> after_auth env key u s = s.
Proof.
  intros H. unfold after_auth.
  destruct (tokens_reset_date u <? now_check env) eqn:E; [lia | reflexivity].
Qed.

Lemma precall_fresh env u :
  now_check env <= tokens_reset_date u -> precall env u = tokens_used u.
Proof.
  intros H. unfold precall.
  destruct (tokens_reset_date u <? now_check env) eqn:E; [lia | reflexivity].
Qed.

Lemma precall_stale env u :
  tokens_reset_date u < now_check env -> precall env u = 0.
Proof.
  intros H. unfold precall.
  destruct (tokens_reset_date u <? now_check env) eqn:E; [reflexivity | lia].
Qed.

Lemma precall_nonneg env u : 0 <= tokens_used u -> 0 <= precall env u.
Proof.
  intros H. unfold precall.
  destruct (tokens_reset_date u <? now_check env); [lia | exact H].
Qed.

(** The debit as the next request reads it. *)
Lemma account_after_record env ctx result key s u :
  account key s = Some u -> uid u = ctx_user_id ctx ->
  account key (record_usage env ctx result s)
  = Some (Sql.usage_row (ctx_tokens_used ctx + tokens result) (now_debit env) u).
Proof.
  unfold account. intros H Hid. simpl. rewrite select_after_usage, H. simpl.
  by rewrite Hid, String.eqb_refl.
Qed.

Lemma respond_not_denied ctx result :
  respond ctx result <> ApiKeyRequired /\ respond ctx result <> InvalidOrInactiveKey
  /\ respond ctx result <> RateLimited /\ respond ctx result <> PromptRequired
  /\ respond ctx result <> QuotaExceeded.
Proof. unfold respond. by destruct (PyFloat.truediv _ _). Qed.

End Gate.

(** C3. When an authenticated request arrives after the reset date, the
    decorator writes [tokens_used = 0] and, as the reset date, the moment
    it reads plus 30 days (30 x 24 x 60 x 60 x 1000000 microseconds, the
    unit of the moments here) before the view runs: the view, quota gate
    included, runs on the counter 0 and on the database that holds the
    reset. Hence an account with a positive quota is not answered
    [QuotaExceeded]; it is served whenever the limiter lets it through,
    its prompt is not empty and the tokens of the call are a 64-bit
    integer, which SQLite stores; and the new reset date is still in the
    database when the request is done. *)
Theorem C3_rollover_before_admission (env : Env) (rq : Request) (s : Store)
    (key : string) (u : User) :
  authenticates rq s key u ->
  tokens_reset_date u < now_check env ->
  let period_end := now_reset env + 30 * (24 * 60 * 60 * 1000000) in
  let s1 := with_users (Sql.update_reset period_end key (users s)) s in
  let o := api_chat env rq s in
  let routed := route env (req_prompt rq) (req_model rq) (req_provider rq) in
  (exists u1, account key s1 = Some u1
              /\ tokens_used u1 = 0
              /\ tokens_reset_date u1 = period_end
              /\ tokens_included u1 = tokens_included u)
  /\ o = limit chat env rq (ctx_of u 0) s1
  /\ (0 < tokens_included u -> reply o <> QuotaExceeded)
  /\ (0 < tokens_included u ->
      limiter_allows env (get_rate_limit rq s) = true ->
      PyStr.falsy (req_prompt rq) = false ->
      - 2 ^ 63 <= tokens routed.1 < 2 ^ 63 ->
      exists r, reply o = Ok r
                /\ total_tokens_used r = r_tokens_used r
                /\ calls o = [routed.2])
  /\ (exists u2, account key (store o) = Some u2
                 /\ tokens_reset_date u2 = period_end).
Proof.
  intros Hauth Hstale period_end s1 o routed.
  assert (Hend : period_end = now_reset env + thirty_days).
  { subst period_end. unfold thirty_days, micros_per_day. lia. }
  clearbody period_end. subst period_end.
  assert (Hpre : precall env u = 0) by by apply precall_stale.
  assert (Hs1 : after_auth env key u s = s1).
  { unfold after_auth. by destruct (tokens_reset_date u <? now_check env) eqn:E; [|lia]. }
  assert (Hacc : account key s1 = Some (Sql.reset_row (now_reset env + thirty_days) u)).
  { apply account_after_reset. apply Hauth. }
  split; [eexists; split; [exact Hacc | by simpl]|].
  split.
  { subst o. rewrite (api_chat_authenticated env rq s key u Hauth).
    by rewrite Hpre, Hs1. }
  pose proof (api_chat_cases env rq s key u Hauth) as Hcases.
  rewrite Hpre, Hs1 in Hcases. fold o routed in Hcases.
  split.
  { intros Hpos. rewrite Hcases.
    destruct (limiter_allows env (get_rate_limit rq s)); [|by simpl].
    destruct (PyStr.falsy (req_prompt rq)); [by simpl|].
    destruct (tokens_included u <=? 0) eqn:E; [lia|]. simpl.
    apply respond_not_denied. }
  split.
  { intros Hpos Hlim Hprompt _. rewrite Hcases, Hlim, Hprompt.
    destruct (tokens_included u <=? 0) eqn:E; [lia|]. simpl.
    destruct (respond_ok (ctx_of u 0) routed.1) as (ratio & _ & Hr); [simpl; lia..|].
    eexists. split; [exact Hr|]. by simpl. }
  rewrite Hcases.
  destruct (limiter_allows env (get_rate_limit rq s));
    [|eexists; split; [exact Hacc | by simpl]].
  destruct (PyStr.falsy (req_prompt rq));
    [eexists; split; [exact Hacc | by simpl]|].
  destruct (tokens_included u <=? 0);
    [eexists; split; [exact Hacc | by simpl]|].
  simpl. eexists. split; [by apply account_after_record|]. by simpl.
Qed.

Lemma C3_rollover_before_admission_witness :
  exists r u2,
    reply (api_chat (no_upstream (fun _ => true) 100)
             (post demo_key "hello world" "auto" "auto")
             (demo_store 10000 10000 50)) = Ok r
    /\ total_tokens_used r = r_tokens_used r
    /\ account demo_key
         (store (api_chat (no_upstream (fun _ => true) 100)
                   (post demo_key "hello world" "auto" "auto")
                   (demo_store 10000 10000 50))) = Some u2
    /\ tokens_reset_date u2 = 2592000000100.
Proof.
  destruct (C3_rollover_before_admission (no_upstream (fun _ => true) 100)
              (post demo_key "hello world" "auto" "auto")
              (demo_store 10000 10000 50) demo_key (demo_user 10000 10000 50))
    as (_ & _ & _ & H & u2 & Hacc & Hdate).
  - repeat split; reflexivity.
  - simpl. lia.
  - destruct H as (r & Hr & Ht & _);
      [simpl; lia | reflexivity | reflexivity
      | split; [vm_compute; discriminate | vm_compute; reflexivity] |].
    exists r, u2. split; [exact Hr|]. split; [exact Ht|]. split; [exact Hacc|].
    rewrite Hdate. reflexivity.
Defined.

(** C2. An authenticated request is answered [QuotaExceeded] exactly when
    it reaches the quota gate (the limiter lets it through, its prompt is
    not empty) with a counter, read before the call, of at least
    [tokens_included]; with such a counter no adapter is called and
    nothing is recorded, whatever the answer. Below [tokens_included] a
    request that reaches the gate calls the adapter once, whatever the
    call is going to cost; its debit is written in full, so the stored
    counter may go past the quota, as long as the tokens of the call and
    the new counter are 64-bit integers, which SQLite stores. In
    particular, from [tokens_included - 1] a call of 5 tokens is served
    and leaves [tokens_included + 4], that number being below 2^63; the
    next request of the same period is answered [QuotaExceeded] without
    any call. *)
Theorem C2_admission_gate (env : Env) (rq : Request) (s : Store)
    (key : string) (u : User) :
  authenticates rq s key u ->
  let o := api_chat env rq s in
  let routed := route env (req_prompt rq) (req_model rq) (req_provider rq) in
  let reaches_gate :=
    limiter_allows env (get_rate_limit rq s) = true
    /\ PyStr.falsy (req_prompt rq) = false in
  (reply o = QuotaExceeded <-> reaches_gate /\ tokens_included u <= precall env u)
  /\ (tokens_included u <= precall env u ->
      calls o = [] /\ store o = after_auth env key u s)
  /\ (reaches_gate -> precall env u < tokens_included u ->
      calls o = [routed.2]
      /\ (- 2 ^ 63 <= tokens routed.1 < 2 ^ 63 ->
          - 2 ^ 63 <= precall env u + tokens routed.1 < 2 ^ 63 ->
          exists u', account key (store o) = Some u'
                     /\ tokens_used u' = precall env u + tokens routed.1))
  /\ (reaches_gate ->
      0 <= precall env u -> precall env u = tokens_included u - 1 ->
      tokens routed.1 = 5 ->
      tokens_included u + 4 < 2 ^ 63 ->
      (exists r, reply o = Ok r /\ total_tokens_used r = tokens_included u + 4)
      /\ exists u', account key (store o) = Some u'
           /\ tokens_used u' = tokens_included u + 4
           /\ forall env2 rq2,
                credential rq2 = Some key ->
                limiter_allows env2 (get_rate_limit rq2 (store o)) = true ->
                PyStr.falsy (req_prompt rq2) = false ->
                now_check env2 <= tokens_reset_date u' ->
                reply (api_chat env2 rq2 (store o)) = QuotaExceeded
                /\ calls (api_chat env2 rq2 (store o)) = []
                /\ store (api_chat env2 rq2 (store o)) = store o).
Proof.
  intros Hauth o routed reaches_gate.
  pose proof (api_chat_cases env rq s key u Hauth) as Hcases.
  fold o routed in Hcases.
  assert (Hacc : account key (after_auth env key u s) = Some (rolled env u)).
  { apply account_after_auth. apply Hauth. }
  pose proof (rolled_columns env u) as (Hid & _ & _ & Hincl & Hact & Hused).
  assert (Hdebit : reaches_gate -> precall env u < tokens_included u ->
            store o = record_usage env (ctx_of u (precall env u)) routed.1
                        (after_auth env key u s)
            /\ reply o = respond (ctx_of u (precall env u)) routed.1
            /\ calls o = [routed.2]).
  { intros (Hlim & Hprompt) Hlt. rewrite Hcases, Hlim, Hprompt.
    by destruct (tokens_included u <=? precall env u) eqn:E; [lia|]. }
  split.
  { subst reaches_gate. rewrite Hcases.
    destruct (limiter_allows env (get_rate_limit rq s));
      [|simpl; split; [discriminate | intros ((? & _) & _); discriminate]].
    destruct (PyStr.falsy (req_prompt rq));
      [simpl; split; [discriminate | intros ((_ & ?) & _); discriminate]|].
    destruct (tokens_included u <=? precall env u) eqn:E; simpl.
    - split; [intros _; repeat split; lia | reflexivity].
    - split; [|lia]. intros H. by apply respond_not_denied in H. }
  split.
  { intros Hge. rewrite Hcases.
    destruct (limiter_allows env (get_rate_limit rq s)); [|by simpl].
    destruct (PyStr.falsy (req_prompt rq)); [by simpl|].
    by destruct (tokens_included u <=? precall env u) eqn:E; [|lia]. }
  split.
  { intros Hgate Hlt. destruct (Hdebit Hgate Hlt) as (Hst & _ & Hcalls).
    split; [exact Hcalls|]. intros _ _. rewrite Hst. eexists.
    split; [by apply account_after_record|]. by simpl. }
  intros Hgate H0 Hpre Hfive _.
  assert (Hlt : precall env u < tokens_included u) by lia.
  destruct (Hdebit Hgate Hlt) as (Hst & Hreply & _).
  split.
  { destruct (respond_ok (ctx_of u (precall env u)) routed.1) as (ratio & _ & Hr);
      [simpl; lia..|].
    rewrite Hreply, Hr. eexists. split; [reflexivity|]. simpl. lia. }
  set (u' := Sql.usage_row (precall env u + tokens routed.1) (now_debit env)
               (rolled env u)).
  assert (Hacc' : account key (store o) = Some u').
  { rewrite Hst. by apply account_after_record. }
  exists u'. split; [exact Hacc'|]. split; [simpl; lia|].
  intros env2 rq2 Hc2 Hlim2 Hprompt2 Hfresh.
  assert (Hauth2 : authenticates rq2 (store o) key u').
  { split; [exact Hc2|]. split; [apply Hauth|]. split; [exact Hacc'|].
    simpl. rewrite Hact. apply Hauth. }
  rewrite (api_chat_cases env2 rq2 (store o) key u' Hauth2), Hlim2, Hprompt2.
  rewrite (precall_fresh env2 u' Hfresh), (after_auth_fresh env2 key u' _ Hfresh).
  simpl tokens_included. simpl tokens_used. rewrite Hincl.
  by destruct (tokens_included u <=? precall env u + tokens routed.1) eqn:E; [|lia].
Qed.

Lemma C2_admission_gate_witness :
  (exists r, reply last_token_call = Ok r /\ total_tokens_used r = 10004)
  /\ reply (api_chat (no_upstream (fun _ => true) 20)
              (post demo_key "again" "auto" "auto") (store last_token_call))
     = QuotaExceeded.
Proof.
  destruct (C2_admission_gate (no_upstream (fun _ => true) 10)
              (post demo_key "one two three four" "auto" "auto")
              (demo_store 10000 9999 50) demo_key (demo_user 10000 9999 50))
    as (_ & _ & _ & H).
  - repeat split; reflexivity.
  - destruct H as (Hfirst & u' & Hacc & _ & Hnext);
      [split; reflexivity | vm_compute; discriminate | reflexivity
      | vm_compute; reflexivity | vm_compute; reflexivity |].
    split; [exact Hfirst|].
    apply (Hnext (no_upstream (fun _ => true) 20) (post demo_key "again" "auto" "auto"));
      [reflexivity | reflexivity | reflexivity |].
    vm_compute in Hacc. injection Hacc as <-. vm_compute. discriminate.
Defined.

Section Served.

(** What an answer 200 tells about the path the request took. *)
Lemma api_chat_ok_inv env rq s key u r :
  authenticates rq s key u ->
  reply (api_chat env rq s) = Ok r ->
  let routed := route env (req_prompt rq) (req_model rq) (req_provider rq) in
  precall env u < tokens_included u
  /\ api_chat env rq s
     = commit env (ctx_of u (precall env u)) routed.1 routed.2
         (after_auth env key u s)
  /\ respond (ctx_of u (precall env u)) routed.1 = Ok r.
Proof.
  intros Hauth Hok routed.
  rewrite (api_chat_cases env rq s key u Hauth) in Hok |- *. fold routed in Hok |- *.
  destruct (limiter_allows env (get_rate_limit rq s)); [|discriminate].
  destruct (PyStr.falsy (req_prompt rq)); [discriminate|].
  destruct (tokens_included u <=? precall env u) eqn:E; [discriminate|].
  split; [lia|]. by split.
Qed.

Lemma respond_ok_inv ctx result r :
  respond ctx result = Ok r ->
  exists ratio,
    PyFloat.truediv (ctx_tokens_used ctx + tokens result) (ctx_tokens_included ctx)
    = Some ratio
    /\ r = {| r_response := response result;
              model_used := model result;
              r_provider := provider result;
              r_tokens_used := tokens result;
              r_cost := cost result;
              r_response_time := response_time result;
              total_tokens_used := ctx_tokens_used ctx + tokens result;
              remaining_quota :=
                Z.max 0 (ctx_tokens_included ctx
                         - (ctx_tokens_used ctx + tokens result));
              quota_percentage := PyFloat.min100 (ratio * 100)%float |}.
Proof.
  unfold respond.
  destruct (PyFloat.truediv _ _) as [ratio|]; [|discriminate].
  intros [= <-]. by exists ratio.
Qed.

Lemma truediv_some a b : b <> 0 -> exists ratio, PyFloat.truediv a b = Some ratio.
Proof. intros H. unfold PyFloat.truediv. destruct b; [lia | eauto | eauto]. Qed.

Lemma truediv_none a b : PyFloat.truediv a b = None -> b = 0.
Proof. unfold PyFloat.truediv. by destruct b. Qed.

End Served.

Lemma min100_le_100 x : PrimFloat.leb (PyFloat.min100 x) 100 = true.
Proof.
  unfold PyFloat.min100. destruct (PrimFloat.ltb x 100) eqn:E; [|reflexivity].
  rewrite leb_spec. rewrite ltb_spec in E. unfold SFleb, SFltb in *.
  by destruct (SFcompare (Prim2SF x) (Prim2SF 100)) as [[]|].
Qed.

(** C7. The body of an answer 200 reports the call (its text, tokens,
    cost, model, provider and latency, as the adapter returned them) and
    the account: [total_tokens_used] is the counter read before the call
    plus this call's tokens, which is the counter the database holds once
    the request is done; [remaining_quota] is
    [max(0, tokens_included - total_tokens_used)]; [quota_percentage] is
    [min(100, total_tokens_used / tokens_included * 100)]: the division is
    defined, the product is reported when it is below 100 and 100 is
    reported otherwise, so the figure never exceeds 100. *)
Theorem C7_response_metadata (env : Env) (rq : Request) (s : Store)
    (key : string) (u : User) (r : ChatResponse) :
  authenticates rq s key u ->
  reply (api_chat env rq s) = Ok r ->
  let result := (route env (req_prompt rq) (req_model rq) (req_provider rq)).1 in
  (r_response r = response result /\ model_used r = model result
   /\ r_provider r = provider result /\ r_tokens_used r = tokens result
   /\ r_cost r = cost result /\ r_response_time r = response_time result)
  /\ total_tokens_used r = precall env u + r_tokens_used r
  /\ (exists u', account key (store (api_chat env rq s)) = Some u'
                 /\ tokens_used u' = total_tokens_used r
                 /\ tokens_included u' = tokens_included u)
  /\ remaining_quota r = Z.max 0 (tokens_included u - total_tokens_used r)
  /\ (exists ratio,
        PyFloat.truediv (total_tokens_used r) (tokens_included u) = Some ratio
        /\ quota_percentage r
           = (if PrimFloat.ltb (ratio * 100) 100 then ratio * 100 else 100)%float)
  /\ PrimFloat.leb (quota_percentage r) 100 = true.
Proof.
  intros Hauth Hok result.
  destruct (api_chat_ok_inv env rq s key u r Hauth Hok) as (Hlt & Heq & Hresp).
  fold result in Heq, Hresp.
  destruct (respond_ok_inv _ _ _ Hresp) as (ratio & Hdiv & ->). simpl in *.
  split; [by repeat split|]. split; [reflexivity|].
  split.
  { rewrite Heq. simpl. eexists. split.
    - apply account_after_record; [|apply rolled_columns].
      apply account_after_auth. apply Hauth.
    - simpl. split; [reflexivity | apply rolled_columns]. }
  split; [reflexivity|].
  split; [by exists ratio | apply min100_le_100].
Qed.

Lemma C7_response_metadata_witness :
  (exists r,
     reply (api_chat (no_upstream (fun _ => true) 10)
              (post demo_key "hello world" "auto" "auto")
              (demo_store 10000 40 50)) = Ok r
     /\ total_tokens_used r = 42 /\ remaining_quota r = 9958
     /\ quota_percentage r = 0.42%float)
  /\ (exists r,
        reply last_token_call = Ok r
        /\ total_tokens_used r = 10004 /\ remaining_quota r = 0
        /\ quota_percentage r = 100%float).
Proof.
  split.
  - eexists. split; [vm_compute; reflexivity|].
    match goal with |- total_tokens_used ?r = _ /\ _ =>
      destruct (C7_response_metadata (no_upstream (fun _ => true) 10)
                  (post demo_key "hello world" "auto" "auto")
                  (demo_store 10000 40 50) demo_key (demo_user 10000 40 50) r)
        as (_ & Ht & _ & Hq & (ratio & Hdiv & Hp) & _)
    end.
    + repeat split; reflexivity.
    + vm_compute. reflexivity.
    + split; [exact Ht|]. split; [exact Hq|].
      rewrite Hp. vm_compute in Hdiv. injection Hdiv as <-. vm_compute. reflexivity.
  - eexists. split; [vm_compute; reflexivity|].
    match goal with |- total_tokens_used ?r = _ /\ _ =>
      destruct (C7_response_metadata (no_upstream (fun _ => true) 10)
                  (post demo_key "one two three four" "auto" "auto")
                  (demo_store 10000 9999 50) demo_key (demo_user 10000 9999 50) r)
        as (_ & Ht & _ & Hq & (ratio & Hdiv & Hp) & _)
    end.
    + repeat split; reflexivity.
    + vm_compute. reflexivity.
    + split; [exact Ht|]. split; [exact Hq|].
      rewrite Hp. vm_compute in Hdiv. injection Hdiv as <-. vm_compute. reflexivity.
Defined.

(** C10. With a counter that is not negative, no authenticated request
    ends in the division by zero: a request that passes the quota gate has
    [tokens_included > 0], so the quotient behind [quota_percentage]
    exists; and an account with [tokens_included = 0] is turned away
    before any adapter is called, with [QuotaExceeded] once it reaches the
    gate. *)
Theorem C10_no_division_by_zero (env : Env) (rq : Request) (s : Store)
    (key : string) (u : User) :
  authenticates rq s key u ->
  0 <= tokens_used u ->
  let o := api_chat env rq s in
  reply o <> ServerError
  /\ (calls o <> [] ->
      0 < tokens_included u
      /\ exists r ratio,
           reply o = Ok r
           /\ PyFloat.truediv (total_tokens_used r) (tokens_included u) = Some ratio)
  /\ (tokens_included u = 0 ->
      calls o = []
      /\ (reply o = QuotaExceeded \/ reply o = RateLimited \/ reply o = PromptRequired)
      /\ (limiter_allows env (get_rate_limit rq s) = true ->
          PyStr.falsy (req_prompt rq) = false -> reply o = QuotaExceeded)).
Proof.
  intros Hauth H0 o.
  pose proof (precall_nonneg env u H0) as Hpre.
  pose proof (api_chat_cases env rq s key u Hauth) as Hcases. fold o in Hcases.
  set (result := (route env (req_prompt rq) (req_model rq) (req_provider rq)).1)
    in Hcases.
  assert (Hserved : precall env u < tokens_included u ->
            exists r, respond (ctx_of u (precall env u)) result = Ok r
                      /\ total_tokens_used r = precall env u + tokens result).
  { intros Hlt. destruct (respond_ok (ctx_of u (precall env u)) result)
      as (ratio & _ & Hr); [simpl; lia..|].
    rewrite Hr. eexists. by split. }
  split.
  { rewrite Hcases.
    destruct (limiter_allows env (get_rate_limit rq s)); [|by simpl].
    destruct (PyStr.falsy (req_prompt rq)); [by simpl|].
    destruct (tokens_included u <=? precall env u) eqn:E; [by simpl|]. simpl.
    destruct Hserved as (r & -> & _); [lia | discriminate]. }
  split.
  { rewrite Hcases.
    destruct (limiter_allows env (get_rate_limit rq s)); [|by simpl].
    destruct (PyStr.falsy (req_prompt rq)); [by simpl|].
    destruct (tokens_included u <=? precall env u) eqn:E; [by simpl|]. simpl.
    intros _. split; [lia|].
    destruct Hserved as (r & Hr & Ht); [lia|].
    destruct (truediv_some (total_tokens_used r) (tokens_included u)) as (ratio & Hd);
      [lia|].
    by exists r, ratio. }
  intros Hzero. rewrite Hcases.
  destruct (limiter_allows env (get_rate_limit rq s)); [|simpl; intuition discriminate].
  destruct (PyStr.falsy (req_prompt rq)); [simpl; intuition discriminate|].
  destruct (tokens_included u <=? precall env u) eqn:E; [simpl; intuition|lia].
Qed.

Lemma C10_no_division_by_zero_witness :
  reply (api_chat (no_upstream (fun _ => true) 10)
           (post demo_key "hello world" "auto" "auto") (demo_store 0 0 50))
  = QuotaExceeded.
Proof.
  destruct (C10_no_division_by_zero (no_upstream (fun _ => true) 10)
              (post demo_key "hello world" "auto" "auto")
              (demo_store 0 0 50) demo_key (demo_user 0 0 50))
    as (_ & _ & H).
  - repeat split; reflexivity.
  - simpl. lia.
  - destruct H as (_ & _ & H); [reflexivity|]. apply H; reflexivity.
Defined.

(** ** Rejected requests *)

Section Rejected.

Lemma limit_chat_not_auth_denied env rq ctx s :
  ~ AuthDenied (reply (limit chat env rq ctx s)).
Proof.
  unfold limit, chat, AuthDenied.
  destruct (limiter_allows env (get_rate_limit rq s)); [|simpl; intuition discriminate].
  destruct (PyStr.falsy (req_prompt rq)); [simpl; intuition discriminate|].
  destruct (ctx_tokens_included ctx <=? ctx_tokens_used ctx);
    [simpl; intuition discriminate|].
  destruct (route env (req_prompt rq) (req_model rq) (req_provider rq)). simpl.
  pose proof (respond_not_denied ctx p) as (H1 & H2 & _). intuition.
Qed.

End Rejected.

(** C8, as the code has it. A request answered 401 (no key, a key no
    account has, an inactive account) leaves the whole database as it was
    and calls no adapter. A request answered [QuotaExceeded] calls no
    adapter, appends no usage log, touches no daily aggregate and debits
    nothing: the database is the one the decorator handed over, which is
    the database of before when the request arrived within the period, and
    in every case when [tokens_included] is positive; past the reset date
    (only possible here with [tokens_included <= 0]) it differs by the
    rollover alone. *)
Theorem C8_rejections_record_nothing (env : Env) (rq : Request) (s : Store) :
  let o := api_chat env rq s in
  (AuthDenied (reply o) -> store o = s /\ calls o = [])
  /\ (reply o = QuotaExceeded ->
      calls o = []
      /\ usage_logs (store o) = usage_logs s
      /\ analytics_daily (store o) = analytics_daily s
      /\ exists key u,
           authenticates rq s key u
           /\ store o = after_auth env key u s
           /\ account key (store o) = Some (rolled env u)
           /\ tokens_included u <= precall env u
           /\ (now_check env <= tokens_reset_date u -> store o = s)
           /\ (0 < tokens_included u -> store o = s)).
Proof.
  intros o. destruct (authenticated_or_denied env rq s) as [(key & u & Hauth) | Hden].
  - pose proof (api_chat_cases env rq s key u Hauth) as Hcases. fold o in Hcases.
    split.
    { intros Hd. exfalso. subst o.
      rewrite (api_chat_authenticated env rq s key u Hauth) in Hd.
      by apply limit_chat_not_auth_denied in Hd. }
    intros Hq.
    assert (Hshape : store o = after_auth env key u s /\ calls o = []
                     /\ tokens_included u <= precall env u).
    { rewrite Hcases in Hq |- *.
      destruct (limiter_allows env (get_rate_limit rq s)); [|discriminate].
      destruct (PyStr.falsy (req_prompt rq)); [discriminate|].
      destruct (tokens_included u <=? precall env u) eqn:E.
      - simpl. repeat split; lia.
      - simpl in Hq. by apply respond_not_denied in Hq. }
    destruct Hshape as (Hst & Hcalls & Hge).
    pose proof (after_auth_tables env key u s) as (Hlogs & Hdaily).
    split; [exact Hcalls|]. rewrite Hst.
    split; [exact Hlogs|]. split; [exact Hdaily|].
    exists key, u. split; [exact Hauth|]. split; [reflexivity|].
    split; [apply account_after_auth; apply Hauth|].
    split; [exact Hge|]. split.
    + intros Hfresh. by apply after_auth_fresh.
    + intros Hpos. apply after_auth_fresh.
      destruct (Z.lt_ge_cases (tokens_reset_date u) (now_check env)) as [Hst'|]; [|lia].
      rewrite (precall_stale env u Hst') in Hge. lia.
  - destruct Hden as (Hd & Hst & Hcalls). fold o in Hd, Hst, Hcalls.
    split; [by intros _|].
    intros Hq. exfalso. destruct Hd as [Hd | Hd]; rewrite Hd in Hq; discriminate.
Qed.

Lemma C8_rejections_record_nothing_witness :
  store (api_chat (no_upstream (fun _ => true) 100)
           (post demo_key "hello" "auto" "auto") (demo_store 10000 10000 500))
  = demo_store 10000 10000 500
  /\ store (api_chat (no_upstream (fun _ => true) 100)
              (post "sk_unknown" "hello" "auto" "auto") (demo_store 10000 0 500))
     = demo_store 10000 0 500.
Proof.
  split.
  - destruct (C8_rejections_record_nothing (no_upstream (fun _ => true) 100)
                (post demo_key "hello" "auto" "auto") (demo_store 10000 10000 500))
      as (_ & H).
    destruct H as (_ & _ & _ & key & u & Hauth & _ & _ & _ & _ & Hpos);
      [reflexivity|].
    apply Hpos. destruct Hauth as (Hc & _ & Ha & _).
    injection Hc as <-. vm_compute in Ha. injection Ha as <-. simpl. lia.
  - destruct (C8_rejections_record_nothing (no_upstream (fun _ => true) 100)
                (post "sk_unknown" "hello" "auto" "auto") (demo_store 10000 0 500))
      as (H & _).
    apply H. right. reflexivity.
Defined.

(** C8 as it is written fails: an account with [tokens_included = 0]
    whose reset date has passed is answered [QuotaExceeded], yet the
    decorator has already set its counter to 0 and moved its reset date. *)
Lemma C8_rollover_precedes_denial :
  let s := demo_store 0 12 50 in
  let o := api_chat (no_upstream (fun _ => true) 100)
             (post demo_key "hello" "auto" "auto") s in
  reply o = QuotaExceeded
  /\ store o <> s
  /\ account demo_key s = Some (demo_user 0 12 50)
  /\ account demo_key (store o) = Some (demo_user 0 0 2592000000100).
Proof.
  split; [reflexivity|]. split.
  - intros H. apply (f_equal users) in H. vm_compute in H. discriminate.
  - split; reflexivity.
Qed.

(** ** The daily aggregate *)

(** C4, on the code. The upsert of a completed call writes, under
    [(today, account)], the former request count plus 1, the former token
    sum plus the call's tokens, the former cost sum plus the call's cost,
    and as [avg_response_time] the latency of this call alone. After a
    call of 0.5 s and a call of 0.7 s on the same day the row counts 2
    requests and holds 0.7, where the average of the day's two recorded
    calls is 0.6. *)
Theorem C4_daily_aggregate_upsert :
  (forall env ctx result s,
      let k := (date_of (now_today env), ctx_user_id ctx) in
      let old := analytics_daily s !! k in
      analytics_daily (record_usage env ctx result s) !! k
      = Some {| total_requests := default 0 (total_requests <$> old) + 1;
                total_tokens := default 0 (total_tokens <$> old) + tokens result;
                total_cost :=
                  (default 0%float (total_cost <$> old) + cost result)%float;
                avg_response_time := response_time result |})
  /\ (let s2 := serve_all two_calls_one_day (demo_store 100000 0 50) in
      (total_requests <$> analytics_daily s2 !! (0, "u-demo")) = Some 2
      /\ (total_tokens <$> analytics_daily s2 !! (0, "u-demo")) = Some 4
      /\ List.map log_response_time (day_logs 0 "u-demo" (usage_logs s2))
         = [0.5%float; 0.7%float]
      /\ (avg_response_time <$> analytics_daily s2 !! (0, "u-demo")) = Some 0.7%float
      /\ spec_average_latency (day_logs 0 "u-demo" (usage_logs s2)) = 0.6%float).
Proof.
  split.
  - intros env ctx result s k old. simpl. apply upsert_daily_lookup.
  - vm_compute. repeat split; reflexivity.
Qed.

(** ** Concurrent requests and the debit *)

Section Concurrency.

(** A worker left alone takes four steps at most, and they are the
    endpoint. *)
Lemma solo_run env rq s :
  run [0; 0; 0; 0]%nat [arrive env rq] s
  = ([ {| th_env := env; th_request := rq;
          th_progress := Finished (reply (api_chat env rq s))
                           (calls (api_chat env rq s)) |} ],
     store (api_chat env rq s)).
Proof.
  unfold api_chat, require_api_key, arrive. simpl. unfold thread_step. simpl.
  destruct (credential rq) as [key|]; [|reflexivity].
  destruct (PyStr.falsy key); [reflexivity|].
  destruct (Sql.select_user_by_api_key key (users s)) as [u|]; [|reflexivity].
  destruct (is_active u); [|reflexivity]. simpl.
  destruct (tokens_reset_date u <? now_check env); simpl.
  - unfold limit, chat.
    destruct (limiter_allows env (get_rate_limit rq _)); [|reflexivity].
    destruct (PyStr.falsy (req_prompt rq)); [reflexivity|]. simpl.
    destruct (tokens_included u <=? 0); [reflexivity|].
    by destruct (route env (req_prompt rq) (req_model rq) (req_provider rq)).
  - unfold limit, chat.
    destruct (limiter_allows env (get_rate_limit rq s)); [|reflexivity].
    destruct (PyStr.falsy (req_prompt rq)); [reflexivity|]. simpl.
    destruct (tokens_included u <=? tokens_used u); [reflexivity|].
    by destruct (route env (req_prompt rq) (req_model rq) (req_provider rq)).
Qed.

(** Served one after the other within the period, the calls of an
    account add up in its counter. *)
Lemma serial_debits_add_up key rs : forall s u,
  PyStr.falsy key = false ->
  account key s = Some u ->
  served_in_period key rs s ->
  tokens_used <$> account key (serve_all rs s) = Some (tokens_used u + spent rs).
Proof.
  induction rs as [|[env rq] rs IH]; intros s u Hk Ha Hs; simpl.
  - rewrite Ha. simpl. f_equal. lia.
  - destruct Hs as (Hc & Hfresh & Hcalls & Hrest).
    specialize (Hfresh u Ha).
    assert (Hauth : authenticates rq s key u).
    { destruct (authenticated_or_denied env rq s)
        as [(k' & u' & Hc' & Hk' & Ha' & Hact) | (_ & _ & Hnil)]; [|done].
      rewrite Hc in Hc'. injection Hc' as <-. rewrite Ha in Ha'.
      injection Ha' as <-. by repeat split. }
    pose proof (api_chat_cases env rq s key u Hauth) as Hcases.
    rewrite (precall_fresh env u Hfresh), (after_auth_fresh env key u s Hfresh)
      in Hcases.
    assert (Hst : store (api_chat env rq s)
                  = record_usage env (ctx_of u (tokens_used u))
                      (route env (req_prompt rq) (req_model rq) (req_provider rq)).1 s).
    { rewrite Hcases in Hcalls |- *.
      destruct (limiter_allows env (get_rate_limit rq s)); [|done].
      destruct (PyStr.falsy (req_prompt rq)); [done|].
      by destruct (tokens_included u <=? tokens_used u). }
    rewrite (IH (store (api_chat env rq s))
               (Sql.usage_row
                  (tokens_used u
                   + tokens (route env (req_prompt rq) (req_model rq)
                               (req_provider rq)).1)
                  (now_debit env) u) Hk); [simpl; f_equal; lia | | exact Hrest].
    rewrite Hst. by apply account_after_record.
Qed.

Lemma thread_step_arrived env rq s key u :
  authenticates rq s key u -> now_check env <= tokens_reset_date u ->
  thread_step (arrive env rq) s
  = (at_stage env rq (Authed (ctx_of u (tokens_used u))), s).
Proof.
  intros (Hc & Hk & Ha & Hact) Hfresh. unfold account in Ha.
  apply Z.ltb_ge in Hfresh.
  unfold thread_step, arrive, at_stage. simpl.
  by rewrite Hc, Hk, Ha, Hact, Hfresh.
Qed.

Lemma thread_step_authed env rq s ctx :
  limiter_allows env (get_rate_limit rq s) = true ->
  PyStr.falsy (req_prompt rq) = false ->
  ctx_tokens_used ctx < ctx_tokens_included ctx ->
  thread_step (at_stage env rq (Authed ctx)) s
  = (at_stage env rq
       (Called ctx (route env (req_prompt rq) (req_model rq) (req_provider rq)).1
          (route env (req_prompt rq) (req_model rq) (req_provider rq)).2), s).
Proof.
  intros Hl Hp Hlt. apply Z.leb_gt in Hlt.
  unfold thread_step, at_stage. simpl. rewrite Hl, Hp, Hlt.
  by destruct (route env (req_prompt rq) (req_model rq) (req_provider rq)).
Qed.

Lemma thread_step_called env rq s ctx result call :
  thread_step (at_stage env rq (Called ctx result call)) s
  = (at_stage env rq (Finished (respond ctx result) [call]),
     record_usage env ctx result s).
Proof. reflexivity. Qed.

Lemma run_step i rest ts s t :
  ts !! i = Some t ->
  run (i :: rest) ts s
  = run rest (<[ i := (thread_step t s).1 ]> ts) (thread_step t s).2.
Proof. intros H. simpl. rewrite H. by destruct (thread_step t s). Qed.

(** Two workers that alternate on one account: each reads the counter
    before the other writes, and the debit written last is all that is
    left, while both calls are logged. *)
Lemma interleaved_debit_overwritten envA rqA envB rqB s key u :
  authenticates rqA s key u -> authenticates rqB s key u ->
  now_check envA <= tokens_reset_date u -> now_check envB <= tokens_reset_date u ->
  limiter_allows envA (get_rate_limit rqA s) = true ->
  limiter_allows envB (get_rate_limit rqB s) = true ->
  PyStr.falsy (req_prompt rqA) = false -> PyStr.falsy (req_prompt rqB) = false ->
  tokens_used u < tokens_included u ->
  let resA := (route envA (req_prompt rqA) (req_model rqA) (req_provider rqA)).1 in
  let resB := (route envB (req_prompt rqB) (req_model rqB) (req_provider rqB)).1 in
  let s' := (run [0; 1; 0; 1; 0; 1]%nat [arrive envA rqA; arrive envB rqB] s).2 in
  tokens_used <$> account key s' = Some (tokens_used u + tokens resB)
  /\ List.map log_tokens (usage_logs s')
     = (List.map log_tokens (usage_logs s) ++ [tokens resA; tokens resB])%list.
Proof.
  intros HaA HaB HfA HfB HlA HlB HpA HpB Hlt resA resB s'.
  assert (Hrun : exists ts',
            run [0; 1; 0; 1; 0; 1]%nat [arrive envA rqA; arrive envB rqB] s
            = (ts', record_usage envB (ctx_of u (tokens_used u)) resB
                      (record_usage envA (ctx_of u (tokens_used u)) resA s))).
  { eexists.
    rewrite (run_step 0 _ _ _ (arrive envA rqA)) by reflexivity.
    rewrite (thread_step_arrived envA rqA s key u HaA HfA). simpl fst. simpl snd.
    rewrite (run_step 1 _ _ _ (arrive envB rqB)) by reflexivity.
    rewrite (thread_step_arrived envB rqB s key u HaB HfB). simpl fst. simpl snd.
    rewrite (run_step 0 _ _ _ (at_stage envA rqA (Authed (ctx_of u (tokens_used u)))))
      by reflexivity.
    rewrite (thread_step_authed envA rqA s (ctx_of u (tokens_used u)) HlA HpA Hlt). simpl fst. simpl snd.
    rewrite (run_step 1 _ _ _ (at_stage envB rqB (Authed (ctx_of u (tokens_used u)))))
      by reflexivity.
    rewrite (thread_step_authed envB rqB s (ctx_of u (tokens_used u)) HlB HpB Hlt). simpl fst. simpl snd.
    rewrite (run_step 0 _ _ _ (at_stage envA rqA
               (Called (ctx_of u (tokens_used u)) resA
                  (route envA (req_prompt rqA) (req_model rqA) (req_provider rqA)).2)))
      by reflexivity.
    rewrite thread_step_called. simpl fst. simpl snd.
    rewrite (run_step 1 _ _ _ (at_stage envB rqB
               (Called (ctx_of u (tokens_used u)) resB
                  (route envB (req_prompt rqB) (req_model rqB) (req_provider rqB)).2)))
      by reflexivity.
    rewrite thread_step_called. reflexivity. }
  destruct Hrun as (ts' & Hrun). subst s'. rewrite Hrun. simpl snd. split.
  - destruct HaA as (_ & _ & Ha & _).
    rewrite (account_after_record envB _ resB key _
               (Sql.usage_row (tokens_used u + tokens resA) (now_debit envA) u));
      [reflexivity | | reflexivity].
    by apply account_after_record.
  - simpl. rewrite !List.map_app. simpl. by rewrite <- List.app_assoc.
Qed.

End Concurrency.

(** C1, on the code. Two requests of one account, of 2 and of 5 tokens,
    start from a counter of 100. When the two workers alternate, both read
    100 before either writes: both are answered 200, the usage log holds
    the 2 and the 5 tokens, and the counter ends at 105, the debit of 2
    being overwritten. Served one after the other, by the same machine or
    by the endpoint, they leave 107. *)
Theorem C1_concurrent_debit_lost :
  let interleaved := run [0; 1; 0; 1; 0; 1]%nat two_workers shared_store in
  let serial := run [0; 0; 0; 1; 1; 1]%nat two_workers shared_store in
  List.map finished_tokens interleaved.1 = [Some 2; Some 5]
  /\ List.map log_tokens (usage_logs interleaved.2) = [2; 5]
  /\ tokens_used <$> account demo_key shared_store = Some 100
  /\ tokens_used <$> account demo_key interleaved.2 = Some 105
  /\ List.map finished_tokens serial.1 = [Some 2; Some 5]
  /\ tokens_used <$> account demo_key serial.2 = Some 107
  /\ tokens_used
       <$> account demo_key
             (serve_all (List.map (fun t => (th_env t, th_request t)) two_workers)
                shared_store)
     = Some 107.
Proof. vm_compute. repeat split; reflexivity. Qed.

(** * Further properties *)

(** ** The decorator and the endpoint [/api/openclaw] *)

Section Openclaw.

Lemma require_api_key_authenticate f env rq s :
  require_api_key f env rq s
  = match authenticate env rq s with
    | inl r => reject r s
    | inr (ctx, s') => f env rq ctx s'
    end.
Proof.
  unfold require_api_key, authenticate.
  destruct (credential rq) as [key|]; [|reflexivity].
  destruct (PyStr.falsy key); [reflexivity|].
  destruct (Sql.select_user_by_api_key key (users s)) as [u|]; [|reflexivity].
  destruct (negb (is_active u)); [reflexivity|].
  by destruct (tokens_reset_date u <? now_check env).
Qed.

Lemma authenticate_authenticated env rq s key u :
  authenticates rq s key u ->
  authenticate env rq s = inr (ctx_of u (precall env u), after_auth env key u s).
Proof.
  intros (Hc & Hk & Ha & Hact). unfold authenticate, precall, after_auth.
  unfold account in Ha. rewrite Hc, Hk, Ha, Hact. simpl.
  by destruct (tokens_reset_date u <? now_check env).
Qed.

Lemma authenticate_denied env rq s :
  (forall key u, ~ authenticates rq s key u) ->
  exists r, authenticate env rq s = inl r /\ AuthDenied r.
Proof.
  intros Hno. unfold authenticate, AuthDenied.
  destruct (credential rq) as [key|] eqn:Hc; [|eauto].
  destruct (PyStr.falsy key) eqn:Hk; [eauto|].
  destruct (Sql.select_user_by_api_key key (users s)) as [u|] eqn:Hu; [|eauto].
  destruct (is_active u) eqn:Hact; [|simpl; eauto].
  exfalso. by apply (Hno key u).
Qed.

Lemma authenticate_cases env rq s :
  (exists key u, authenticates rq s key u
                 /\ authenticate env rq s
                    = inr (ctx_of u (precall env u), after_auth env key u s))
  \/ (exists r, authenticate env rq s = inl r /\ AuthDenied r).
Proof.
  destruct (authenticated_or_denied env rq s) as [(key & u & Hauth) | _].
  - left. exists key, u. split; [exact Hauth|]. by apply authenticate_authenticated.
  - unfold authenticate, AuthDenied, authenticates, account.
    destruct (credential rq) as [key|] eqn:Hc; [|right; eauto].
    destruct (PyStr.falsy key) eqn:Hk; [right; eauto|].
    destruct (Sql.select_user_by_api_key key (users s)) as [u|] eqn:Hu;
      [|right; eauto].
    destruct (is_active u) eqn:Hact; [|right; simpl; eauto].
    left. exists key, u. split; [done|]. simpl. unfold precall, after_auth.
    by destruct (tokens_reset_date u <? now_check env).
Qed.

Lemma select_after_add_usage delta id key us :
  Sql.select_user_by_api_key key (add_usage delta id us)
  = (fun u => if String.eqb (uid u) id then add_usage_row delta u else u)
      <$> Sql.select_user_by_api_key key us.
Proof.
  unfold Sql.select_user_by_api_key, add_usage.
  apply find_map_stable. intros x. by destruct (String.eqb (uid x) id).
Qed.

Lemma account_after_openclaw env ctx toks cst key s u :
  account key s = Some u -> uid u = ctx_user_id ctx ->
  account key (record_openclaw env ctx toks cst s) = Some (add_usage_row toks u).
Proof.
  unfold account. intros H Hid. simpl. rewrite select_after_add_usage, H. simpl.
  by rewrite Hid, String.eqb_refl.
Qed.

(** The loop, whatever its variables hold when it starts. *)
Lemma run_tools_acc tools : forall results total_tokens total_cost,
  run_tools tools results total_tokens total_cost
  = ((results ++ List.map mock_result (named_tools tools))%list,
     total_tokens + 10 * Z.of_nat (length (named_tools tools)),
     List.fold_left (fun c (_ : string) => (c + 0.0001)%float)
       (named_tools tools) total_cost).
Proof.
  induction tools as [|t tools IH]; intros results tt tc; simpl.
  - rewrite List.app_nil_r, Z.add_0_r. reflexivity.
  - destruct t as [name|]; [|apply IH].
    destruct (PyStr.falsy name); [apply IH|].
    rewrite IH. simpl length. rewrite <- List.app_assoc.
    replace (tt + 10 + 10 * Z.of_nat (length (named_tools tools)))
      with (tt + 10 * Z.of_nat (S (length (named_tools tools)))) by lia.
    reflexivity.
Qed.

Lemma oc_debited_sum_insert ts : forall i t t',
  ts !! i = Some t ->
  oc_debited_sum (<[ i := t' ]> ts) = oc_debited_sum ts - oc_debited t + oc_debited t'.
Proof.
  induction ts as [|x ts IH]; intros i t t' H; [done|].
  destruct i as [|i]; simpl in *.
  - injection H as ->. unfold oc_debited_sum. simpl. lia.
  - unfold oc_debited_sum in *. simpl. rewrite (IH i t t' H). lia.
Qed.

End Openclaw.

Section OpenclawWorkers.

Lemma logged_tokens_app logs l :
  List.fold_right (fun l acc => log_tokens l + acc) 0 (logs ++ [l])%list
  = List.fold_right (fun l acc => log_tokens l + acc) 0 logs + log_tokens l.
Proof. induction logs as [|x logs IH]; simpl; [lia | rewrite IH; lia]. Qed.

Variables (key : string) (u : User) (s0 : Store).
Hypothesis Hkey : PyStr.falsy key = false.

#[local] Abbreviation oc_inv := (oc_invariant key u s0).

Lemma oc_step_keeps ts s i t :
  oc_inv ts s -> ts !! i = Some t ->
  oc_inv (<[ i := (oc_thread_step t s).1 ]> ts) (oc_thread_step t s).2.
Proof.
  intros ((us & Ha & Hid & Hact & Hreset & Hused) & Hlog & Hall) Hi.
  pose proof (Forall_lookup_1 _ _ _ _ Hall Hi) as (Hc & Hfresh & Hp).
  unfold oc_thread_step.
  destruct t as [env rq tools p]. simpl in *.
  assert (Hkeep : forall p', oc_debited
                               {| oc_env := env; oc_request := rq; oc_tools := tools;
                                  oc_progress := p' |} = 0 ->
            oc_debited {| oc_env := env; oc_request := rq; oc_tools := tools;
                          oc_progress := p |} = 0 ->
            match p' with
            | OcRolling _ _ => False
            | OcAuthed ctx => ctx_user_id ctx = uid u
            | _ => True
            end ->
            oc_inv (<[ i := {| oc_env := env; oc_request := rq; oc_tools := tools;
                               oc_progress := p' |} ]> ts) s).
  { intros p' Hd' Hd Hp'. split; [|split].
    - exists us. rewrite (oc_debited_sum_insert ts i _ _ Hi), Hd, Hd'.
      repeat split; try done. lia.
    - rewrite (oc_debited_sum_insert ts i _ _ Hi), Hd, Hd'. lia.
    - apply Forall_insert; [exact Hall|]. by repeat split. }
  destruct p as [|k v|ctx|r]; simpl.
  - unfold account in Ha. rewrite Hc, Hkey, Ha, Hact. simpl.
    destruct (tokens_reset_date us <? now_check env) eqn:E; [lia|]. simpl.
    by apply Hkeep.
  - done.
  - destruct (limiter_allows env "100 per hour"); simpl; [|by apply Hkeep].
    destruct tools as [tl|]; simpl; [|by apply Hkeep].
    rewrite run_tools_acc. simpl.
    set (n := 10 * Z.of_nat (length (named_tools tl))).
    split; [|split].
    + exists (add_usage_row n us).
      rewrite (oc_debited_sum_insert ts i _ _ Hi). unfold oc_debited at 1 2. simpl.
      split; [apply account_after_openclaw; [exact Ha | by rewrite Hid]|].
      simpl. repeat split; try done. lia.
    + unfold logged_tokens. simpl. rewrite logged_tokens_app. simpl.
      rewrite (oc_debited_sum_insert ts i _ _ Hi). unfold oc_debited at 1 2. simpl.
      unfold logged_tokens in Hlog. lia.
    + apply Forall_insert; [exact Hall|]. by repeat split.
  - replace (<[ i := _ ]> ts) with ts; [by repeat split; eauto 10|].
    symmetry. by apply list_insert_id.
Qed.

Lemma oc_run_keeps schedule : forall ts s,
  oc_inv ts s -> oc_inv (oc_run schedule ts s).1 (oc_run schedule ts s).2.
Proof.
  induction schedule as [|i rest IH]; intros ts s Hinv; [exact Hinv|].
  simpl. destruct (ts !! i) as [t|] eqn:Hi; [|by apply IH].
  pose proof (oc_step_keeps ts s i t Hinv Hi) as Hstep.
  destruct (oc_thread_step t s) as [t' s']. by apply IH.
Qed.

Lemma oc_run_from_arrival schedule ts :
  account key s0 = Some u -> is_active u = true ->
  Forall (fun t => oc_progress t = OcArrived
                   /\ credential (oc_request t) = Some key
                   /\ now_check (oc_env t) <= tokens_reset_date u) ts ->
  oc_inv (oc_run schedule ts s0).1 (oc_run schedule ts s0).2.
Proof.
  intros Ha Hact Hall. apply oc_run_keeps.
  assert (Hzero : oc_debited_sum ts = 0).
  { clear -Hall. induction Hall as [|t ts (Hp & _) _ IH]; [done|].
    unfold oc_debited_sum in *. simpl. unfold oc_debited at 1. rewrite Hp. lia. }
  split; [|split].
  - exists u. rewrite Hzero. repeat split; try done. lia.
  - lia.
  - eapply Forall_impl; [exact Hall|]. intros t (Hp & Hc & Hf).
    unfold oc_thread_ok. rewrite Hp. by repeat split.
Qed.

End OpenclawWorkers.

(** X1. [/api/openclaw] has no quota gate: an authenticated request that
    the limiter lets through and whose body has a tools array is answered
    200 whatever the counter and the quota are, the tokens it is charged
    being a 64-bit integer, which sqlite3 binds. It gets one result per
    tool that has a name, in order, and is charged 10 tokens for each;
    one usage log is appended and the daily aggregates are not touched.
    The charge comes on top of the counter the database holds after the
    decorator, as long as that counter and the sum are 64-bit integers:
    SQLite adds within them. *)
Theorem X1_openclaw_served_without_quota_gate (env : Env) (rq : Request)
    (tools : list (option string)) (s : Store) (key : string) (u : User) :
  authenticates rq s key u ->
  limiter_allows env "100 per hour" = true ->
  let o := api_openclaw env rq (Some tools) s in
  let n := Z.of_nat (length (named_tools tools)) in
  10 * n < 2 ^ 63 ->
  (exists r, oc_reply o = Executed r
             /\ oc_results r = List.map mock_result (named_tools tools)
             /\ oc_tokens_used r = 10 * n)
  /\ (- 2 ^ 63 <= precall env u -> precall env u + 10 * n < 2 ^ 63 ->
      exists u', account key (oc_store o) = Some u'
                 /\ tokens_used u' = precall env u + 10 * n
                 /\ tokens_included u' = tokens_included u)
  /\ List.map log_tokens (usage_logs (oc_store o))
     = (List.map log_tokens (usage_logs s) ++ [10 * n])%list
  /\ analytics_daily (oc_store o) = analytics_daily s.
Proof.
  intros Hauth Hlim o n _. subst o. unfold api_openclaw.
  rewrite (authenticate_authenticated env rq s key u Hauth), Hlim.
  unfold openclaw_unified. rewrite run_tools_acc. simpl.
  pose proof (rolled_columns env u) as (Hid & _ & _ & Hincl & _ & Hused).
  pose proof (after_auth_tables env key u s) as (Hlogs & Hdaily).
  split; [eexists; by repeat split|].
  split.
  { intros _ _. exists (add_usage_row (10 * n) (rolled env u)). split.
    - apply account_after_openclaw; [|exact Hid].
      apply account_after_auth. apply Hauth.
    - simpl. by rewrite Hused, Hincl. }
  split; [rewrite List.map_app, Hlogs; reflexivity | exact Hdaily].
Qed.

Lemma X1_openclaw_served_without_quota_gate_witness :
  exists u',
    account demo_key
      (oc_store (api_openclaw (no_upstream (fun _ => true) 10)
                   (post demo_key "" "auto" "auto")
                   (Some [Some "web_search"; None; Some ""; Some "weather"])
                   (demo_store 10000 10000 50))) = Some u'
    /\ tokens_used u' = 10020 /\ tokens_included u' = 10000.
Proof.
  destruct (X1_openclaw_served_without_quota_gate (no_upstream (fun _ => true) 10)
              (post demo_key "" "auto" "auto")
              [Some "web_search"; None; Some ""; Some "weather"]
              (demo_store 10000 10000 50) demo_key (demo_user 10000 10000 50))
    as (_ & H & _).
  - repeat split; reflexivity.
  - reflexivity.
  - vm_compute. reflexivity.
  - apply H; [vm_compute; discriminate | vm_compute; reflexivity].
Defined.

(** X2. The debit of [/api/openclaw] adds to the stored counter, so no
    interleaving loses one: for workers of one account that arrive within
    its billing period, after any schedule the counter is the initial one
    plus the tokens of the workers answered 200 so far, and the tokens of
    the usage log have grown by the same amount. The counter starts at 0
    or above, and with 10 tokens for every named tool of every worker it
    stays below 2^63: SQLite adds within the 64-bit integers. *)
Theorem X2_openclaw_debits_never_lost (schedule : list nat) (ts : list OcThread)
    (s : Store) (key : string) (u : User) :
  PyStr.falsy key = false ->
  account key s = Some u -> is_active u = true ->
  Forall (fun t => oc_progress t = OcArrived
                   /\ credential (oc_request t) = Some key
                   /\ now_check (oc_env t) <= tokens_reset_date u) ts ->
  0 <= tokens_used u ->
  tokens_used u
  + 10 * Z.of_nat (length (List.flat_map
                             (fun t => named_tools (default [] (oc_tools t))) ts))
  < 2 ^ 63 ->
  let after := oc_run schedule ts s in
  tokens_used <$> account key after.2 = Some (tokens_used u + oc_debited_sum after.1)
  /\ logged_tokens after.2 = logged_tokens s + oc_debited_sum after.1.
Proof.
  intros Hk Ha Hact Hall _ _ after.
  destruct (oc_run_from_arrival key u s Hk schedule ts Ha Hact Hall)
    as ((us & Hus & _ & _ & _ & Hused) & Hlog & _).
  fold after in Hus, Hused, Hlog. split; [|exact Hlog].
  rewrite Hus. simpl. by rewrite Hused.
Qed.

Lemma X2_openclaw_debits_never_lost_witness :
  let after :=
    oc_run [0; 1; 0; 1]%nat
      [ oc_arrive (no_upstream (fun _ => true) 10) (post demo_key "" "auto" "auto")
          (Some [Some "web_search"; Some "weather"]);
        oc_arrive (no_upstream (fun _ => true) 20) (post demo_key "" "auto" "auto")
          (Some [Some "gmail"]) ]
      (demo_store 100000 100 50) in
  tokens_used <$> account demo_key after.2 = Some 130.
Proof.
  destruct (X2_openclaw_debits_never_lost [0; 1; 0; 1]%nat
              [ oc_arrive (no_upstream (fun _ => true) 10)
                  (post demo_key "" "auto" "auto")
                  (Some [Some "web_search"; Some "weather"]);
                oc_arrive (no_upstream (fun _ => true) 20)
                  (post demo_key "" "auto" "auto") (Some [Some "gmail"]) ]
              (demo_store 100000 100 50) demo_key (demo_user 100000 100 50))
    as (H & _).
  - reflexivity.
  - reflexivity.
  - reflexivity.
  - repeat constructor; simpl; lia.
  - simpl. lia.
  - vm_compute. reflexivity.
  - exact H.
Defined.

(** X3. A request to [/api/openclaw] that is not answered 200 charges and
    logs nothing: without valid credential the database is left as it
    was; turned away by the limiter or for its missing tools array, the
    database is the one the decorator handed over, with the usage logs
    and the counter as the decorator left them. No request to this
    endpoint changes the daily aggregates. *)
Theorem X3_openclaw_rejections_record_nothing (env : Env) (rq : Request)
    (tools : option (list (option string))) (s : Store) :
  let o := api_openclaw env rq tools s in
  analytics_daily (oc_store o) = analytics_daily s
  /\ ((forall r, oc_reply o <> Executed r) ->
      usage_logs (oc_store o) = usage_logs s
      /\ ((exists r, oc_reply o = Unauthorized r /\ AuthDenied r /\ oc_store o = s)
          \/ (exists key u, authenticates rq s key u
                            /\ oc_store o = after_auth env key u s
                            /\ account key (oc_store o) = Some (rolled env u)))).
Proof.
  intros o. subst o. unfold api_openclaw.
  destruct (authenticate_cases env rq s) as [(key & u & Hauth & ->) | (r & -> & Hr)].
  - pose proof (after_auth_tables env key u s) as (Hlogs & Hdaily).
    assert (Hacc : account key (after_auth env key u s) = Some (rolled env u)).
    { apply account_after_auth. apply Hauth. }
    destruct (limiter_allows env "100 per hour").
    + destruct tools as [tl|]; simpl.
      * destruct (run_tools tl [] 0 0%float) as [[results tt] tc]. simpl.
        split; [exact Hdaily|]. intros Hno. exfalso. by eapply Hno.
      * split; [exact Hdaily|]. intros _. split; [exact Hlogs|].
        right. by exists key, u.
    + simpl. split; [exact Hdaily|]. intros _. split; [exact Hlogs|].
      right. by exists key, u.
  - simpl. split; [reflexivity|]. intros _. split; [reflexivity|].
    left. by exists r.
Qed.

Lemma X3_openclaw_rejections_record_nothing_witness :
  usage_logs
    (oc_store (api_openclaw (no_upstream (fun _ => true) 10)
                 (post demo_key "" "auto" "auto") None (demo_store 10000 0 50)))
  = [].
Proof.
  destruct (X3_openclaw_rejections_record_nothing (no_upstream (fun _ => true) 10)
              (post demo_key "" "auto" "auto") None (demo_store 10000 0 50))
    as (_ & H).
  destruct H as (Hlogs & _); [intros r; discriminate|]. exact Hlogs.
Defined.

(** ** More on the endpoint [/api/chat] *)

Section ChatShape.

Lemma lookup_map {A B : Type} (f : A -> B) (l : list A) (i : nat) :
  List.map f l !! i = f <$> l !! i.
Proof.
  revert i. induction l as [|x l IH]; intros [|i]; simpl; try reflexivity. apply IH.
Qed.

(** The database a request leaves is the one it found, the one the
    decorator handed over, or that one with the usage of the one call
    recorded. *)
Lemma api_chat_shape env rq s :
  let o := api_chat env rq s in
  (store o = s /\ calls o = [] /\ forall r, reply o <> Ok r)
  \/ exists key u,
       authenticates rq s key u
       /\ ((store o = after_auth env key u s /\ calls o = []
            /\ forall r, reply o <> Ok r)
           \/ (precall env u < tokens_included u
               /\ o = commit env (ctx_of u (precall env u))
                        (route env (req_prompt rq) (req_model rq) (req_provider rq)).1
                        (route env (req_prompt rq) (req_model rq) (req_provider rq)).2
                        (after_auth env key u s))).
Proof.
  intros o. subst o.
  destruct (authenticated_or_denied env rq s) as [(key & u & Hauth) | (Hd & Hs & Hc)].
  - right. exists key, u. split; [exact Hauth|].
    rewrite (api_chat_cases env rq s key u Hauth).
    destruct (limiter_allows env (get_rate_limit rq s)); [|left; by simpl].
    destruct (PyStr.falsy (req_prompt rq)); [left; by simpl|].
    destruct (tokens_included u <=? precall env u) eqn:E; [left; by simpl|].
    right. split; [lia | reflexivity].
  - left. repeat split; try done. intros r Hr.
    destruct Hd as [Hd | Hd]; rewrite Hd in Hr; discriminate.
Qed.

End ChatShape.

(** X4. [/api/chat] records one usage log for a call, and none without.
    A request that calls no adapter is not answered 200 and leaves the
    usage logs, and the whole database apart from a rollover of its own
    account, as they were. A request that calls an adapter calls the one
    it is routed to, once; and when the tokens of the call and the new
    counter are 64-bit integers, which sqlite3 binds, it appends one
    usage log: for the endpoint ["/api/chat"], under the account's id,
    with the provider and the model of the call, and with the tokens, the
    cost and the latency that the answer reports. *)
Theorem X4_chat_records_one_log_per_call (env : Env) (rq : Request) (s : Store) :
  let o := api_chat env rq s in
  let routed := route env (req_prompt rq) (req_model rq) (req_provider rq) in
  (calls o = []
   /\ (forall r, reply o <> Ok r)
   /\ usage_logs (store o) = usage_logs s
   /\ analytics_daily (store o) = analytics_daily s
   /\ (store o = s
       \/ exists key u, authenticates rq s key u /\ store o = after_auth env key u s))
  \/ (exists key u,
        authenticates rq s key u
        /\ calls o = [routed.2]
        /\ (- 2 ^ 63 <= tokens routed.1 < 2 ^ 63 ->
            - 2 ^ 63 <= precall env u + tokens routed.1 < 2 ^ 63 ->
            exists l,
              usage_logs (store o) = (usage_logs s ++ [l])%list
              /\ log_endpoint l = "/api/chat"
              /\ log_user_id l = uid u
              /\ log_provider l = called_provider routed.2
              /\ log_model l = called_model routed.2
              /\ forall r, reply o = Ok r ->
                   log_tokens l = r_tokens_used r /\ log_cost l = r_cost r
                   /\ log_response_time l = r_response_time r
                   /\ log_provider l = r_provider r /\ log_model l = model_used r)).
Proof.
  intros o routed.
  destruct (api_chat_shape env rq s) as [(Hs & Hc & Hr) | (key & u & Hauth & H)];
    fold o in Hs, Hc, Hr || fold o in H.
  - left. rewrite Hs. repeat split; try done. by left.
  - pose proof (after_auth_tables env key u s) as (Hlogs & Hdaily).
    destruct H as [(Hs & Hc & Hr) | (Hlt & Ho)].
    + left. rewrite Hs. repeat split; try done. right. by exists key, u.
    + right. rewrite Ho. simpl.
      pose proof (route_select env (req_prompt rq) (req_model rq) (req_provider rq))
        as Hsel.
      fold routed in Hsel |- *.
      destruct routed as [result call]. simpl in *.
      destruct Hsel as (-> & _ & Hp & Hm).
      exists key, u. split; [exact Hauth|]. split; [reflexivity|].
      intros _ _. eexists. rewrite Hlogs. split; [reflexivity|]. simpl.
      repeat split; try done.
      all: intros; match goal with H : respond _ _ = Ok _ |- _ =>
             apply respond_ok_inv in H as (ratio & _ & ->) end; reflexivity.
Qed.

Lemma X4_chat_records_one_log_per_call_witness :
  List.map log_tokens
    (usage_logs (store (api_chat (no_upstream (fun _ => true) 10)
                          (post demo_key "hello world" "auto" "auto")
                          (demo_store 10000 0 50)))) = [2].
Proof.
  destruct (X4_chat_records_one_log_per_call (no_upstream (fun _ => true) 10)
              (post demo_key "hello world" "auto" "auto") (demo_store 10000 0 50))
    as [(Hc & _) | (key & u & Hauth & _ & H)].
  - vm_compute in Hc. discriminate.
  - destruct Hauth as (Hcred & _ & Hacc & _).
    vm_compute in Hcred. injection Hcred as <-.
    vm_compute in Hacc. injection Hacc as <-.
    destruct H as (l & Hlogs & _ & _ & _ & _ & Hr);
      [split; [vm_compute; discriminate | vm_compute; reflexivity]
      | split; [vm_compute; discriminate | vm_compute; reflexivity] |].
    rewrite Hlogs. simpl.
    destruct (Hr {| r_response := mock_text "gpt-3.5-turbo" "hello world";
                    model_used := "gpt-3.5-turbo"; r_provider := "openai";
                    r_tokens_used := 2; r_cost := 0.000004;
                    r_response_time := 0.5; total_tokens_used := 2;
                    remaining_quota := 9998; quota_percentage := 0.02 |})
      as (-> & _); [vm_compute|]; reflexivity.
Defined.

Section ChatRows.

Lemma users_after_auth env key u s :
  users (after_auth env key u s) = List.map (row_after_auth env key u) (users s).
Proof.
  unfold after_auth, row_after_auth.
  destruct (tokens_reset_date u <? now_check env); simpl.
  - reflexivity.
  - by rewrite List.map_id.
Qed.

Lemma row_after_auth_columns env key u v :
  uid (row_after_auth env key u v) = uid v
  /\ api_key (row_after_auth env key u v) = api_key v
  /\ subscription_tier (row_after_auth env key u v) = subscription_tier v
  /\ tokens_included (row_after_auth env key u v) = tokens_included v
  /\ is_active (row_after_auth env key u v) = is_active v.
Proof.
  unfold row_after_auth. destruct (tokens_reset_date u <? now_check env); [|done].
  by destruct (String.eqb (api_key v) key).
Qed.

Lemma row_after_debit_columns env u toks v :
  uid (row_after_debit env u toks v) = uid v
  /\ api_key (row_after_debit env u toks v) = api_key v
  /\ subscription_tier (row_after_debit env u toks v) = subscription_tier v
  /\ tokens_included (row_after_debit env u toks v) = tokens_included v
  /\ is_active (row_after_debit env u toks v) = is_active v
  /\ tokens_reset_date (row_after_debit env u toks v) = tokens_reset_date v.
Proof. unfold row_after_debit. by destruct (String.eqb (uid v) (uid u)). Qed.

(** Row by row, what a request does to [users]. *)
Lemma chat_rows env rq s :
  let o := api_chat env rq s in
  users (store o) = users s
  \/ exists key u,
       authenticates rq s key u
       /\ (users (store o) = List.map (row_after_auth env key u) (users s)
           \/ (precall env u < tokens_included u
               /\ calls o <> []
               /\ users (store o)
                  = List.map
                      (fun v =>
                         row_after_debit env u
                           (tokens (route env (req_prompt rq) (req_model rq)
                                      (req_provider rq)).1)
                           (row_after_auth env key u v))
                      (users s))).
Proof.
  intros o.
  destruct (api_chat_shape env rq s) as [(Hs & _) | (key & u & Hauth & H)];
    fold o in Hs || fold o in H.
  - left. by rewrite Hs.
  - right. exists key, u. split; [exact Hauth|].
    destruct H as [(Hs & _) | (Hlt & Ho)].
    + left. rewrite Hs. apply users_after_auth.
    + right. split; [exact Hlt|]. rewrite Ho. simpl. split; [done|].
      unfold Sql.update_usage. rewrite users_after_auth, List.map_map.
      apply List.map_ext. intros v. unfold row_after_debit.
      destruct (row_after_auth_columns env key u v) as (-> & _). reflexivity.
Qed.

End ChatRows.

(** X5. [/api/chat] writes nothing but counters and dates: it neither adds
    nor removes an account, and the id, the key, the tier, the quota and
    the activation of every account are after the request what they were
    before. A row that has neither the key of the request nor the id of
    its account is left exactly as it was. *)
Theorem X5_chat_keeps_plans_and_other_accounts (env : Env) (rq : Request) (s : Store)
    (i : nat) (v : User) :
  users s !! i = Some v ->
  let o := api_chat env rq s in
  length (users (store o)) = length (users s)
  /\ exists v', users (store o) !! i = Some v'
       /\ uid v' = uid v /\ api_key v' = api_key v
       /\ subscription_tier v' = subscription_tier v
       /\ tokens_included v' = tokens_included v
       /\ is_active v' = is_active v
       /\ ((forall key u, authenticates rq s key u ->
              api_key v <> key /\ uid v <> uid u) -> v' = v).
Proof.
  intros Hi o.
  destruct (chat_rows env rq s) as [Hu | (key & u & Hauth & [Hu | (_ & _ & Hu)])];
    fold o in Hu; rewrite Hu.
  - split; [reflexivity|]. exists v. by repeat split.
  - split; [apply List.length_map|]. rewrite lookup_map, Hi. simpl.
    eexists. split; [reflexivity|].
    pose proof (row_after_auth_columns env key u v) as (? & ? & ? & ? & ?).
    repeat split; try done. intros Hother.
    destruct (Hother key u Hauth) as (Hk & _). unfold row_after_auth.
    destruct (tokens_reset_date u <? now_check env); [|done].
    apply String.eqb_neq in Hk. by rewrite Hk.
  - split; [apply List.length_map|]. rewrite lookup_map, Hi. simpl.
    eexists. split; [reflexivity|].
    pose proof (row_after_auth_columns env key u v) as (Ha1 & Ha2 & Ha3 & Ha4 & Ha5).
    pose proof (row_after_debit_columns env u
                  (tokens (route env (req_prompt rq) (req_model rq)
                             (req_provider rq)).1)
                  (row_after_auth env key u v)) as (Hd1 & Hd2 & Hd3 & Hd4 & Hd5 & _).
    rewrite Hd1, Hd2, Hd3, Hd4, Hd5. repeat split; try done. intros Hother.
    destruct (Hother key u Hauth) as (Hk & Hid).
    apply String.eqb_neq in Hk, Hid. unfold row_after_debit. rewrite Ha1, Hid.
    unfold row_after_auth. destruct (tokens_reset_date u <? now_check env); [|done].
    by rewrite Hk.
Qed.

Lemma X5_chat_keeps_plans_and_other_accounts_witness :
  exists v',
    users (store (api_chat (no_upstream (fun _ => true) 100)
                    (post demo_key "hello world" "auto" "auto")
                    (demo_store 10000 7 50))) !! 0%nat = Some v'
    /\ tokens_included v' = 10000 /\ subscription_tier v' = "starter".
Proof.
  destruct (X5_chat_keeps_plans_and_other_accounts (no_upstream (fun _ => true) 100)
              (post demo_key "hello world" "auto" "auto") (demo_store 10000 7 50)
              0%nat (demo_user 10000 7 50))
    as (_ & v' & Hv & _ & _ & Ht & Hq & _); [reflexivity|].
  exists v'. by repeat split.
Defined.

Section ChatBounds.

Lemma account_in_users key s u : account key s = Some u -> In u (users s).
Proof.
  unfold account, Sql.select_user_by_api_key. intros H.
  by apply List.find_some in H as [H _].
Qed.

Lemma thirty_days_positive : 0 < thirty_days.
Proof. reflexivity. Qed.

(** The account after an authenticated request: as the decorator left it,
    or that with the debit. *)
Lemma account_after_chat env rq s key u :
  authenticates rq s key u ->
  let o := api_chat env rq s in
  account key (store o) = Some (rolled env u)
  \/ account key (store o)
     = Some (Sql.usage_row
               (precall env u
                + tokens (route env (req_prompt rq) (req_model rq) (req_provider rq)).1)
               (now_debit env) (rolled env u)).
Proof.
  intros Hauth o. subst o. rewrite (api_chat_cases env rq s key u Hauth).
  assert (Hacc : account key (after_auth env key u s) = Some (rolled env u)).
  { apply account_after_auth. apply Hauth. }
  destruct (limiter_allows env (get_rate_limit rq s)); [|by left].
  destruct (PyStr.falsy (req_prompt rq)); [by left|].
  destruct (tokens_included u <=? precall env u); [by left|].
  right. simpl. apply account_after_record; [exact Hacc | apply rolled_columns].
Qed.

End ChatBounds.

(** X6. In every answer 200 of [/api/chat], [remaining_quota] is not
    negative and [quota_percentage] is at most 100; [remaining_quota] is
    what is left of [tokens_included] after [total_tokens_used], and 0
    once the total has reached the quota. *)
Theorem X6_chat_response_bounds (env : Env) (rq : Request) (s : Store)
    (r : ChatResponse) :
  reply (api_chat env rq s) = Ok r ->
  0 <= remaining_quota r
  /\ PrimFloat.leb (quota_percentage r) 100 = true
  /\ exists key u,
       authenticates rq s key u
       /\ (total_tokens_used r <= tokens_included u ->
           remaining_quota r + total_tokens_used r = tokens_included u)
       /\ (tokens_included u <= total_tokens_used r -> remaining_quota r = 0).
Proof.
  intros Hok.
  destruct (authenticated_or_denied env rq s) as [(key & u & Hauth) | ([Hd | Hd] & _)];
    [|rewrite Hd in Hok; discriminate..].
  destruct (api_chat_ok_inv env rq s key u r Hauth Hok) as (_ & _ & Hresp).
  apply respond_ok_inv in Hresp as (ratio & _ & ->). simpl.
  split; [lia|]. split; [apply min100_le_100|].
  exists key, u. split; [exact Hauth|]. split; lia.
Qed.

Lemma X6_chat_response_bounds_witness :
  PrimFloat.leb 0.42 100 = true.
Proof.
  destruct (X6_chat_response_bounds (no_upstream (fun _ => true) 10)
              (post demo_key "hello world" "auto" "auto") (demo_store 10000 40 50)
              {| r_response := mock_text "gpt-3.5-turbo" "hello world";
                 model_used := "gpt-3.5-turbo"; r_provider := "openai";
                 r_tokens_used := 2; r_cost := 0.000004; r_response_time := 0.5;
                 total_tokens_used := 42; remaining_quota := 9958;
                 quota_percentage := 0.42 |})
    as (_ & H & _); [vm_compute; reflexivity | exact H].
Defined.

(** X7. [/api/chat] keeps the counters from going negative: if no account
    has a negative counter and the call does not cost a negative number of
    tokens, no account has a negative counter afterwards. *)
Theorem X7_chat_keeps_counters_nonnegative (env : Env) (rq : Request) (s : Store) :
  Forall (fun v => 0 <= tokens_used v) (users s) ->
  0 <= tokens (route env (req_prompt rq) (req_model rq) (req_provider rq)).1 ->
  Forall (fun v => 0 <= tokens_used v) (users (store (api_chat env rq s))).
Proof.
  intros Hall Htok.
  destruct (chat_rows env rq s) as [-> | (key & u & Hauth & [-> | (_ & _ & ->)])];
    [exact Hall | |].
  - apply List.Forall_map. eapply Forall_impl; [exact Hall|]. intros v Hv. simpl.
    unfold row_after_auth. destruct (tokens_reset_date u <? now_check env); [|exact Hv].
    destruct (String.eqb (api_key v) key); [simpl; lia | exact Hv].
  - assert (Hu : 0 <= precall env u).
    { apply precall_nonneg. destruct Hauth as (_ & _ & Ha & _).
      apply account_in_users in Ha. rewrite List.Forall_forall in Hall.
      by apply Hall. }
    apply List.Forall_map. eapply Forall_impl; [exact Hall|]. intros v Hv. simpl.
    unfold row_after_debit.
    destruct (String.eqb (uid (row_after_auth env key u v)) (uid u)); [simpl; lia|].
    unfold row_after_auth. destruct (tokens_reset_date u <? now_check env); [|exact Hv].
    destruct (String.eqb (api_key v) key); [simpl; lia | exact Hv].
Qed.

Lemma X7_chat_keeps_counters_nonnegative_witness :
  Forall (fun v => 0 <= tokens_used v)
    (users (store (api_chat (no_upstream (fun _ => true) 10)
                     (post demo_key "hello world" "auto" "auto")
                     (demo_store 10000 40 50)))).
Proof.
  apply X7_chat_keeps_counters_nonnegative.
  - repeat constructor. simpl. lia.
  - vm_compute. discriminate.
Defined.

(** X8. After an authenticated request to [/api/chat], served or not, the
    account is within its billing period: provided the clock does not run
    backwards between the two readings of the decorator, the stored reset
    date is not before the moment the decorator compared it with, it has
    not moved back, and it is the former date or 30 days (of 24 x 60 x 60
    x 1000000 microseconds) after the second reading. *)
Theorem X8_chat_leaves_period_current (env : Env) (rq : Request) (s : Store)
    (key : string) (u : User) :
  authenticates rq s key u ->
  now_check env <= now_reset env ->
  exists u', account key (store (api_chat env rq s)) = Some u'
    /\ now_check env <= tokens_reset_date u'
    /\ tokens_reset_date u <= tokens_reset_date u'
    /\ (tokens_reset_date u' = tokens_reset_date u
        \/ tokens_reset_date u < now_check env
           /\ tokens_reset_date u' = now_reset env + 30 * (24 * 60 * 60 * 1000000)).
Proof.
  intros Hauth Hclock. change (30 * (24 * 60 * 60 * 1000000)) with thirty_days.
  assert (Hrolled :
    now_check env <= tokens_reset_date (rolled env u)
    /\ tokens_reset_date u <= tokens_reset_date (rolled env u)
    /\ (tokens_reset_date (rolled env u) = tokens_reset_date u
        \/ tokens_reset_date u < now_check env
           /\ tokens_reset_date (rolled env u) = now_reset env + thirty_days)).
  { pose proof thirty_days_positive. unfold rolled.
    destruct (tokens_reset_date u <? now_check env) eqn:E; simpl.
    - repeat split; [lia | lia |]. right. split; [lia | reflexivity].
    - repeat split; [lia | lia |]. by left. }
  destruct (account_after_chat env rq s key u Hauth) as [-> | ->];
    eexists; (split; [reflexivity|]); exact Hrolled.
Qed.

Lemma X8_chat_leaves_period_current_witness :
  exists u',
    account demo_key
      (store (api_chat (no_upstream (fun _ => true) 100)
                (post demo_key "hello world" "auto" "auto")
                (demo_store 10000 40 50))) = Some u'
    /\ 100 <= tokens_reset_date u'.
Proof.
  destruct (X8_chat_leaves_period_current (no_upstream (fun _ => true) 100)
              (post demo_key "hello world" "auto" "auto") (demo_store 10000 40 50)
              demo_key (demo_user 10000 40 50))
    as (u' & Ha & Hn & _).
  - repeat split; reflexivity.
  - simpl. lia.
  - exists u'. by split.
Defined.

Section DailyAggregates.




End DailyAggregates.



Section SerialService.

(** A request that is served within the period records on the database it
    found. *)
Lemma served_step env rq s key u :
  PyStr.falsy key = false -> credential rq = Some key ->
  account key s = Some u -> now_check env <= tokens_reset_date u ->
  calls (api_chat env rq s) <> [] ->
  is_active u = true
  /\ store (api_chat env rq s)
     = record_usage env (ctx_of u (tokens_used u))
         (route env (req_prompt rq) (req_model rq) (req_provider rq)).1 s.
Proof.
  intros Hk Hc Ha Hfresh Hcalls.
  assert (Hauth : authenticates rq s key u).
  { destruct (authenticated_or_denied env rq s)
      as [(k' & u' & Hc' & Hk' & Ha' & Hact) | (_ & _ & Hnil)]; [|done].
    rewrite Hc in Hc'. injection Hc' as <-. rewrite Ha in Ha'.
    injection Ha' as <-. by repeat split. }
  split; [apply Hauth|].
  pose proof (api_chat_cases env rq s key u Hauth) as Hcases.
  rewrite (precall_fresh env u Hfresh), (after_auth_fresh env key u s Hfresh) in Hcases.
  rewrite Hcases in Hcalls |- *.
  destruct (limiter_allows env (get_rate_limit rq s)); [|done].
  destruct (PyStr.falsy (req_prompt rq)); [done|].
  by destruct (tokens_included u <=? tokens_used u).
Qed.

Lemma serial_logs_add_up key rs : forall s u,
  PyStr.falsy key = false ->
  account key s = Some u ->
  served_in_period key rs s ->
  logged_tokens (serve_all rs s) = logged_tokens s + spent rs
  /\ length (usage_logs (serve_all rs s))
     = (length (usage_logs s) + length rs)%nat.
Proof.
  induction rs as [|[env rq] rs IH]; intros s u Hk Ha Hs; simpl.
  - split; lia.
  - destruct Hs as (Hc & Hfresh & Hcalls & Hrest).
    destruct (served_step env rq s key u Hk Hc Ha (Hfresh u Ha) Hcalls) as (_ & Hst).
    destruct (IH (store (api_chat env rq s))
                (Sql.usage_row
                   (tokens_used u
                    + tokens (route env (req_prompt rq) (req_model rq)
                                (req_provider rq)).1)
                   (now_debit env) u) Hk) as (Hl & Hn); [| exact Hrest |].
    + rewrite Hst. by apply account_after_record.
    + rewrite Hl, Hn, Hst. unfold logged_tokens. simpl.
      rewrite logged_tokens_app, List.length_app. simpl. split; lia.
Qed.

End SerialService.

(** X10. Served one after the other within the billing period, the calls
    of an account are billed as they are logged: the stored counter and
    the tokens of the usage logs both grow by the tokens of the calls, and
    one log is appended per request. The counter starts at 0 or above, no
    call costs a negative number of tokens, and the counter stays below
    2^63, so that every count is a 64-bit integer, which SQLite stores. *)
Theorem X10_serial_service_bills_what_it_logs (key : string)
    (rs : list (Env * Request)) (s : Store) (u : User) :
  PyStr.falsy key = false ->
  account key s = Some u ->
  served_in_period key rs s ->
  0 <= tokens_used u ->
  Forall (fun er : Env * Request =>
            0 <= tokens (route er.1 (req_prompt er.2) (req_model er.2)
                           (req_provider er.2)).1) rs ->
  tokens_used u + spent rs < 2 ^ 63 ->
  let s' := serve_all rs s in
  tokens_used <$> account key s' = Some (tokens_used u + spent rs)
  /\ logged_tokens s' = logged_tokens s + spent rs
  /\ length (usage_logs s') = (length (usage_logs s) + length rs)%nat.
Proof.
  intros Hk Ha Hs _ _ _ s'. split.
  - by apply serial_debits_add_up.
  - by apply (serial_logs_add_up key rs s u).
Qed.

Lemma X10_serial_service_bills_what_it_logs_witness :
  let s' := serve_all two_calls_one_day (demo_store 100000 0 50) in
  tokens_used <$> account demo_key s' = Some 4 /\ logged_tokens s' = 4.
Proof.
  destruct (X10_serial_service_bills_what_it_logs demo_key two_calls_one_day
              (demo_store 100000 0 50) (demo_user 100000 0 50))
    as (H1 & H2 & _).
  - reflexivity.
  - reflexivity.
  - simpl. repeat split; try reflexivity.
    + intros u [= <-]. simpl. lia.
    + vm_compute. discriminate.
    + intros u Hu. vm_compute in Hu. injection Hu as <-. simpl. lia.
    + vm_compute. discriminate.
  - simpl. lia.
  - repeat constructor; vm_compute; discriminate.
  - vm_compute. reflexivity.
  - split; [exact H1 | exact H2].
Defined.

(** ** The fallback estimates *)

Section Estimates.

Lemma check_step_iter f (n : positive) : forall k0 ok,
  (Pos.iter (check_step f) (k0, ok) n).1 = k0 + Zpos n
  /\ ((Pos.iter (check_step f) (k0, ok) n).2 = true ->
      ok = true /\ forall k, k0 <= k < k0 + Zpos n -> f k = true).
Proof.
  induction n as [|n IH] using Pos.peano_ind; intros k0 ok.
  - simpl. split; [lia|]. intros H. apply andb_prop in H as [-> Hf].
    split; [reflexivity|]. intros k Hk. by replace k with k0 by lia.
  - rewrite Pos.iter_succ. destruct (IH k0 ok) as (Hfst & Hsnd).
    unfold check_step at 1 3. simpl. rewrite Hfst. split; [lia|].
    intros H. apply andb_prop in H as [H Hf].
    destruct (Hsnd H) as (-> & Hall). split; [reflexivity|].
    intros k Hk. destruct (Z.eq_dec k (k0 + Zpos n)) as [-> | Hne]; [exact Hf|].
    apply Hall. lia.
Qed.

Lemma checked_below_spec f n k :
  checked_below f n = true -> 0 <= k < Zpos n -> f k = true.
Proof.
  unfold checked_below. intros H Hk.
  destruct (check_step_iter f n 0 true) as (_ & Hall).
  destruct (Hall H) as (_ & Hf). apply Hf. lia.
Qed.

Lemma estimates_checked : checked_below estimate_ok estimate_bound = true.
Proof. vm_compute. reflexivity. Qed.

Lemma split_go_spaces s :
  forallb PyStr.is_space s = true -> PyStr.split_go [] s = [].
Proof.
  induction s as [|c s IH]; simpl; [reflexivity|].
  intros H. apply andb_prop in H as [-> H]. by apply IH.
Qed.

End Estimates.

(** X11. For a prompt of up to 10000 words the fallback estimates are the
    integer parts of 1.3 and of 1.2 times the number of words, with no
    rounding surprise from the floating-point product, and so are never
    negative. A prompt made of spaces only has no word: both fallbacks
    count 0 tokens for it. *)
Theorem X11_fallback_token_estimates (prompt m : string) :
  let w := Z.of_nat (length (PyStr.split prompt)) in
  (w < Zpos estimate_bound ->
   tokens (call_openai_mock prompt m) = 13 * w / 10
   /\ tokens (call_claude_mock prompt m) = 12 * w / 10
   /\ 0 <= tokens (call_openai_mock prompt m)
   /\ 0 <= tokens (call_claude_mock prompt m))
  /\ (forallb PyStr.is_space (list_ascii_of_string prompt) = true ->
      tokens (call_openai_mock prompt m) = 0
      /\ tokens (call_claude_mock prompt m) = 0).
Proof.
  intros w. split.
  - intros Hw.
    pose proof (checked_below_spec estimate_ok estimate_bound w estimates_checked)
      as H.
    unfold estimate_ok in H. apply andb_prop in H as [H1 H2]; [|lia].
    apply Z.eqb_eq in H1, H2. simpl. fold w. rewrite H1, H2.
    repeat split; try reflexivity; apply Z.div_pos; lia.
  - intros Hsp. simpl. unfold PyStr.split. rewrite (split_go_spaces _ Hsp).
    split; reflexivity.
Qed.

Lemma X11_fallback_token_estimates_witness :
  tokens (call_openai_mock "a b c d e f g h i j k" "gpt-4") = 14
  /\ tokens (call_claude_mock "   " "claude-3-haiku-20240307") = 0.
Proof.
  split.
  - destruct (X11_fallback_token_estimates "a b c d e f g h i j k" "gpt-4")
      as (H & _).
    destruct H as (H & _); [vm_compute; reflexivity | exact H].
  - destruct (X11_fallback_token_estimates "   " "claude-3-haiku-20240307")
      as (_ & H).
    destruct H as (_ & H); [reflexivity | exact H].
Defined.

(** ** The Stripe webhook *)

Section Webhook.

Lemma tier_of_price_sound p name :
  tier_of_price subscription_tier_items p = Some name ->
  name <> "free"
  /\ exists t, SUBSCRIPTION_TIERS !! name = Some t /\ stripe_price_id t = Some p
               /\ In (name, t) subscription_tier_items.
Proof.
  cbn -[String.eqb].
  destruct (String.eqb "price_starter_monthly" p) eqn:E1.
  { apply String.eqb_eq in E1 as <-. intros [= <-]. split; [discriminate|].
    eexists. split; [reflexivity|]. split; [reflexivity|]. simpl. tauto. }
  destruct (String.eqb "price_pro_monthly" p) eqn:E2.
  { apply String.eqb_eq in E2 as <-. intros [= <-]. split; [discriminate|].
    eexists. split; [reflexivity|]. split; [reflexivity|]. simpl. tauto. }
  destruct (String.eqb "price_enterprise_monthly" p) eqn:E3; [|done].
  apply String.eqb_eq in E3 as <-. intros [= <-]. split; [discriminate|].
  eexists. split; [reflexivity|]. split; [reflexivity|]. simpl. tauto.
Qed.

Lemma tier_of_price_complete name t p :
  In (name, t) subscription_tier_items -> stripe_price_id t = Some p ->
  tier_of_price subscription_tier_items p = Some name.
Proof.
  simpl. intros [H | [H | [H | [H | []]]]] Hp; injection H as <- <-;
    simpl in Hp; try discriminate; injection Hp as <-; reflexivity.
Qed.

Lemma log_event_kernel senv event b :
  kernel (log_event senv event b).2 = kernel b.
Proof.
  unfold log_event. by destruct (existsb _ (webhook_events b)).
Qed.

Lemma log_event_status senv event b :
  (log_event senv event b).1
  = if existsb (fun e => String.eqb (we_id e) (event_id event)) (webhook_events b)
    then Wh500 else Wh200.
Proof. unfold log_event. by destruct (existsb _ (webhook_events b)). Qed.

(** A completed checkout for a known price, step by step. *)
Lemma stripe_webhook_checkout senv b event price tier :
  construct_event senv = Some event ->
  event_type event = "checkout.session.completed" ->
  retrieve_price senv (session_subscription event) = Some price ->
  tier_of_price subscription_tier_items price = Some tier ->
  exists t, SUBSCRIPTION_TIERS !! tier = Some t
    /\ stripe_price_id t = Some price
    /\ stripe_webhook senv b
       = log_event senv event
           {| kernel := update_plan tier (tokens_per_month t) (now_plan senv)
                          (client_reference_id event) (kernel b);
              webhook_events := webhook_events b |}.
Proof.
  intros Hev Hty Hpr Htier.
  destruct (tier_of_price_sound price tier Htier) as (_ & t & Ht & Hp & Hin).
  exists t. split; [exact Ht|]. split; [exact Hp|].
  unfold stripe_webhook. rewrite Hev, Hty, Hpr, Htier, Ht. simpl.
  assert (PyStr.falsy tier = false) as ->; [|reflexivity].
  simpl in Hin. destruct Hin as [H | [H | [H | [H | []]]]]; by injection H as <- _.
Qed.

End Webhook.

(** X12. The price of a checkout names its tier, and only a tier that is
    sold: every tier of [SUBSCRIPTION_TIERS] that has a Stripe price is
    the tier found for that price, and a price for which a tier is found
    is the price of that tier, which is never ["free"]. *)
Theorem X12_price_names_its_tier :
  SUBSCRIPTION_TIERS = list_to_map subscription_tier_items
  /\ (forall name t p,
        In (name, t) subscription_tier_items -> stripe_price_id t = Some p ->
        tier_of_price subscription_tier_items p = Some name)
  /\ (forall p name,
        tier_of_price subscription_tier_items p = Some name ->
        name <> "free"
        /\ exists t, SUBSCRIPTION_TIERS !! name = Some t
                     /\ stripe_price_id t = Some p).
Proof.
  split; [reflexivity|]. split.
  - apply tier_of_price_complete.
  - intros p name H. destruct (tier_of_price_sound p name H) as (Hn & t & Ht & Hp & _).
    split; [exact Hn|]. by exists t.
Qed.

Lemma X12_price_names_its_tier_witness :
  tier_of_price subscription_tier_items "price_pro_monthly" = Some "pro".
Proof.
  destruct X12_price_names_its_tier as (_ & H & _).
  apply (H "pro" {| tokens_per_month := 1000000; rate_limit := "5000/hour";
                    price_per_month := 49.99;
                    stripe_price_id := Some "price_pro_monthly" |}).
  - simpl. tauto.
  - reflexivity.
Defined.

(** X13. A verified [checkout.session.completed] event whose subscription
    has the price of a tier moves every account with the id of its
    [client_reference_id] to that tier and to the tier's monthly quota,
    and leaves the counter and the reset date of the account alone; the
    other accounts, the usage logs and the daily aggregates are untouched.
    The very next rate-limit lookup for a key of the account gives the
    tier's limit. The answer is 200 when the event id is new, and 500
    (the plan being changed all the same) when it is already logged. *)
Theorem X13_checkout_changes_the_plan (senv : StripeEnv) (b : Backend)
    (event : StripeEvent) (price tier : string) :
  construct_event senv = Some event ->
  event_type event = "checkout.session.completed" ->
  retrieve_price senv (session_subscription event) = Some price ->
  tier_of_price subscription_tier_items price = Some tier ->
  let after := stripe_webhook senv b in
  exists t,
    SUBSCRIPTION_TIERS !! tier = Some t
    /\ (forall i v, users (kernel b) !! i = Some v ->
          users (kernel after.2) !! i
          = Some (if String.eqb (uid v) (client_reference_id event)
                  then plan_row tier (tokens_per_month t) (now_plan senv) v
                  else v))
    /\ usage_logs (kernel after.2) = usage_logs (kernel b)
    /\ analytics_daily (kernel after.2) = analytics_daily (kernel b)
    /\ (forall rq key u,
          credential rq = Some key -> PyStr.falsy key = false ->
          account key (kernel b) = Some u -> uid u = client_reference_id event ->
          get_rate_limit rq (kernel after.2) = rate_limit t)
    /\ after.1
       = (if existsb (fun e => String.eqb (we_id e) (event_id event))
               (webhook_events b)
          then Wh500 else Wh200).
Proof.
  intros Hev Hty Hpr Htier after.
  destruct (stripe_webhook_checkout senv b event price tier Hev Hty Hpr Htier)
    as (t & Ht & _ & Hrun).
  exists t. split; [exact Ht|]. subst after. rewrite Hrun, log_event_kernel.
  split.
  { intros i v Hi. simpl. rewrite lookup_map, Hi. reflexivity. }
  split; [reflexivity|]. split; [reflexivity|]. split.
  - intros rq key u Hc Hk Ha Hid.
    rewrite (get_rate_limit_account rq _ key
               (plan_row tier (tokens_per_month t) (now_plan senv) u) Hc Hk).
    + simpl. by rewrite Ht.
    + rewrite <- Hid. by apply account_after_plan.
  - rewrite log_event_status. reflexivity.
Qed.

Lemma X13_checkout_changes_the_plan_witness :
  (stripe_webhook (demo_stripe 7) (demo_backend 100000 500 50)).1 = Wh200
  /\ get_rate_limit (post demo_key "hi" "auto" "auto")
       (kernel (stripe_webhook (demo_stripe 7) (demo_backend 100000 500 50)).2)
     = "5000/hour".
Proof.
  destruct (X13_checkout_changes_the_plan (demo_stripe 7) (demo_backend 100000 500 50)
              demo_checkout "price_pro_monthly" "pro")
    as (t & Ht & _ & _ & _ & Hlimit & Hstatus);
    [reflexivity | reflexivity | reflexivity | reflexivity |].
  split; [exact Hstatus|].
  rewrite (Hlimit (post demo_key "hi" "auto" "auto") demo_key
             (demo_user 100000 500 50)); try reflexivity.
  vm_compute in Ht. by injection Ht as <-.
Defined.

Section WebhookEffects.

(** The handler leaves the kernel's tables as they were, or with the plan
    of a sold tier written. *)
Lemma stripe_webhook_kernel senv b :
  kernel (stripe_webhook senv b).2 = kernel b
  \/ exists event price tier t,
       construct_event senv = Some event
       /\ event_type event = "checkout.session.completed"
       /\ retrieve_price senv (session_subscription event) = Some price
       /\ tier_of_price subscription_tier_items price = Some tier
       /\ SUBSCRIPTION_TIERS !! tier = Some t /\ tier <> "free"
       /\ kernel (stripe_webhook senv b).2
          = update_plan tier (tokens_per_month t) (now_plan senv)
              (client_reference_id event) (kernel b).
Proof.
  destruct (construct_event senv) as [event|] eqn:Hev;
    [|left; unfold stripe_webhook; by rewrite Hev].
  destruct (String.eqb (event_type event) "checkout.session.completed") eqn:Hty;
    [|left; unfold stripe_webhook; rewrite Hev, Hty; apply log_event_kernel].
  apply String.eqb_eq in Hty.
  destruct (retrieve_price senv (session_subscription event)) as [price|] eqn:Hpr;
    [|left; unfold stripe_webhook; rewrite Hev, Hty, Hpr; reflexivity].
  destruct (tier_of_price subscription_tier_items price) as [tier|] eqn:Htier;
    [|left; unfold stripe_webhook; rewrite Hev, Hty, Hpr, Htier;
      apply log_event_kernel].
  right.
  destruct (stripe_webhook_checkout senv b event price tier Hev Hty Hpr Htier)
    as (t & Ht & _ & ->).
  destruct (tier_of_price_sound price tier Htier) as (Hfree & _).
  exists event, price, tier, t. repeat split; try done. apply log_event_kernel.
Qed.

Lemma plan_row_same tier included now v : same_but_plan v (plan_row tier included now v).
Proof. by repeat split. Qed.

End WebhookEffects.



(** X15. The webhook writes plans and nothing else of an account. Whatever
    it receives, it leaves the usage logs, the daily aggregates, and of
    every account the id, the key, the activation, the counter and the
    reset date as they were; an account it changes ends on a tier of
    [SUBSCRIPTION_TIERS] other than ["free"] with that tier's monthly
    quota. A payload whose verification fails is answered 400 with
    nothing written. *)
Theorem X15_webhook_writes_plans_only (senv : StripeEnv) (b : Backend)
    (i : nat) (v : User) :
  users (kernel b) !! i = Some v ->
  let after := stripe_webhook senv b in
  usage_logs (kernel after.2) = usage_logs (kernel b)
  /\ analytics_daily (kernel after.2) = analytics_daily (kernel b)
  /\ (construct_event senv = None -> after = (Wh400, b))
  /\ exists v', users (kernel after.2) !! i = Some v'
       /\ same_but_plan v v'
       /\ (v' = v
           \/ exists t, SUBSCRIPTION_TIERS !! subscription_tier v' = Some t
                        /\ subscription_tier v' <> "free"
                        /\ tokens_included v' = tokens_per_month t).
Proof.
  intros Hi after.
  assert (H400 : construct_event senv = None -> after = (Wh400, b)).
  { intros Hnone. subst after. unfold stripe_webhook. by rewrite Hnone. }
  destruct (stripe_webhook_kernel senv b)
    as [Hk | (event & price & tier & t & _ & _ & _ & _ & Ht & Hfree & Hk)];
    fold after in Hk; rewrite Hk.
  - repeat split; try done. exists v. repeat split; try done. by left.
  - simpl. repeat split; try done. rewrite lookup_map, Hi. simpl.
    destruct (String.eqb (uid v) (client_reference_id event)).
    + eexists. split; [reflexivity|]. split; [apply plan_row_same|].
      right. exists t. by repeat split.
    + exists v. repeat split; try done. by left.
Qed.

Lemma X15_webhook_writes_plans_only_witness :
  exists v',
    users (kernel (stripe_webhook (demo_stripe 7) (demo_backend 100000 500 50)).2)
      !! 0%nat = Some v'
    /\ tokens_used v' = 500 /\ tokens_reset_date v' = 50.
Proof.
  destruct (X15_webhook_writes_plans_only (demo_stripe 7) (demo_backend 100000 500 50)
              0%nat (demo_user 100000 500 50))
    as (_ & _ & _ & v' & Hv & (_ & _ & _ & Hu & Hr) & _); [reflexivity|].
  exists v'. by repeat split.
Defined.

Section WebhookReplay.

Lemma log_event_logged senv event b :
  (log_event senv event b).1 = Wh200 ->
  existsb (fun e => String.eqb (we_id e) (event_id event))
    (webhook_events (log_event senv event b).2) = true.
Proof.
  unfold log_event.
  destruct (existsb _ (webhook_events b)) eqn:E; [discriminate|]. intros _. simpl.
  rewrite List.existsb_app. simpl. by rewrite String.eqb_refl, orb_true_r.
Qed.

Lemma log_event_replayed senv event b :
  existsb (fun e => String.eqb (we_id e) (event_id event)) (webhook_events b) = true ->
  log_event senv event b = (Wh500, b).
Proof. unfold log_event. by intros ->. Qed.

End WebhookReplay.

(** X16. An event delivered a second time is answered 500: once an event
    has been answered 200 its id is in [webhook_events], and the same
    event, verified and resolved as before, fails on the insertion of its
    id. The table of events is not extended, and the accounts keep the
    tier, the quota, the counter and the reset date the first delivery
    left them. *)
Theorem X16_replayed_event_is_refused (senv senv' : StripeEnv) (b : Backend) :
  (stripe_webhook senv b).1 = Wh200 ->
  construct_event senv' = construct_event senv ->
  (forall sub, retrieve_price senv' sub = retrieve_price senv sub) ->
  let first := (stripe_webhook senv b).2 in
  let second := stripe_webhook senv' first in
  second.1 = Wh500
  /\ webhook_events second.2 = webhook_events first
  /\ usage_logs (kernel second.2) = usage_logs (kernel first)
  /\ analytics_daily (kernel second.2) = analytics_daily (kernel first)
  /\ forall i v, users (kernel first) !! i = Some v ->
       exists v', users (kernel second.2) !! i = Some v'
         /\ same_but_plan v v'
         /\ subscription_tier v' = subscription_tier v
         /\ tokens_included v' = tokens_included v.
Proof.
  intros H200 Hev Hpr first second. subst second first.
  assert (Hsame : forall b1 : Backend,
            forall i v, users (kernel b1) !! i = Some v ->
              exists v', users (kernel b1) !! i = Some v' /\ same_but_plan v v'
                /\ subscription_tier v' = subscription_tier v
                /\ tokens_included v' = tokens_included v).
  { intros b1 i v Hi. exists v. by repeat split. }
  unfold stripe_webhook in *. rewrite Hev.
  destruct (construct_event senv) as [event|]; [|discriminate].
  destruct (String.eqb (event_type event) "checkout.session.completed").
  - rewrite Hpr.
    destruct (retrieve_price senv (session_subscription event)) as [price|];
      [|discriminate].
    destruct (tier_of_price subscription_tier_items price) as [tier|].
    + destruct (PyStr.falsy tier).
      * rewrite (log_event_replayed senv' event _ (log_event_logged _ _ _ H200)).
        repeat split; try done. apply Hsame.
      * destruct (SUBSCRIPTION_TIERS !! tier) as [t|]; [|discriminate].
        pose proof (log_event_logged _ _ _ H200) as Hlogged.
        rewrite log_event_replayed by exact Hlogged. simpl.
        repeat split; try done. intros i v Hi.
        rewrite lookup_map, Hi. simpl.
        rewrite log_event_kernel in Hi. simpl in Hi. rewrite lookup_map in Hi.
        destruct (users (kernel b) !! i) as [v0|]; [|discriminate].
        injection Hi as <-.
        destruct (String.eqb (uid v0) (client_reference_id event)) eqn:E; simpl;
          rewrite E; eexists; (split; [reflexivity|]); by repeat split.
    + rewrite (log_event_replayed senv' event _ (log_event_logged _ _ _ H200)).
      repeat split; try done. apply Hsame.
  - rewrite (log_event_replayed senv' event _ (log_event_logged _ _ _ H200)).
    repeat split; try done. apply Hsame.
Qed.

Lemma X16_replayed_event_is_refused_witness :
  (stripe_webhook (demo_stripe 9)
     (stripe_webhook (demo_stripe 7) (demo_backend 100000 500 50)).2).1 = Wh500.
Proof.
  destruct (X16_replayed_event_is_refused (demo_stripe 7) (demo_stripe 9)
              (demo_backend 100000 500 50))
    as (H & _); [reflexivity | reflexivity | reflexivity |].
  exact H.
Defined.

(** ** The Anthropic client *)

Section AnthropicClient.

(** Once the global is written, a call neither constructs nor rewrites
    it. *)
Lemma anthropic_calls_settled cs : forall slot,
  slot <> Unset ->
  let client := match slot with Ready c => Some c | _ => None end in
  anthropic_calls cs slot
  = (List.map (fun c => call_anthropic_api client c.1.2 c.2) cs, slot, 0%nat).
Proof.
  induction cs as [|[[cenv prompt] model] cs IH]; intros slot Hset; [reflexivity|].
  simpl. destruct slot as [| |c]; [done| |].
  - simpl. rewrite (IH Failed) by done. reflexivity.
  - simpl. rewrite (IH (Ready c)) by done. reflexivity.
Qed.

End AnthropicClient.

(** X17. The Anthropic client is constructed at most once, and the outcome
    of that construction is final. Over any sequence of calls of
    [call_anthropic_api] starting with the global unset, whatever the
    environment variable and the constructor do from one call to the
    next, the constructor is called once at most; and once the global is
    set, by a failure or by a client, every later call is served the same
    way: by the fallback after a failure, even if a later construction
    would succeed, and by the client first obtained otherwise, without
    looking at the environment again. *)
Theorem X17_anthropic_client_is_constructed_once
    (cs : list (ClientEnv * string * string)) :
  ((anthropic_calls cs Unset).2 <= 1)%nat
  /\ (forall later,
        anthropic_calls later Failed
        = (List.map (fun c => call_claude_mock c.1.2 c.2) later, Failed, 0%nat))
  /\ (forall client later,
        anthropic_calls later (Ready client)
        = (List.map (fun c => call_anthropic_api (Some client) c.1.2 c.2) later,
           Ready client, 0%nat)).
Proof.
  split; [|split].
  - induction cs as [|[[cenv prompt] model] cs IH]; [simpl; lia|].
    simpl. unfold get_anthropic_client.
    destruct (env_key cenv) as [k|].
    + destruct (PyStr.falsy k).
      * destruct (anthropic_calls cs Unset) as [[results final] n]. simpl in *. lia.
      * destruct (env_construct cenv k) as [c|].
        -- rewrite (anthropic_calls_settled cs (Ready c)) by done. simpl. lia.
        -- rewrite (anthropic_calls_settled cs Failed) by done. simpl. lia.
    + destruct (anthropic_calls cs Unset) as [[results final] n]. simpl in *. lia.
  - intros later. by rewrite (anthropic_calls_settled later Failed).
  - intros client later. by rewrite (anthropic_calls_settled later (Ready client)).
Qed.

(** ** Startup *)

(** X18. When [start.py] starts, [init_db] runs once as [app] is
    imported, whatever comes of it, and then in the loop of [main], which
    does not look at that first outcome: it tries at least once and at
    most three times, and not again after a success of its own. So
    [init_db] has run between 2 and 4 times when the server is started,
    also when its first run succeeded. The loop reports the database
    ready exactly when one of its three attempts succeeds, the attempts
    made are those up to its first success, and the process sleeps after
    a failed attempt only when another attempt follows, so twice at
    most. *)
Theorem X18_startup_retries_are_bounded (init_db : nat -> bool) :
  let b := startup init_db in
  let r := retries b in
  import_ok b = init_db 0%nat
  /\ init_db_calls b = S (attempts r)
  /\ (2 <= init_db_calls b <= 4)%nat
  /\ (1 <= attempts r <= 3)%nat
  /\ (sleeps r <= 2)%nat
  /\ (database_ready r = true <->
      exists k, (1 <= k <= 3)%nat /\ init_db k = true)
  /\ (database_ready r = true ->
      init_db (attempts r) = true
      /\ sleeps r = (attempts r - 1)%nat
      /\ forall k, (1 <= k < attempts r)%nat -> init_db k = false)
  /\ (database_ready r = false ->
      attempts r = 3%nat /\ sleeps r = 2%nat /\ init_db_calls b = 4%nat).
Proof.
  unfold startup. simpl.
  split; [reflexivity|]. split; [reflexivity|].
  destruct (init_db 1%nat) eqn:E1; simpl.
  { split; [lia|]. split; [lia|]. split; [lia|]. split; [|split].
    - split; [|done]. intros _. exists 1%nat. split; [lia | exact E1].
    - intros _. split; [exact E1|]. split; [reflexivity|]. intros k Hk. lia.
    - discriminate. }
  destruct (init_db 2%nat) eqn:E2; simpl.
  { split; [lia|]. split; [lia|]. split; [lia|]. split; [|split].
    - split; [|done]. intros _. exists 2%nat. split; [lia | exact E2].
    - intros _. split; [exact E2|]. split; [reflexivity|].
      intros k Hk. by replace k with 1%nat by lia.
    - discriminate. }
  destruct (init_db 3%nat) eqn:E3; simpl.
  { split; [lia|]. split; [lia|]. split; [lia|]. split; [|split].
    - split; [|done]. intros _. exists 3%nat. split; [lia | exact E3].
    - intros _. split; [exact E3|]. split; [reflexivity|].
      intros k Hk. destruct k as [|[|[|k]]]; [lia | done | done | lia].
    - discriminate. }
  split; [lia|]. split; [lia|]. split; [lia|]. split; [|split].
  - split; [discriminate|].
    intros (k & Hk & Hok). destruct k as [|[|[|[|k]]]]; [lia | congruence.. | lia].
  - discriminate.
  - done.
Qed.

Lemma X18_startup_retries_are_bounded_witness :
  init_db_calls (startup (fun _ => true)) = 2%nat
  /\ init_db_calls (startup (fun k => Nat.eqb k 2)) = 3%nat
  /\ sleeps (retries (startup (fun k => Nat.eqb k 2))) = 1%nat.
Proof.
  destruct (X18_startup_retries_are_bounded (fun _ => true))
    as (_ & Hc & _ & _ & _ & _ & H & _).
  destruct H as (_ & Hs & _); [reflexivity|].
  destruct (X18_startup_retries_are_bounded (fun k => Nat.eqb k 2))
    as (_ & Hc2 & _ & _ & _ & _ & H2 & _).
  destruct H2 as (_ & Hs2 & _); [reflexivity|].
  split; [rewrite Hc; reflexivity|]. split; [rewrite Hc2; reflexivity|].
  rewrite Hs2. reflexivity.
Defined.

(** ** Registration *)

Section Registration.

Lemma lower_char_idem c : lower_char (lower_char c) = lower_char c.
Proof. destruct c as [[] [] [] [] [] [] [] []]; reflexivity. Qed.

Lemma lower_char_space c : PyStr.is_space (lower_char c) = PyStr.is_space c.
Proof. destruct c as [[] [] [] [] [] [] [] []]; reflexivity. Qed.

Lemma lstrip_map l :
  lstrip (List.map lower_char l) = List.map lower_char (lstrip l).
Proof.
  induction l as [|c l IH]; [reflexivity|]. simpl. rewrite lower_char_space.
  by destruct (PyStr.is_space c).
Qed.

Lemma rstrip_map l :
  rstrip (List.map lower_char l) = List.map lower_char (rstrip l).
Proof.
  induction l as [|c l IH]; [reflexivity|]. simpl. rewrite IH, lower_char_space.
  destruct (rstrip l); simpl; [by destruct (PyStr.is_space c) | reflexivity].
Qed.

Lemma rstrip_idem l : rstrip (rstrip l) = rstrip l.
Proof.
  induction l as [|c l IH]; [reflexivity|]. simpl.
  destruct (rstrip l) as [|d r] eqn:E.
  - destruct (PyStr.is_space c) eqn:Ec; simpl; [reflexivity | by rewrite Ec].
  - simpl in *. by rewrite IH.
Qed.

Lemma lstrip_idem l : lstrip (lstrip l) = lstrip l.
Proof.
  induction l as [|c l IH]; [reflexivity|]. simpl.
  destruct (PyStr.is_space c) eqn:Ec; [exact IH | simpl; by rewrite Ec].
Qed.

(** Stripping on the right leaves a list that starts with no space as
    it starts. *)
Lemma lstrip_rstrip l : lstrip (rstrip (lstrip l)) = rstrip (lstrip l).
Proof.
  induction l as [|c l IH]; [reflexivity|]. simpl.
  destruct (PyStr.is_space c) eqn:Ec; [exact IH|]. simpl.
  destruct (rstrip l); rewrite ?Ec; simpl; rewrite ?Ec; reflexivity.
Qed.

Lemma normalise_email_idem e :
  normalise_email (normalise_email e) = normalise_email e.
Proof.
  unfold normalise_email. rewrite list_ascii_of_string_of_list_ascii.
  rewrite <- rstrip_map, <- lstrip_map, List.map_map.
  rewrite (List.map_ext _ lower_char) by apply lower_char_idem.
  by rewrite lstrip_rstrip, rstrip_idem.
Qed.

Lemma NoDup_snoc {A : Type} (l : list A) (x : A) :
  NoDup l -> ~ In x l -> NoDup (l ++ [x]).
Proof.
  intros Hl Hx. apply NoDup_app. split; [exact Hl|]. split; [|apply NoDup_singleton].
  intros y Hy Hyx. apply list_elem_of_singleton in Hyx as ->.
  by apply Hx, list_elem_of_In.
Qed.


Lemma existsb_false_forall {A : Type} (p : A -> bool) (l : list A) :
  existsb p l = false -> forall x, In x l -> p x = false.
Proof.
  induction l as [|y l IH]; simpl; [by intros _ x []|].
  intros H x [-> | Hx]; apply orb_false_elim in H as [Hy Hl]; [exact Hy|].
  by apply IH.
Qed.

(** A registration leaves the table as it was or appends the new member,
    no member having its email, its id or its key. *)
Lemma register_cases renv rq ms :
  (register renv rq ms).2 = ms
  /\ (forall k, (register renv rq ms).1 <> Registered k)
  /\ (forall id, (register renv rq ms).1 <> LoggedIn id)
  \/ let m := new_member renv (normalise_email (reg_email rq)) (reg_password rq) in
     reg_post rq = true
     /\ PyStr.falsy (normalise_email (reg_email rq)) = false
     /\ PyStr.falsy (reg_password rq) = false
     /\ (forall m', In m' ms ->
           email m' <> email m
           /\ uid (member_row m') <> uid (member_row m)
           /\ api_key (member_row m') <> api_key (member_row m))
     /\ register renv rq ms
        = (if reg_is_json rq then Registered (api_key (member_row m))
           else LoggedIn (uid (member_row m)), (ms ++ [m])%list).
Proof.
  unfold register. cbv zeta.
  set (address := normalise_email (reg_email rq)).
  set (m := new_member renv address (reg_password rq)).
  destruct (reg_post rq); [|left; by repeat split].
  destruct (PyStr.falsy address) eqn:He;
    [left; simpl; destruct (reg_is_json rq); by repeat split|].
  destruct (PyStr.falsy (reg_password rq)) eqn:Hp;
    [left; simpl; destruct (reg_is_json rq); by repeat split|].
  cbn [orb].
  destruct (existsb (fun m0 => String.eqb (email m0) address) ms) eqn:Hdup;
    [left; destruct (reg_is_json rq); by repeat split|].
  destruct (existsb
              (fun m' => String.eqb (uid (member_row m')) (uid (member_row m))
                         || String.eqb (api_key (member_row m'))
                              (api_key (member_row m))) ms) eqn:Hcol;
    [left; by repeat split|].
  right. split; [reflexivity|]. split; [reflexivity|]. split; [reflexivity|].
  split; [|reflexivity].
  intros m' Hm'.
  pose proof (existsb_false_forall _ _ Hdup m' Hm') as Hd. simpl in Hd.
  pose proof (existsb_false_forall _ _ Hcol m' Hm') as Hc. simpl in Hc.
  apply orb_false_elim in Hc as [Hc1 Hc2].
  apply String.eqb_neq in Hd, Hc1, Hc2. by repeat split.
Qed.

Lemma account_of_new_member key ms m s :
  api_key (member_row m) = key ->
  (forall m', In m' ms -> api_key (member_row m') <> key) ->
  account key (members_store (ms ++ [m]) s) = Some (member_row m).
Proof.
  intros Hk Hfresh. unfold account, members_store, Sql.select_user_by_api_key. simpl.
  induction ms as [|m0 ms IH]; simpl.
  - by rewrite Hk, String.eqb_refl.
  - assert (String.eqb (api_key (member_row m0)) key = false) as ->.
    { apply String.eqb_neq. apply Hfresh. by left. }
    apply IH. intros m' Hm'. apply Hfresh. by right.
Qed.

End Registration.



(** X20. Registration keeps the constraints of the table. It never
    changes or removes a member, and appends one at most; if ids, keys and
    emails are unique before, they are unique after; and the email it
    stores is already lowered and stripped. *)
Theorem X20_registration_keeps_the_table_sound (renv : RegisterEnv)
    (rq : RegisterRequest) (ms : list Member) :
  members_unique ms ->
  let after := (register renv rq ms).2 in
  members_unique after
  /\ (after = ms
      \/ exists m, after = (ms ++ [m])%list
                   /\ email m = normalise_email (reg_email rq)
                   /\ normalise_email (email m) = email m
                   /\ is_active (member_row m) = true).
Proof.
  intros (Hid & Hkey & Hemail) after. subst after.
  destruct (register_cases renv rq ms)
    as [(-> & _) | (_ & _ & _ & Hfresh & ->)].
  - split; [by repeat split | by left].
  - simpl. split.
    + unfold members_unique. rewrite !List.map_app. simpl.
      repeat split; apply NoDup_snoc; try done; intros Hin;
        apply List.in_map_iff in Hin as (m' & Heq & Hin);
        destruct (Hfresh m' Hin) as (H1 & H2 & H3); done.
    + right. eexists. split; [reflexivity|]. simpl.
      split; [reflexivity|]. split; [apply normalise_email_idem | reflexivity].
Qed.

Lemma X20_registration_keeps_the_table_sound_witness :
  members_unique (register (demo_register 5) (demo_signup "a@b.c") []).2.
Proof.
  apply (X20_registration_keeps_the_table_sound (demo_register 5)
           (demo_signup "a@b.c") []).
  repeat split; apply NoDup_nil_2.
Defined.

(** X21. An email is registered once, whatever its case and the spaces
    around it. After a registration that went through, a registration
    whose email lowers and strips to the same text is turned away with
    "Email already registered", as a JSON error or on the form, and
    nothing is written. *)
Theorem X21_registration_refuses_the_same_email (renv renv' : RegisterEnv)
    (rq rq' : RegisterRequest) (ms : list Member) :
  (exists k, (register renv rq ms).1 = Registered k)
  \/ (exists id, (register renv rq ms).1 = LoggedIn id) ->
  reg_post rq' = true ->
  PyStr.falsy (reg_password rq') = false ->
  normalise_email (reg_email rq') = normalise_email (reg_email rq) ->
  register renv' rq' (register renv rq ms).2
  = (if reg_is_json rq' then RegisterError "Email already registered"
     else RegisterPage (Some "Email already registered"),
     (register renv rq ms).2).
Proof.
  intros Hdone Hpost Hp Hsame.
  destruct (register_cases renv rq ms)
    as [(_ & Hk & Hid) | (_ & He & _ & _ & Hrun)].
  { exfalso. destruct Hdone as [(k & H) | (id & H)]; [by eapply Hk | by eapply Hid]. }
  rewrite Hrun. simpl. unfold register. cbv zeta.
  rewrite Hpost, Hsame, He, Hp. cbn [orb].
  rewrite List.existsb_app. simpl. rewrite String.eqb_refl.
  by rewrite orb_true_r.
Qed.

Lemma X21_registration_refuses_the_same_email_witness :
  (register (demo_register 9) (demo_signup "BOB@example.com")
     (register (demo_register 5) (demo_signup " Bob@Example.COM ") []).2).1
  = RegisterError "Email already registered".
Proof.
  rewrite (X21_registration_refuses_the_same_email (demo_register 5)
             (demo_register 9) (demo_signup " Bob@Example.COM ")
             (demo_signup "BOB@example.com") []);
    [reflexivity | left; eexists; reflexivity | reflexivity | reflexivity
    | reflexivity].
Defined.

(** ** The two endpoints together *)

(** X22. What [/api/openclaw] charges counts against the quota that
    [/api/chat] enforces. Within the billing period, once a served
    request to [/api/openclaw] has taken the counter to the quota or
    beyond, the next request of the account to [/api/chat] that reaches
    the quota gate is answered [QuotaExceeded], calls no adapter and
    writes nothing. *)
Theorem X22_openclaw_usage_exhausts_the_chat_quota (env env2 : Env)
    (rq rq2 : Request) (tools : list (option string)) (s : Store)
    (key : string) (u : User) :
  authenticates rq s key u ->
  limiter_allows env "100 per hour" = true ->
  now_check env <= tokens_reset_date u ->
  tokens_included u <= tokens_used u + 10 * Z.of_nat (length (named_tools tools)) ->
  let s1 := oc_store (api_openclaw env rq (Some tools) s) in
  credential rq2 = Some key ->
  limiter_allows env2 (get_rate_limit rq2 s1) = true ->
  PyStr.falsy (req_prompt rq2) = false ->
  now_check env2 <= tokens_reset_date u ->
  reply (api_chat env2 rq2 s1) = QuotaExceeded
  /\ calls (api_chat env2 rq2 s1) = []
  /\ store (api_chat env2 rq2 s1) = s1.
Proof.
  intros Hauth Hlim Hfresh Hfull s1 Hc2 Hlim2 Hprompt2 Hfresh2.
  set (n := 10 * Z.of_nat (length (named_tools tools))) in *.
  assert (Hs1 : account key s1 = Some (add_usage_row n u)).
  { subst s1. unfold api_openclaw.
    rewrite (authenticate_authenticated env rq s key u Hauth), Hlim.
    unfold openclaw_unified. rewrite run_tools_acc. simpl.
    rewrite (after_auth_fresh env key u s Hfresh).
    apply account_after_openclaw; [apply Hauth | reflexivity]. }
  assert (Hauth2 : authenticates rq2 s1 key (add_usage_row n u)).
  { destruct Hauth as (_ & Hk & _ & Hact). by repeat split. }
  rewrite (api_chat_cases env2 rq2 s1 key _ Hauth2), Hlim2, Hprompt2.
  rewrite (precall_fresh env2 (add_usage_row n u)) by exact Hfresh2.
  rewrite (after_auth_fresh env2 key (add_usage_row n u) s1) by exact Hfresh2.
  simpl tokens_included. simpl tokens_used.
  by destruct (tokens_included u <=? tokens_used u + n) eqn:E; [|lia].
Qed.

Lemma X22_openclaw_usage_exhausts_the_chat_quota_witness :
  reply (api_chat (no_upstream (fun _ => true) 20)
           (post demo_key "hello" "auto" "auto")
           (oc_store (api_openclaw (no_upstream (fun _ => true) 10)
                        (post demo_key "" "auto" "auto")
                        (Some [Some "web_search"; Some "weather"])
                        (demo_store 10000 9990 50))))
  = QuotaExceeded.
Proof.
  destruct (X22_openclaw_usage_exhausts_the_chat_quota
              (no_upstream (fun _ => true) 10) (no_upstream (fun _ => true) 20)
              (post demo_key "" "auto" "auto") (post demo_key "hello" "auto" "auto")
              [Some "web_search"; Some "weather"] (demo_store 10000 9990 50)
              demo_key (demo_user 10000 9990 50))
    as (H & _);
    [repeat split; reflexivity | reflexivity | simpl; lia | simpl; lia
    | reflexivity | reflexivity | reflexivity | simpl; lia | exact H].
Defined.

(** ** The checkout and the demo account *)

Section Checkout.

Lemma tier_in_items t d :
  SUBSCRIPTION_TIERS !! t = Some d -> In (t, d) subscription_tier_items.
Proof.
  intros H. apply list_elem_of_In.
  by apply (elem_of_list_to_map_2 (M := gmap string) subscription_tier_items).
Qed.

End Checkout.

(** X23. The tier asked for at checkout is the tier granted. The view
    answers "Invalid subscription tier" without calling Stripe unless the
    tier is one of [SUBSCRIPTION_TIERS]; otherwise it asks Stripe for a
    session on the price of that tier under the id of the logged-in user;
    and when the completed session comes back to the webhook with that
    price and that id, the accounts of that id are moved to the very tier
    that was asked for, with its monthly quota, their counters kept. *)
Theorem X23_checkout_grants_the_tier_asked_for
    (create : SessionParams -> string + string) (user_id : string) :
  create_checkout_session create user_id None = InvalidTier
  /\ (forall t, SUBSCRIPTION_TIERS !! t = None ->
                create_checkout_session create user_id (Some t) = InvalidTier)
  /\ forall t url,
       create_checkout_session create user_id (Some t) = CheckoutUrl url ->
       exists d,
         SUBSCRIPTION_TIERS !! t = Some d
         /\ create {| line_item_price := stripe_price_id d;
                      param_client_reference_id := user_id |} = inl url
         /\ forall p senv b event,
              stripe_price_id d = Some p ->
              construct_event senv = Some event ->
              event_type event = "checkout.session.completed" ->
              client_reference_id event = user_id ->
              retrieve_price senv (session_subscription event) = Some p ->
              forall i v,
                users (kernel b) !! i = Some v -> uid v = user_id ->
                exists v',
                  users (kernel (stripe_webhook senv b).2) !! i = Some v'
                  /\ subscription_tier v' = t
                  /\ tokens_included v' = tokens_per_month d
                  /\ tokens_used v' = tokens_used v.
Proof.
  split; [reflexivity|]. split.
  { intros t Ht. unfold create_checkout_session. by rewrite Ht. }
  intros t url Hurl. unfold create_checkout_session in Hurl.
  destruct (SUBSCRIPTION_TIERS !! t) as [d|] eqn:Ht; [|discriminate].
  exists d. split; [reflexivity|]. split.
  { destruct (create _) as [u|e]; [by injection Hurl as -> | discriminate]. }
  intros p senv b event Hp Hev Hty Hid Hpr i v Hi Hv.
  pose proof (tier_of_price_complete t d p (tier_in_items t d Ht) Hp) as Htier.
  destruct (stripe_webhook_checkout senv b event p t Hev Hty Hpr Htier)
    as (d' & Ht' & _ & ->).
  rewrite Ht in Ht'. injection Ht' as <-.
  rewrite log_event_kernel. simpl. rewrite lookup_map, Hi. simpl.
  rewrite Hid, Hv, String.eqb_refl. eexists. by repeat split.
Qed.

Lemma X23_checkout_grants_the_tier_asked_for_witness :
  exists v',
    users (kernel (stripe_webhook (demo_stripe 7) (demo_backend 100000 500 50)).2)
      !! 0%nat = Some v'
    /\ subscription_tier v' = "pro" /\ tokens_included v' = 1000000
    /\ tokens_used v' = 500.
Proof.
  destruct (X23_checkout_grants_the_tier_asked_for
              (fun _ => inl "https://checkout") "u-demo") as (_ & _ & H).
  destruct (H "pro" "https://checkout") as (d & Hd & _ & Hback); [reflexivity|].
  vm_compute in Hd. injection Hd as <-.
  destruct (Hback "price_pro_monthly" (demo_stripe 7) (demo_backend 100000 500 50)
              demo_checkout) with (i := 0%nat) (v := demo_user 100000 500 50)
    as (v' & Hv & Ht & Hq & Hu); try reflexivity.
  exists v'. by repeat split.
Defined.

(** X24. [init_db] creates the demo account once. If it returns, running
    it again, at any later time, changes nothing; it has left the members
    it found as they were, and has appended the demo account (the key
    ["demo_"] followed by the first 16 digits of the digest, the tier
    ["starter"], 100000 tokens, a counter of 0) exactly when no member
    had that key, in which case the key resolves to the new account. *)
Theorem X24_init_db_creates_the_demo_account_once (renv renv' : RegisterEnv)
    (ms ms' : list Member) :
  init_db renv ms = Some ms' ->
  md5_hexdigest renv' "demo" = md5_hexdigest renv "demo" ->
  let demo := ("demo_" ++ PyStr.take 16 (md5_hexdigest renv "demo"))%string in
  init_db renv' ms' = Some ms'
  /\ ((ms' = ms /\ exists m, In m ms /\ api_key (member_row m) = demo)
      \/ ((forall m, In m ms -> api_key (member_row m) <> demo)
          /\ exists m,
               ms' = (ms ++ [m])%list
               /\ api_key (member_row m) = demo
               /\ subscription_tier (member_row m) = "starter"
               /\ tokens_included (member_row m) = 100000
               /\ tokens_used (member_row m) = 0
               /\ forall s, account demo (members_store ms' s)
                            = Some (member_row m))).
Proof.
  intros Hrun Hmd5 demo. unfold init_db in *. rewrite Hmd5. fold demo in Hrun |- *.
  destruct (existsb (fun m => String.eqb (api_key (member_row m)) demo) ms) eqn:Hex.
  - injection Hrun as <-. rewrite Hex. split; [reflexivity|]. left.
    split; [reflexivity|].
    apply List.existsb_exists in Hex as (m & Hin & Heq).
    apply String.eqb_eq in Heq. by exists m.
  - match type of Hrun with
    | (if ?c then _ else _) = _ => destruct c; [discriminate|]
    end.
    injection Hrun as <-.
    rewrite List.existsb_app. simpl. rewrite String.eqb_refl, orb_true_r.
    split; [reflexivity|]. right.
    assert (Hfresh : forall m, In m ms -> api_key (member_row m) <> demo).
    { intros m Hin. apply String.eqb_neq.
      apply (existsb_false_forall _ _ Hex m Hin). }
    split; [exact Hfresh|]. eexists. split; [reflexivity|]. simpl.
    repeat split. intros s. by apply account_of_new_member.
Qed.

Lemma X24_init_db_creates_the_demo_account_once_witness :
  init_db (demo_register 9)
    [ {| email := "demo@example.com"; password_hash := "$2b$12$hash";
         created_at := 5;
         member_row :=
           {| uid := "u-new"; api_key := "demo_0123456789abcdef";
              subscription_tier := "starter"; tokens_included := 100000;
              tokens_used := 0; tokens_reset_date := 5 + thirty_days;
              is_active := true; updated_at := 5 |} |} ]
  = Some
    [ {| email := "demo@example.com"; password_hash := "$2b$12$hash";
         created_at := 5;
         member_row :=
           {| uid := "u-new"; api_key := "demo_0123456789abcdef";
              subscription_tier := "starter"; tokens_included := 100000;
              tokens_used := 0; tokens_reset_date := 5 + thirty_days;
              is_active := true; updated_at := 5 |} |} ].
Proof.
  destruct (X24_init_db_creates_the_demo_account_once (demo_register 5)
              (demo_register 9) [] _ eq_refl eq_refl) as (H & _).
  exact H.
Defined.
